(** * Eco-tracker: emission calculator, recommendation engine and predictor

    A shallow embedding of [src/carbon_calculator.py],
    [src/ai_recommendations.py] and [src/ml_models.py], followed by the
    properties established about them.

    Conventions of the embedding:
    - Python floats are modelled by exact rationals ([Q]); equalities between
      computed quantities are stated with [==] ([Qeq]).
    - A Python [dict] that the code iterates over is an association list in
      insertion order; a [dict] that is only probed by key is a [gmap].
    - A Python exception is a value of type [exception]; fallible functions
      return [result A], a sum whose left side is the raised exception.
    - Calls into numpy's global random generator thread a [RandomState]. *)

From stdpp Require Import gmap strings.
From Stdlib Require Import String Ascii List ZArith QArith Qabs Qround.
From Stdlib Require Import Lia Lqa Sorting Permutation Bool.
Import ListNotations.

Local Open Scope string_scope.
Local Open Scope Z_scope.
Local Open Scope Q_scope.

(** * Python primitives *)

Module Py.

(** ** Exceptions and fallible computations *)

Inductive exception : Type :=
| ValueError (msg : string)
| KeyError (key : string)
| IndexError (msg : string).

(** The name of the exception's class, as [type(e).__name__] gives it. *)
Definition class_name (e : exception) : string :=
  match e with
  | ValueError _ => "ValueError"
  | KeyError _ => "KeyError"
  | IndexError _ => "IndexError"
  end.

Definition result (A : Type) : Type := (exception + A)%type.

Definition ret {A} (a : A) : result A := inr a.
Definition raise {A} (e : exception) : result A := inl e.

Definition bind {A B} (c : result A) (k : A -> result B) : result B :=
  match c with
  | inl e => inl e
  | inr a => k a
  end.

(** [for x in xs: acc = body acc x], where the body may raise. *)
Fixpoint for_each {A S} (xs : list A) (body : S -> A -> result S) (acc : S)
  : result S :=
  match xs with
  | [] => ret acc
  | x :: xs' => bind (body acc x) (for_each xs' body)
  end.

(** ** Dictionaries in insertion order

    A Python dict is an association list whose keys are distinct;
    [setitem] keeps them so.  Statements over every association list hold
    in particular of every dict. *)

Definition dict (V : Type) : Type := list (string * V).

(** [d.get(k)] *)
Fixpoint get {V} (k : string) (d : dict V) : option V :=
  match d with
  | [] => None
  | (k', v) :: d' => if String.eqb k k' then Some v else get k d'
  end.

(** [d.get(k, default)] *)
Definition get_default {V} (k : string) (d : dict V) (default : V) : V :=
  match get k d with
  | Some v => v
  | None => default
  end.

(** [d[k]] *)
Definition getitem {V} (d : dict V) (k : string) : result V :=
  match get k d with
  | Some v => ret v
  | None => raise (KeyError k)
  end.

(** [d[k] = v]: an existing key keeps its position, a new one goes last. *)
Fixpoint setitem {V} (k : string) (v : V) (d : dict V) : dict V :=
  match d with
  | [] => [(k, v)]
  | (k', v') :: d' =>
      if String.eqb k k' then (k, v) :: d' else (k', v') :: setitem k v d'
  end.

Definition items {V} (d : dict V) : list (string * V) := d.
Definition keys {V} (d : dict V) : list string := map fst d.
Definition values {V} (d : dict V) : list V := map snd d.

(** ** Numbers *)

(** [sum(xs)]: left to right from 0. *)
Definition sum (xs : list Q) : Q := fold_left Qplus xs 0.
Definition sumZ (xs : list Z) : Z := fold_left Z.add xs 0%Z.

(** [min(a, b)] and [max(a, b)]: the first argument wins a tie. *)
Definition min (a b : Q) : Q := if Qlt_le_dec b a then b else a.
Definition max (a b : Q) : Q := if Qlt_le_dec a b then b else a.

(** [int(x)]: truncation towards zero. *)
Definition int (x : Q) : Z := Z.quot (Qnum x) (Z.pos (Qden x)).

(** ** Sequences *)

(** [xs[-1]] *)
Definition last_item {A} (xs : list A) : result A :=
  match rev xs with
  | [] => raise (IndexError "list index out of range")
  | x :: _ => ret x
  end.

(** [xs[:n]] is [take n xs]; [xs[-n:]] for [n >= 0] *)
Definition take_last {A} (n : nat) (xs : list A) : list A :=
  skipn (length xs - n) xs.

(** [[x] * n]: a negative count gives the empty list. *)
Definition replicate {A} (x : A) (n : Z) : list A := repeat x (Z.to_nat n).

(** [range(lo, hi)] *)
Definition range (lo hi : Z) : list Z :=
  map (fun i => (lo + Z.of_nat i)%Z) (seq 0 (Z.to_nat (hi - lo))).

(** ** Strings (ASCII letters; other characters have no case) *)

Definition is_upper (c : ascii) : bool :=
  let n := nat_of_ascii c in (65 <=? n)%nat && (n <=? 90)%nat.
Definition is_lower (c : ascii) : bool :=
  let n := nat_of_ascii c in (97 <=? n)%nat && (n <=? 122)%nat.
Definition to_lower (c : ascii) : ascii :=
  if is_upper c then ascii_of_nat (nat_of_ascii c + 32) else c.
Definition to_upper (c : ascii) : ascii :=
  if is_lower c then ascii_of_nat (nat_of_ascii c - 32) else c.

(** [s.lower()] *)
Fixpoint lower (s : string) : string :=
  match s with
  | EmptyString => EmptyString
  | String c s' => String (to_lower c) (lower s')
  end.

(** [s.title()]: a letter that follows a letter is lowered, any other
    letter is raised. *)
Fixpoint title_from (previous_is_cased : bool) (s : string) : string :=
  match s with
  | EmptyString => EmptyString
  | String c s' =>
      let cased := is_upper c || is_lower c in
      String (if previous_is_cased then to_lower c else to_upper c)
             (title_from cased s')
  end.
Definition title (s : string) : string := title_from false s.

(** [needle in haystack] *)
Fixpoint contains (needle haystack : string) : bool :=
  String.prefix needle haystack
  || match haystack with
     | EmptyString => false
     | String _ rest => contains needle rest
     end.

(** [any(p(x) for x in xs)] *)
Definition any {A} (p : A -> bool) (xs : list A) : bool := existsb p xs.

End Py.

Notation "'try!' x ':=' c 'in' k" := (Py.bind c (fun x => k))
  (at level 10, x pattern, c at level 100, k at level 200).

(** * The emission calculator ([carbon_calculator.py]) *)

Module Calculator.
Import Py.

(** Emission factors (kg CO2 per unit), one table per category. *)
Module emission_factors.
Definition transportation : dict Q :=
  [ ("car_gasoline", 0.411); ("car_diesel", 0.364); ("car_electric", 0.1);
    ("bus", 0.089); ("train", 0.041); ("plane_domestic", 0.255);
    ("plane_international", 0.195); ("motorcycle", 0.197);
    ("bicycle", 0.0); ("walking", 0.0) ].
Definition energy : dict Q :=
  [ ("electricity", 0.92); ("natural_gas", 5.3); ("heating_oil", 10.15);
    ("propane", 5.68); ("coal", 2.23) ].
Definition food : dict Q :=
  [ ("beef", 27.0); ("lamb", 39.2); ("pork", 12.1); ("chicken", 6.9);
    ("fish", 6.1); ("dairy", 3.2); ("eggs", 4.8); ("vegetables", 2.0);
    ("fruits", 1.1); ("grains", 2.5); ("processed_food", 5.8) ].
Definition waste : dict Q :=
  [ ("landfill", 0.57); ("recycling", 0.0); ("composting", 0.0);
    ("incineration", 0.7) ].
End emission_factors.

(** The [details] of one transportation mode: both keys are optional. *)
Record TransportDetails : Type :=
  { distance : option Q; frequency : option Q }.

(** [user_data]: each category may be absent. *)
Record ActivityInput : Type :=
  { transportation : option (dict TransportDetails);
    energy : option (dict Q);
    food : option (dict Q);
    waste : option (dict Q) }.

Definition calculate_transportation_footprint
  (transport_data : dict TransportDetails) : Q :=
  fold_left
    (fun total_emissions '(mode, details) =>
       match get mode emission_factors.transportation with
       | Some factor =>
           let distance := match distance details with Some d => d | None => 0 end in
           let frequency := match frequency details with Some f => f | None => 1 end in
           total_emissions + distance * frequency * factor
       | None => total_emissions
       end)
    (items transport_data) 0.0.

(** The three remaining categories share one loop shape: an amount per key,
    multiplied by the key's factor when the table has it. *)
Definition weighted_footprint (factors : dict Q) (data : dict Q) : Q :=
  fold_left
    (fun total_emissions '(key, amount) =>
       match get key factors with
       | Some factor => total_emissions + amount * factor
       | None => total_emissions
       end)
    (items data) 0.0.

Definition calculate_energy_footprint (energy_data : dict Q) : Q :=
  weighted_footprint emission_factors.energy energy_data.
Definition calculate_food_footprint (food_data : dict Q) : Q :=
  weighted_footprint emission_factors.food food_data.
Definition calculate_waste_footprint (waste_data : dict Q) : Q :=
  weighted_footprint emission_factors.waste waste_data.

(** [if key in user_data: breakdown[key] = f(user_data[key])] *)
Definition record_category {D} (key : string) (data : option D)
  (f : D -> Q) (breakdown : dict Q) : dict Q :=
  match data with
  | Some d => setitem key (f d) breakdown
  | None => breakdown
  end.

Definition calculate_total_footprint (user_data : ActivityInput) : dict Q :=
  let footprint_breakdown : dict Q := [] in
  let footprint_breakdown :=
    record_category "transportation" (transportation user_data)
      calculate_transportation_footprint footprint_breakdown in
  let footprint_breakdown :=
    record_category "energy" (energy user_data)
      calculate_energy_footprint footprint_breakdown in
  let footprint_breakdown :=
    record_category "food" (food user_data)
      calculate_food_footprint footprint_breakdown in
  let footprint_breakdown :=
    record_category "waste" (waste user_data)
      calculate_waste_footprint footprint_breakdown in
  setitem "total" (sum (values footprint_breakdown)) footprint_breakdown.

End Calculator.

(** * The recommendation engine ([ai_recommendations.py]) *)

Module Recommender.
Import Py.

Definition recommendation_database : dict (dict (list string)) :=
  [ ("transportation",
      [ ("high_emissions",
          [ "Switch to an electric or hybrid vehicle - can reduce emissions by 40-60%";
            "Use public transportation for daily commutes";
            "Implement carpooling or ride-sharing for regular trips";
            "Work from home 2-3 days per week if possible";
            "Combine multiple errands into single trips";
            "Consider cycling or walking for short distances (<3 miles)";
            "Plan vacations closer to home to reduce flight emissions";
            "Use video conferencing instead of business travel" ]);
        ("medium_emissions",
          [ "Maintain your vehicle properly for better fuel efficiency";
            "Plan routes efficiently to minimize driving time";
            "Use eco-driving techniques (smooth acceleration, steady speeds)";
            "Consider upgrading to a more fuel-efficient vehicle";
            "Use public transport for longer trips" ]);
        ("low_emissions",
          [ "Great job! Your transportation emissions are low";
            "Continue using sustainable transport options";
            "Share your transportation habits with friends and family" ]) ]);
    ("energy",
      [ ("high_emissions",
          [ "Switch to renewable energy sources (solar, wind)";
            "Improve home insulation to reduce heating/cooling needs";
            "Upgrade to energy-efficient appliances (ENERGY STAR rated)";
            "Install a programmable thermostat";
            "Replace incandescent bulbs with LED lighting";
            "Unplug electronics when not in use";
            "Use cold water for washing clothes when possible";
            "Consider a heat pump for heating and cooling" ]);
        ("medium_emissions",
          [ "Set thermostat 2-3 degrees lower in winter, higher in summer";
            "Use natural light during the day";
            "Air-dry clothes instead of using the dryer";
            "Seal air leaks around windows and doors" ]);
        ("low_emissions",
          [ "Excellent energy management!";
            "Continue your energy-efficient practices";
            "Consider sharing tips with neighbors" ]) ]);
    ("food",
      [ ("high_emissions",
          [ "Reduce red meat consumption (beef, lamb) by 50%";
            "Try 'Meatless Monday' or plant-based meals 2-3 times per week";
            "Buy local and seasonal produce when possible";
            "Reduce food waste through meal planning";
            "Grow your own herbs and vegetables";
            "Choose organic and sustainably produced foods";
            "Reduce dairy consumption or try plant-based alternatives";
            "Avoid heavily processed and packaged foods" ]);
        ("medium_emissions",
          [ "Plan meals in advance to reduce waste";
            "Choose chicken or fish over red meat";
            "Buy from local farmers markets";
            "Compost food scraps" ]);
        ("low_emissions",
          [ "Your food choices are climate-friendly!";
            "Keep up the sustainable eating habits";
            "Consider sharing recipes with others" ]) ]);
    ("waste",
      [ ("high_emissions",
          [ "Increase recycling rate to 80% or higher";
            "Start composting organic waste";
            "Reduce single-use items (bags, bottles, containers)";
            "Buy products with minimal packaging";
            "Donate or sell items instead of throwing them away";
            "Choose reusable alternatives (water bottles, shopping bags)";
            "Repair items instead of replacing them";
            "Buy second-hand when possible" ]);
        ("medium_emissions",
          [ "Improve sorting for better recycling";
            "Reduce packaging waste by buying in bulk";
            "Use both sides of paper";
            "Choose products made from recycled materials" ]);
        ("low_emissions",
          [ "Excellent waste management!";
            "Your waste practices are very sustainable";
            "Help others learn about proper waste disposal" ]) ]) ].

(** Impact estimates, kg CO2 per year. *)
Definition impact_estimates : dict (dict Z) :=
  [ ("transportation",
      [ ("switch_to_electric", -2000); ("work_from_home_2days", -800);
        ("use_public_transport", -1200); ("carpool_regularly", -600);
        ("eco_driving", -300); ("bike_short_trips", -400) ]);
    ("energy",
      [ ("renewable_energy", -1500); ("led_lighting", -200);
        ("efficient_appliances", -500); ("better_insulation", -800);
        ("programmable_thermostat", -300); ("unplug_devices", -150) ]);
    ("food",
      [ ("reduce_meat_50percent", -500); ("local_food", -200);
        ("reduce_food_waste", -300); ("plant_based_2days", -400);
        ("organic_food", -100) ]);
    ("waste",
      [ ("increase_recycling", -200); ("composting", -150);
        ("reduce_single_use", -100); ("buy_second_hand", -80);
        ("repair_vs_replace", -120) ]) ]%Z.

Definition thresholds : dict (dict Q) :=
  [ ("transportation", [("high", 100); ("medium", 50)]);
    ("energy", [("high", 200); ("medium", 100)]);
    ("food", [("high", 150); ("medium", 75)]);
    ("waste", [("high", 50); ("medium", 25)]) ].

(** Keyword to action key, per category, in the order the code lists them. *)
Definition action_mapping : dict (dict string) :=
  [ ("transportation",
      [ ("electric", "switch_to_electric");
        ("work from home", "work_from_home_2days");
        ("public", "use_public_transport");
        ("carpool", "carpool_regularly");
        ("eco-driving", "eco_driving");
        ("cycling", "bike_short_trips") ]);
    ("energy",
      [ ("renewable", "renewable_energy");
        ("LED", "led_lighting");
        ("appliances", "efficient_appliances");
        ("insulation", "better_insulation");
        ("thermostat", "programmable_thermostat");
        ("unplug", "unplug_devices") ]);
    ("food",
      [ ("meat", "reduce_meat_50percent");
        ("local", "local_food");
        ("waste", "reduce_food_waste");
        ("plant-based", "plant_based_2days");
        ("organic", "organic_food") ]);
    ("waste",
      [ ("recycling", "increase_recycling");
        ("composting", "composting");
        ("single-use", "reduce_single_use");
        ("second-hand", "buy_second_hand");
        ("repair", "repair_vs_replace") ]) ].

(** One entry of the list that [get_personalized_recommendations] returns. *)
Record Recommendation : Type :=
  { category : string;
    recommendation : string;
    impact_estimate : Z;
    priority : Z;
    difficulty : string }.

(** The first keyword of the table that occurs in the lowered text decides. *)
Fixpoint first_match (rec_lower : string) (table : list (string * string))
  : option string :=
  match table with
  | [] => None
  | (keyword, action) :: table' =>
      if contains keyword rec_lower then Some action
      else first_match rec_lower table'
  end.

Definition _extract_action_key (recommendation category : string)
  : result string :=
  let rec_lower := lower recommendation in
  try! table := getitem action_mapping category in
  match first_match rec_lower (items table) with
  | Some action => ret action
  | None =>
      match values table with
      | action :: _ => ret action
      | [] => raise (IndexError "list index out of range")
      end
  end.

Definition _calculate_priority (current_emissions : Q) (impact : Z) : Z :=
  let emission_score := min (current_emissions / 100) 5 in
  let impact_score := min (inject_Z (Z.abs impact) / 500) 5 in
  int (emission_score + impact_score).

Definition high_difficulty_keywords : list string :=
  ["switch"; "install"; "upgrade"; "renewable"].
Definition medium_difficulty_keywords : list string :=
  ["reduce"; "increase"; "improve"; "plan"].

Definition _estimate_difficulty (recommendation : string) : string :=
  let rec_lower := lower recommendation in
  if any (fun keyword => contains keyword rec_lower) high_difficulty_keywords
  then "High"
  else if any (fun keyword => contains keyword rec_lower) medium_difficulty_keywords
  then "Medium"
  else "Low".

(** The sort key of the final ranking: [(priority, abs(impact_estimate))],
    compared as Python compares tuples. *)
Definition rank (r : Recommendation) : Z * Z :=
  (priority r, Z.abs (impact_estimate r)).

Definition tuple_ltb (a b : Z * Z) : bool :=
  (fst a <? fst b)%Z || ((fst a =? fst b)%Z && (snd a <? snd b)%Z).

(** [xs.sort(key=key, reverse=True)]: descending and stable, so an element
    goes in front of the first one that is not strictly greater. *)
Fixpoint insert_descending {A} (key : A -> Z * Z) (x : A) (sorted : list A)
  : list A :=
  match sorted with
  | [] => [x]
  | y :: sorted' =>
      if tuple_ltb (key x) (key y) then y :: insert_descending key x sorted'
      else x :: sorted
  end.

Definition sort_reverse {A} (key : A -> Z * Z) (xs : list A) : list A :=
  fold_right (insert_descending key) [] xs.

(** The body of the inner loop: one recommendation text of a category. *)
Definition score_recommendation (category : string) (emissions : Q)
  (recommendations : list Recommendation) (rec : string)
  : result (list Recommendation) :=
  try! action_key := _extract_action_key rec category in
  try! impacts := getitem impact_estimates category in
  let impact := get_default action_key impacts 0%Z in
  ret (recommendations ++
         [ {| category := title category;
              recommendation := rec;
              impact_estimate := impact;
              priority := _calculate_priority emissions impact;
              difficulty := _estimate_difficulty rec |} ])%list.

(** The body of the outer loop: one entry of the footprint. *)
Definition recommend_category (recommendations : list Recommendation)
  (entry : string * Q) : result (list Recommendation) :=
  let '(category, emissions) := entry in
  if String.eqb category "total" then ret recommendations
  else
    try! limits := getitem thresholds category in
    try! high := getitem limits "high" in
    try! level :=
      (if Qlt_le_dec high emissions then ret "high_emissions"
       else
         try! medium := getitem limits "medium" in
         ret (if Qlt_le_dec medium emissions then "medium_emissions"
              else "low_emissions")) in
    try! levels := getitem recommendation_database category in
    try! category_recs := getitem levels level in
    for_each (take 2 category_recs)
      (score_recommendation category emissions) recommendations.

(** [user_patterns] and [user_goals] are accepted and never read. *)
Definition get_personalized_recommendations {Patterns Goals : Type}
  (user_footprint : dict Q) (user_patterns : Patterns)
  (user_goals : option Goals) : result (list Recommendation) :=
  try! recommendations := for_each (items user_footprint) recommend_category [] in
  ret (take 8 (sort_reverse rank recommendations)).

(** One phase of the action plan. *)
Record Phase : Type :=
  { focus : string;
    actions : list Recommendation;
    expected_reduction : Z }.

Record ActionPlan : Type :=
  { weeks_1_2 : Phase;
    weeks_3_6 : Phase;
    weeks_7_12 : Phase;
    total_potential_reduction : Z }.

(** [[r for r in recommendations if r['difficulty'] == level]] *)
Definition with_difficulty (level : string)
  (recommendations : list Recommendation) : list Recommendation :=
  filter (fun r => String.eqb (difficulty r) level) recommendations.

(** [sum(abs(r['impact_estimate']) for r in selected)] *)
Definition reduction_of (selected : list Recommendation) : Z :=
  sumZ (map (fun r => Z.abs (impact_estimate r)) selected).

Definition generate_action_plan (recommendations : list Recommendation)
  (timeframe_weeks : Z) : ActionPlan :=
  let easy_wins := with_difficulty "Low" recommendations in
  let medium_actions := with_difficulty "Medium" recommendations in
  let major_changes := with_difficulty "High" recommendations in
  let phase_1 :=
    {| focus := "Quick Wins";
       actions := take 3 easy_wins;
       expected_reduction := reduction_of (take 3 easy_wins) |} in
  let phase_2 :=
    {| focus := "Habit Changes";
       actions := take 3 medium_actions;
       expected_reduction := reduction_of (take 3 medium_actions) |} in
  let phase_3 :=
    {| focus := "Major Improvements";
       actions := take 2 major_changes;
       expected_reduction := reduction_of (take 2 major_changes) |} in
  let total_reduction :=
    sumZ (map expected_reduction [phase_1; phase_2; phase_3]) in
  {| weeks_1_2 := phase_1;
     weeks_3_6 := phase_2;
     weeks_7_12 := phase_3;
     total_potential_reduction := total_reduction |}.

End Recommender.

(** * The predictor ([ml_models.py]) *)

Module Predictor.
Import Py.

(** ** The libraries the predictor calls

    numpy, pandas and scikit-learn are not part of the repository.  What
    the code asks of them is collected in two interfaces; the properties
    below hold for every implementation that honours the documented
    contracts stated next to them. *)

(** numpy: the process-wide random generator, [polyfit] and a few array
    reductions.  A draw takes the generator's state and gives it back. *)
Class Numpy : Type :=
  { RandomState : Type;
    (** [np.random.seed(s)] *)
    seed : Z -> RandomState;
    (** [np.random.randint(low, high, size)] *)
    randint : Z -> Z -> nat -> RandomState -> list Z * RandomState;
    (** [np.random.normal(loc, scale, size)] *)
    normal : Q -> Q -> nat -> RandomState -> list Q * RandomState;
    (** [np.random.normal(loc, scale)]: one sample *)
    normal_sample : Q -> Q -> RandomState -> Q * RandomState;
    (** [np.random.exponential(scale, size)] *)
    exponential : Q -> nat -> RandomState -> list Q * RandomState;
    (** [np.random.poisson(lam, size)] *)
    poisson : Q -> nat -> RandomState -> list Z * RandomState;
    (** [np.random.uniform(low, high, size)] *)
    uniform : Q -> Q -> nat -> RandomState -> list Q * RandomState;
    (** [np.random.choice(a, size, p=p)] *)
    choice : forall {A : Type},
        list A -> option (list Q) -> nat -> RandomState -> list A * RandomState;
    (** [np.polyfit(x, y, deg)]: coefficients, highest power first *)
    polyfit : list Q -> list Q -> Z -> list Q;
    (** [np.sqrt], [a.mean()] and [a.std()] *)
    sqrt : Q -> Q;
    mean : list Q -> Q;
    std : list Q -> Q }.

(** The documented contracts of numpy that the code relies on: a draw of
    [size] samples has [size] elements, [choice] only returns elements of
    the array it is given, and a fit of degree 1 has two coefficients. *)
Class NumpySpec (np : Numpy) : Prop :=
  { randint_length : forall low high size g,
      length (fst (randint low high size g)) = size;
    normal_length : forall loc scale size g,
      length (fst (normal loc scale size g)) = size;
    exponential_length : forall scale size g,
      length (fst (exponential scale size g)) = size;
    poisson_length : forall lam size g,
      length (fst (poisson lam size g)) = size;
    uniform_length : forall low high size g,
      length (fst (uniform low high size g)) = size;
    choice_length : forall A (a : list A) p size g,
      a <> [] -> length (fst (choice a p size g)) = size;
    choice_elements : forall A (a : list A) p size g,
      Forall (fun x => In x a) (fst (choice a p size g));
    polyfit_linear : forall x y,
      x <> [] -> length x = length y -> length (polyfit x y 1) = 2%nat }.

(** A computation that draws from the global generator. *)
Definition Rand `{Numpy} (A : Type) : Type := RandomState -> A * RandomState.

Definition rand_ret `{Numpy} {A} (a : A) : Rand A := fun g => (a, g).
Definition rand_bind `{Numpy} {A B} (c : Rand A) (k : A -> Rand B) : Rand B :=
  fun g => let (a, g') := c g in k a g'.
Definition np_random_seed `{Numpy} (s : Z) : Rand unit := fun _ => (tt, seed s).

(** ** Data frames *)

Inductive column : Type :=
| Numeric (xs : list Q)
| Text (xs : list string).

Definition column_length (c : column) : nat :=
  match c with
  | Numeric xs => length xs
  | Text xs => length xs
  end.

(** A frame: its number of rows and its columns, in order. *)
Record DataFrame : Type :=
  { n_rows : nat;
    columns : dict column }.

(** Every column of a frame has as many entries as the frame has rows. *)
Definition well_formed (df : DataFrame) : Prop :=
  Forall (fun '(_, c) => column_length c = n_rows df) (columns df).

(** [pd.DataFrame(data)] for a dict of arrays *)
Definition make_frame (data : dict column) : result DataFrame :=
  match data with
  | [] => ret {| n_rows := 0; columns := [] |}
  | (_, first) :: _ =>
      if forallb (fun '(_, c) => Nat.eqb (column_length c) (column_length first)) data
      then ret {| n_rows := column_length first; columns := data |}
      else raise (ValueError "All arrays must be of the same length")
  end.

(** [df[name]] *)
Definition get_column (df : DataFrame) (name : string) : result column :=
  getitem (columns df) name.

(** [df[name] = values] *)
Definition set_column (name : string) (c : column) (df : DataFrame)
  : result DataFrame :=
  if Nat.eqb (column_length c) (n_rows df)
  then ret {| n_rows := n_rows df; columns := setitem name c (columns df) |}
  else raise (ValueError "Length of values does not match length of index").

(** [df[names]] *)
Definition select (names : list string) (df : DataFrame) : result DataFrame :=
  try! cols :=
    for_each names
      (fun acc name =>
         try! c := get_column df name in ret (acc ++ [(name, c)])%list)
      [] in
  ret {| n_rows := n_rows df; columns := cols |}.

(** [df[names] = values], the array read column by column *)
Fixpoint set_columns (names : list string) (values : list (list Q))
  (df : DataFrame) : result DataFrame :=
  match names, values with
  | [], [] => ret df
  | name :: names', xs :: values' =>
      try! df' := set_column name (Numeric xs) df in
      set_columns names' values' df'
  | _, _ => raise (ValueError "Columns must be same length as key")
  end.

(** [df.drop(name, axis=1)] *)
Definition drop_column (name : string) (df : DataFrame) : result DataFrame :=
  match get name (columns df) with
  | None => raise (KeyError name)
  | Some _ =>
      ret {| n_rows := n_rows df;
             columns := filter (fun '(k, _) => negb (String.eqb k name))
                          (columns df) |}
  end.

(** A value of a user's record: a number or a label. *)
Inductive cell : Type :=
| Num (x : Q)
| Str (s : string).

(** [pd.DataFrame([user_data])]: one row, a column per key *)
Definition single_row (user_data : dict cell) : DataFrame :=
  {| n_rows := 1;
     columns :=
       map (fun '(k, v) =>
              (k, match v with
                  | Num x => Numeric [x]
                  | Str s => Text [s]
                  end))
         user_data |}.

(** ** Series arithmetic, element by element *)

Definition times (s : list Q) (k : Q) : list Q := map (fun x => x * k) s.
Definition over (s : list Q) (k : Q) : list Q := map (fun x => x / k) s.
Definition minus_from (k : Q) (s : list Q) : list Q := map (fun x => k - x) s.
Definition plus (s t : list Q) : list Q := zip_with Qplus s t.
Definition mult (s t : list Q) : list Q := zip_with Qmult s t.
Definition integers (s : list Z) : list Q := map inject_Z s.

(** [series + array]: numpy refuses operands of different lengths. *)
Definition plus_array (s a : list Q) : result (list Q) :=
  if Nat.eqb (length s) (length a) then ret (zip_with Qplus s a)
  else raise (ValueError "operands could not be broadcast together").

(** [np.maximum(series, k)] *)
Definition maximum (s : list Q) (k : Q) : list Q :=
  map (fun x => if Qlt_le_dec x k then k else x) s.

(** ** Synthetic training data *)

Definition location_types : list string := ["urban"; "suburban"; "rural"].
Definition vehicle_types : list string :=
  ["gasoline"; "diesel"; "electric"; "hybrid"].

Definition generate_synthetic_data `{Numpy} (n_samples : nat)
  : Rand (result DataFrame) :=
  rand_bind (np_random_seed 42) (fun _ =>
  rand_bind (randint 18 80 n_samples) (fun age =>
  rand_bind (normal 50000 20000 n_samples) (fun income =>
  rand_bind (randint 1 6 n_samples) (fun household_size =>
  rand_bind (choice location_types None n_samples) (fun location_type =>
  rand_bind (exponential 100 n_samples) (fun car_miles_per_week =>
  rand_bind (randint 0 7 n_samples) (fun public_transport_usage =>
  rand_bind (poisson 2 n_samples) (fun flights_per_year =>
  rand_bind (choice vehicle_types None n_samples) (fun vehicle_type =>
  rand_bind (normal 900 300 n_samples) (fun electricity_kwh_monthly =>
  rand_bind (normal 50 20 n_samples) (fun natural_gas_therms_monthly =>
  rand_bind (normal 2000 800 n_samples) (fun home_size_sqft =>
  rand_bind (choice [0; 1]%Z (Some [0.7; 0.3]) n_samples) (fun renewable_energy =>
  rand_bind (randint 0 21 n_samples) (fun meat_meals_per_week =>
  rand_bind (uniform 0 100 n_samples) (fun local_food_percentage =>
  rand_bind (uniform 0 100 n_samples) (fun organic_food_percentage =>
  rand_bind (normal 15 5 n_samples) (fun waste_kg_per_week =>
  rand_bind (uniform 0 100 n_samples) (fun recycling_percentage =>
  rand_bind (choice [0; 1]%Z (Some [0.6; 0.4]) n_samples) (fun composting =>
  let data : dict column :=
    [ ("age", Numeric (integers age));
      ("income", Numeric income);
      ("household_size", Numeric (integers household_size));
      ("location_type", Text location_type);
      ("car_miles_per_week", Numeric car_miles_per_week);
      ("public_transport_usage", Numeric (integers public_transport_usage));
      ("flights_per_year", Numeric (integers flights_per_year));
      ("vehicle_type", Text vehicle_type);
      ("electricity_kwh_monthly", Numeric electricity_kwh_monthly);
      ("natural_gas_therms_monthly", Numeric natural_gas_therms_monthly);
      ("home_size_sqft", Numeric home_size_sqft);
      ("renewable_energy", Numeric (integers renewable_energy));
      ("meat_meals_per_week", Numeric (integers meat_meals_per_week));
      ("local_food_percentage", Numeric local_food_percentage);
      ("organic_food_percentage", Numeric organic_food_percentage);
      ("waste_kg_per_week", Numeric waste_kg_per_week);
      ("recycling_percentage", Numeric recycling_percentage);
      ("composting", Numeric (integers composting)) ] in
  (* annual footprint in kg CO2, from the columns just stored *)
  let carbon_footprint :=
    plus (plus (plus (plus (plus
      (times (times car_miles_per_week 52) 0.411)
      (times (times (integers flights_per_year) 1000) 0.225))
      (mult (times (times electricity_kwh_monthly 12) 0.92)
            (minus_from 1 (times (integers renewable_energy) 0.8))))
      (times (times natural_gas_therms_monthly 12) 5.3))
      (times (times (integers meat_meals_per_week) 52) 2.5))
      (mult (times (times waste_kg_per_week 52) 0.57)
            (minus_from 1 (over recycling_percentage 100))) in
  rand_bind (normal 0 500 n_samples) (fun noise =>
  rand_ret
    (try! df := make_frame data in
     try! df := set_column "carbon_footprint" (Numeric carbon_footprint) df in
     try! noisy := plus_array carbon_footprint noise in
     try! df := set_column "carbon_footprint" (Numeric noisy) df in
     set_column "carbon_footprint" (Numeric (maximum noisy 1000)) df)
  )))))))))))))))))))).

(** ** Trend forecast *)

(** [np.arange(n)] *)
Definition arange (n : nat) : list Q := map (fun i => inject_Z (Z.of_nat i)) (seq 0 n).

(** [coeffs[0]] *)
Definition first_item {A} (xs : list A) : result A :=
  match xs with
  | x :: _ => ret x
  | [] => raise (IndexError "index 0 is out of bounds for axis 0 with size 0")
  end.

(** The projection loop: one noisy, floored value per step. *)
Fixpoint project_values `{Numpy} (last_value trend_slope : Q) (steps : list Z)
  (future_values : list Q) : Rand (list Q) :=
  match steps with
  | [] => rand_ret future_values
  | i :: steps' =>
      let projected_value := last_value + trend_slope * inject_Z i in
      rand_bind (normal_sample 0 (Qabs projected_value * 0.05)) (fun variation =>
      project_values last_value trend_slope steps'
        (future_values ++ [max 0 (projected_value + variation)])%list)
  end.

Definition predict_future_trend `{Numpy} (historical_data : list Q)
  (days_ahead : Z) : Rand (result (list Q)) :=
  if (length historical_data <? 7)%nat then
    (* not enough data: flat projection *)
    rand_ret (try! last_value := last_item historical_data in
              ret (replicate last_value days_ahead))
  else
    let recent_data := take_last 30 historical_data in
    let x := arange (length recent_data) in
    let coeffs := polyfit x recent_data 1 in
    match first_item coeffs, last_item historical_data with
    | inl e, _ => rand_ret (raise e)
    | _, inl e => rand_ret (raise e)
    | inr trend_slope, inr last_value =>
        rand_bind
          (project_values last_value trend_slope (range 1 (days_ahead + 1)) [])
          (fun future_values => rand_ret (ret future_values))
    end.

(** ** Training and prediction *)

Inductive ModelKind : Type :=
| RandomForestRegressor
| GradientBoostingRegressor
| XGBRegressor
| LGBMRegressor.

(** scikit-learn (and the two boosting libraries behind the same estimator
    protocol).  A fit that fails may leave the object in any state, so the
    fitting transformers give the object back next to their outcome. *)
Class Sklearn : Type :=
  { LabelEncoder : Type;
    new_LabelEncoder : LabelEncoder;
    label_fit_transform : LabelEncoder -> column -> result (list Q) * LabelEncoder;
    label_transform : LabelEncoder -> column -> result (list Q);
    StandardScaler : Type;
    new_StandardScaler : StandardScaler;
    scaler_fit_transform :
      StandardScaler -> DataFrame -> result (list (list Q)) * StandardScaler;
    scaler_transform : StandardScaler -> DataFrame -> result (list (list Q));
    Regressor : Type;
    (** the estimator with [n_estimators=100, random_state=42] *)
    new_Regressor : ModelKind -> Regressor;
    fit : Regressor -> DataFrame -> column -> result Regressor;
    predict : Regressor -> DataFrame -> result (list Q);
    (** [train_test_split(X, y, test_size=0.2, random_state=42)] *)
    train_test_split :
      DataFrame -> column -> result (DataFrame * DataFrame * column * column);
    mean_squared_error : column -> list Q -> result Q;
    r2_score : column -> list Q -> result Q;
    (** [cross_val_score(model, X, y, cv=cv, scoring='r2')] *)
    cross_val_score : Regressor -> DataFrame -> column -> Z -> result (list Q) }.

(** The documented behaviour of scikit-learn on empty input: a label
    encoder fits an empty column to the empty encoding, and a scaler's fit
    rejects an array without samples with a [ValueError]. *)
Class SklearnSpec (sk : Sklearn) : Prop :=
  { label_fit_empty : forall encoder c,
      column_length c = 0%nat ->
      exists encoder', label_fit_transform encoder c = (ret [], encoder');
    scaler_needs_samples : forall scaler X,
      n_rows X = 0%nat ->
      exists msg scaler',
        scaler_fit_transform scaler X = (raise (ValueError msg), scaler') }.

Section Methods.
Context `{Numpy} `{Sklearn}.

(** The attributes of a [CarbonFootprintPredictor]. *)
Record State : Type :=
  { models : gmap string Regressor;
    scalers : gmap string StandardScaler;
    encoders : gmap string LabelEncoder;
    feature_names : list string }.

(** [__init__] *)
Definition init : State :=
  {| models := ∅; scalers := ∅; encoders := ∅; feature_names := [] |}.

Definition set_models (m : gmap string Regressor) (self : State) : State :=
  {| models := m; scalers := scalers self; encoders := encoders self;
     feature_names := feature_names self |}.
Definition set_scalers (s : gmap string StandardScaler) (self : State) : State :=
  {| models := models self; scalers := s; encoders := encoders self;
     feature_names := feature_names self |}.
Definition set_encoders (e : gmap string LabelEncoder) (self : State) : State :=
  {| models := models self; scalers := scalers self; encoders := e;
     feature_names := feature_names self |}.
Definition set_feature_names (names : list string) (self : State) : State :=
  {| models := models self; scalers := scalers self; encoders := encoders self;
     feature_names := names |}.

(** A method: it may raise, and what it did to [self] before stays done. *)
Definition Method (A : Type) : Type := State -> result A * State.

Definition method_bind {A B} (c : Method A) (k : A -> Method B) : Method B :=
  fun self =>
    match c self with
    | (inl e, self') => (inl e, self')
    | (inr a, self') => k a self'
    end.

Fixpoint method_for_each {A S} (xs : list A) (body : S -> A -> Method S)
  (acc : S) : Method S :=
  match xs with
  | [] => fun self => (ret acc, self)
  | x :: xs' => method_bind (body acc x) (method_for_each xs' body)
  end.

Definition categorical_cols : list string := ["location_type"; "vehicle_type"].

(** The body of the loop over [categorical_cols]. *)
Definition encode_column (is_training : bool) (df_processed : DataFrame)
  (col : string) : Method DataFrame :=
  fun self =>
    match get col (columns df_processed) with
    | None => (ret df_processed, self)
    | Some labels =>
        if is_training then
          let '(codes, encoder) := label_fit_transform new_LabelEncoder labels in
          let self := set_encoders (<[col := encoder]> (encoders self)) self in
          (try! codes := codes in
           set_column col (Numeric codes) df_processed, self)
        else
          match encoders self !! col with
          | None => (ret df_processed, self)
          | Some encoder =>
              (try! codes := label_transform encoder labels in
               set_column col (Numeric codes) df_processed, self)
          end
    end.

Definition scale_features (is_training : bool) (df_processed : DataFrame)
  : Method DataFrame :=
  fun self =>
    if is_training then
      let feature_cols :=
        filter (fun col => negb (String.eqb col "carbon_footprint"))
          (keys (columns df_processed)) in
      let self := set_feature_names feature_cols self in
      match select feature_cols df_processed with
      | inl e =>
          (raise e,
           set_scalers (<["features" := new_StandardScaler]> (scalers self)) self)
      | inr X =>
          let '(scaled, scaler) := scaler_fit_transform new_StandardScaler X in
          let self := set_scalers (<["features" := scaler]> (scalers self)) self in
          (try! scaled := scaled in
           set_columns feature_cols scaled df_processed, self)
      end
    else
      match scalers self !! "features" with
      | None => (ret df_processed, self)
      | Some scaler =>
          (try! X := select (feature_names self) df_processed in
           try! scaled := scaler_transform scaler X in
           set_columns (feature_names self) scaled df_processed, self)
      end.

Definition preprocess_data (df : DataFrame) (is_training : bool)
  : Method DataFrame :=
  method_bind
    (method_for_each categorical_cols (encode_column is_training) df)
    (scale_features is_training).

(** The report of one trained model. *)
Record Metrics : Type :=
  { mse : Q; rmse : Q; r2 : Q; cv_mean : Q; cv_std : Q }.

Definition models_to_train : dict Regressor :=
  [ ("random_forest", new_Regressor RandomForestRegressor);
    ("gradient_boosting", new_Regressor GradientBoostingRegressor);
    ("xgboost", new_Regressor XGBRegressor);
    ("lightgbm", new_Regressor LGBMRegressor) ].

(** The body of the training loop. *)
Definition train_one (X_train X_test : DataFrame) (y_train y_test : column)
  (results : dict Metrics) (entry : string * Regressor)
  : Method (dict Metrics) :=
  fun self =>
    let '(name, model) := entry in
    let outcome :=
      try! model := fit model X_train y_train in
      try! y_pred := predict model X_test in
      try! mse := mean_squared_error y_test y_pred in
      try! r2 := r2_score y_test y_pred in
      try! cv_scores := cross_val_score model X_train y_train 5 in
      ret (model,
           {| mse := mse; rmse := sqrt mse; r2 := r2;
              cv_mean := mean cv_scores; cv_std := std cv_scores |}) in
    match outcome with
    | inl e => (raise e, self)
    | inr (model, report) =>
        (ret (setitem name report results),
         set_models (<[name := model]> (models self)) self)
    end.

Definition train_models (df : DataFrame) : Method (dict Metrics) :=
  method_bind (preprocess_data df true) (fun df_processed self =>
    let prepared :=
      try! X := drop_column "carbon_footprint" df_processed in
      try! y := get_column df_processed "carbon_footprint" in
      train_test_split X y in
    match prepared with
    | inl e => (raise e, self)
    | inr (X_train, X_test, y_train, y_test) =>
        method_for_each (items models_to_train)
          (train_one X_train X_test y_train y_test) [] self
    end).

Definition predict_footprint (user_data : dict cell) (model_name : string)
  : Method Q :=
  fun self =>
    match models self !! model_name with
    | None =>
        (raise (ValueError
                  (String.append "Model "
                     (String.append model_name " not trained yet"))),
         self)
    | Some model =>
        let df_user := single_row user_data in
        method_bind (preprocess_data df_user false) (fun df_processed self =>
          (try! X := select (feature_names self) df_processed in
           try! prediction := predict model X in
           first_item prediction, self)) self
    end.

End Methods.

End Predictor.

(** * Executable instances of the library interfaces

    Small deterministic implementations, used to run the predictor on
    concrete inputs. *)

Module Reference.
Import Py Predictor.

(** ** numpy: a linear congruential generator *)

Definition lcg_next (g : Z) : Z := ((g * 1103515245 + 12345) mod 2147483648)%Z.

(** [size] samples, each computed from a fresh generator state. *)
Fixpoint draws {A} (sample : Z -> A) (size : nat) (g : Z) : list A * Z :=
  match size with
  | O => ([], g)
  | S size' =>
      let g' := lcg_next g in
      let (rest, g'') := draws sample size' g' in
      (sample g' :: rest, g'')
  end.

(** A deviate in [[-2, 2]], in steps of 1/500. *)
Definition deviate (g : Z) : Q := inject_Z (g mod 2001 - 1000) / 500.
(** A fraction in [[0, 1)], in steps of 1/1000. *)
Definition fraction (g : Z) : Q := inject_Z (g mod 1000) / 1000.

Definition lcg_choice {A} (a : list A) (p : option (list Q)) (size : nat) (g : Z)
  : list A * Z :=
  match a with
  | [] => ([], g)
  | first :: _ =>
      draws (fun g' => nth (Z.to_nat (g' mod Z.of_nat (length a))) a first) size g
  end.

(** The least-squares line through the points [(x, y)]. *)
Definition least_squares (x y : list Q) : list Q :=
  let n := inject_Z (Z.of_nat (length x)) in
  let sx := sum x in
  let sy := sum y in
  let sxy := sum (zip_with Qmult x y) in
  let sxx := sum (zip_with Qmult x x) in
  let slope := (n * sxy - sx * sy) / (n * sxx - sx * sx) in
  [Qred slope; Qred ((sy - slope * sx) / n)].

(** Three Newton steps from 1 towards the square root. *)
Definition newton_sqrt (x : Q) : Q :=
  let step r := Qred ((r + x / r) / 2) in
  if Qle_bool x 0 then 0 else step (step (step 1)).

Definition average (xs : list Q) : Q :=
  sum xs / inject_Z (Z.of_nat (length xs)).

Definition deviation (xs : list Q) : Q :=
  let m := average xs in
  newton_sqrt (average (map (fun x => (x - m) * (x - m)) xs)).

#[export] Instance lcg_numpy : Numpy :=
  {| RandomState := Z;
     seed := fun s => (s mod 2147483648)%Z;
     randint := fun low high => draws (fun g => (low + g mod (high - low))%Z);
     normal := fun loc scale => draws (fun g => Qred (loc + scale * deviate g));
     normal_sample := fun loc scale g =>
       let g' := lcg_next g in (Qred (loc + scale * deviate g'), g');
     exponential := fun scale => draws (fun g => Qred (scale * 3 * fraction g));
     poisson := fun lam => draws (fun g => (g mod 5)%Z);
     uniform := fun low high =>
       draws (fun g => Qred (low + (high - low) * fraction g));
     choice := @lcg_choice;
     polyfit := fun x y deg => if (deg =? 1)%Z then least_squares x y else [];
     sqrt := newton_sqrt;
     mean := average;
     std := deviation |}.

(** ** scikit-learn: label lists, centring scaler, mean regressor *)

(** The position of a label among the known classes. *)
Fixpoint index_of (classes : list string) (label : string) : option nat :=
  match classes with
  | [] => None
  | c :: classes' =>
      if String.eqb c label then Some 0%nat
      else option_map S (index_of classes' label)
  end.

Fixpoint distinct (labels seen : list string) : list string :=
  match labels with
  | [] => rev seen
  | l :: labels' =>
      if existsb (String.eqb l) seen then distinct labels' seen
      else distinct labels' (l :: seen)
  end.

Definition encode (classes : list string) (c : column) : result (list Q) :=
  match c with
  | Numeric [] => ret []
  | Numeric _ => raise (ValueError "labels are expected to be text")
  | Text labels =>
      for_each labels
        (fun codes label =>
           match index_of classes label with
           | Some i => ret (codes ++ [inject_Z (Z.of_nat i)])%list
           | None => raise (ValueError "y contains previously unseen labels")
           end)
        []
  end.

Definition numeric_columns (X : DataFrame) : result (list (list Q)) :=
  for_each (values (columns X))
    (fun acc c =>
       match c with
       | Numeric xs => ret (acc ++ [xs])%list
       | Text _ => raise (ValueError "could not convert string to float")
       end)
    [].

Definition centre (moments : Q * Q) (xs : list Q) : list Q :=
  let '(m, s) := moments in
  map (fun x => Qred ((x - m) / (if Qeq_bool s 0 then 1 else s))) xs.

Definition scale_with (moments : list (Q * Q)) (X : DataFrame)
  : result (list (list Q)) :=
  try! cols := numeric_columns X in
  if Nat.eqb (length cols) (length moments)
  then ret (zip_with centre moments cols)
  else raise (ValueError "X has a different number of features than the scaler").

Definition fit_scaler (X : DataFrame) : result (list (list Q)) * list (Q * Q) :=
  if Nat.eqb (n_rows X) 0 then
    (raise (ValueError
              "Found array with 0 sample(s) while a minimum of 1 is required by StandardScaler."),
     [])
  else
    match numeric_columns X with
    | inl e => (raise e, [])
    | inr cols =>
        let moments := map (fun xs => (Qred (average xs), deviation xs)) cols in
        (ret (zip_with centre moments cols), moments)
    end.

Definition numbers (c : column) : result (list Q) :=
  match c with
  | Numeric xs => ret xs
  | Text _ => raise (ValueError "could not convert string to float")
  end.

Definition rows_from (start count : nat) (X : DataFrame) : DataFrame :=
  let cut {A} (xs : list A) := firstn count (skipn start xs) in
  {| n_rows := Nat.min count (n_rows X - start);
     columns :=
       map (fun '(k, c) =>
              (k, match c with
                  | Numeric xs => Numeric (cut xs)
                  | Text xs => Text (cut xs)
                  end))
         (columns X) |}.

(** The last fifth of the rows (rounded up) is held out. *)
Definition split (X : DataFrame) (y : column)
  : result (DataFrame * DataFrame * column * column) :=
  let n := n_rows X in
  let n_test := ((n + 4) / 5)%nat in
  let n_train := (n - n_test)%nat in
  if Nat.eqb n_train 0 then
    raise (ValueError "the resulting train set will be empty")
  else
    let cut start count :=
      match y with
      | Numeric xs => Numeric (firstn count (skipn start xs))
      | Text xs => Text (firstn count (skipn start xs))
      end in
    ret (rows_from 0 n_train X, rows_from n_train n_test X,
         cut 0%nat n_train, cut n_train n_test).

Definition squared_error (y_true : column) (y_pred : list Q) : result Q :=
  try! ys := numbers y_true in
  ret (Qred (average (zip_with (fun a b => (a - b) * (a - b)) ys y_pred))).

Definition determination (y_true : column) (y_pred : list Q) : result Q :=
  try! ys := numbers y_true in
  let m := average ys in
  let ss_res := sum (zip_with (fun a b => (a - b) * (a - b)) ys y_pred) in
  let ss_tot := sum (map (fun a => (a - m) * (a - m)) ys) in
  ret (Qred (1 - ss_res / ss_tot)).

#[export] Instance simple_sklearn : Sklearn :=
  {| LabelEncoder := list string;
     new_LabelEncoder := [];
     label_fit_transform := fun _ c =>
       let classes := match c with Text labels => distinct labels [] | Numeric _ => [] end in
       (encode classes c, classes);
     label_transform := encode;
     StandardScaler := list (Q * Q);
     new_StandardScaler := [];
     scaler_fit_transform := fun _ X => fit_scaler X;
     scaler_transform := scale_with;
     Regressor := option Q;
     new_Regressor := fun _ => None;
     fit := fun _ _ y => try! ys := numbers y in ret (Some (Qred (average ys)));
     predict := fun model X =>
       match model with
       | Some m => ret (repeat m (n_rows X))
       | None => raise (ValueError "This estimator is not fitted yet")
       end;
     train_test_split := split;
     mean_squared_error := squared_error;
     r2_score := determination;
     cross_val_score := fun model X y cv =>
       try! ys := numbers y in ret (repeat 0 (Z.to_nat cv)) |}.

End Reference.

(** * Properties of the emission calculator *)

Section CalculatorFacts.
Import Py Calculator.

(** What a category contributes to the total: its computed value, or zero
    when the input does not have the category. *)
Definition contribution {D} (data : option D) (f : D -> Q) : Q :=
  match data with
  | Some d => f d
  | None => 0
  end.

(** The scenario of the test suite: 25 miles by car, 30 kWh, beef and
    vegetables, 1.5 kg of landfill. *)
Definition sample_day : ActivityInput :=
  {| transportation :=
       Some [("car_gasoline", {| distance := Some 25; frequency := Some 1 |})];
     energy := Some [("electricity", 30)];
     food := Some [("beef", 0.2); ("vegetables", 0.5)];
     waste := Some [("landfill", 1.5)] |}.

Example sample_day_breakdown :
  map (fun '(k, v) => (k, Qred v)) (calculate_total_footprint sample_day)
  = map (fun '(k, v) => (k, Qred v))
      [ ("transportation", 10.275); ("energy", 27.6); ("food", 6.4);
        ("waste", 0.855); ("total", 45.13) ].
Proof. vm_compute. reflexivity. Qed.

(** C1. The [total] entry of the breakdown returned by
    [calculate_total_footprint] is the sum of the four category values
    computed from the same input, a category that the input lacks counting
    for zero; the category entries of the breakdown are exactly those
    values, present when and only when the input has the category. *)
Theorem total_is_sum_of_categories (user_data : ActivityInput) :
  let breakdown := calculate_total_footprint user_data in
  let t := contribution (transportation user_data) calculate_transportation_footprint in
  let e := contribution (energy user_data) calculate_energy_footprint in
  let f := contribution (food user_data) calculate_food_footprint in
  let w := contribution (waste user_data) calculate_waste_footprint in
  (exists total, get "total" breakdown = Some total /\ total == t + e + f + w)
  /\ get "transportation" breakdown
     = option_map calculate_transportation_footprint (transportation user_data)
  /\ get "energy" breakdown
     = option_map calculate_energy_footprint (energy user_data)
  /\ get "food" breakdown
     = option_map calculate_food_footprint (food user_data)
  /\ get "waste" breakdown
     = option_map calculate_waste_footprint (waste user_data).
Proof.
  destruct user_data as [[t|] [e|] [f|] [w|]]; cbn -[Qplus calculate_transportation_footprint calculate_energy_footprint calculate_food_footprint calculate_waste_footprint];
    (split; [eexists; split; [reflexivity | unfold sum; cbn -[Qplus calculate_transportation_footprint calculate_energy_footprint calculate_food_footprint calculate_waste_footprint]; ring] | repeat split]).
Qed.

End CalculatorFacts.

(** * Properties of the recommendation engine *)

(** ** Fallible loops *)

Section ForEach.
Import Py.
Context {A S : Type}.

(** A loop whose body extends a list, and says so, extends the list. *)
Lemma for_each_extends {B} (P : B -> Prop) (body : list B -> A -> result (list B))
  (step : forall acc x acc', body acc x = ret acc' ->
            exists new, acc' = (acc ++ new)%list /\ Forall P new) :
  forall xs acc acc', for_each xs body acc = ret acc' ->
    exists new, acc' = (acc ++ new)%list /\ Forall P new.
Proof.
  induction xs as [|x xs IH]; intros acc acc' Hrun; cbn in Hrun.
  - injection Hrun as <-. exists []. split; [now rewrite app_nil_r | constructor].
  - destruct (body acc x) as [e|mid] eqn:Hbody; cbn in Hrun; [discriminate|].
    destruct (step _ _ _ Hbody) as (new1 & -> & Hnew1).
    destruct (IH _ _ Hrun) as (new2 & -> & Hnew2).
    exists (new1 ++ new2)%list. split; [now rewrite app_assoc|].
    apply Forall_app; now split.
Qed.

(** A loop whose body never raises never raises. *)
Lemma for_each_succeeds (Q : A -> Prop) (body : S -> A -> result S)
  (step : forall acc x, Q x -> exists acc', body acc x = ret acc') :
  forall xs acc, Forall Q xs -> exists acc', for_each xs body acc = ret acc'.
Proof.
  induction xs as [|x xs IH]; intros acc HQ; cbn.
  - now exists acc.
  - inversion HQ as [|? ? Hx Hxs]; subst.
    destruct (step acc x Hx) as [mid ->]. cbn. now apply IH.
Qed.

End ForEach.

(** ** The descending stable sort *)

Section SortReverse.
Import Py Recommender.
Context {A : Type} (key : A -> Z * Z).

(** [a] may stand before [b]: its key is not smaller. *)
Definition not_below (a b : A) : Prop := tuple_ltb (key a) (key b) = false.

Lemma tuple_ltb_false (a b : Z * Z) :
  tuple_ltb a b = false <->
  (fst b < fst a)%Z \/ (fst a = fst b /\ (snd b <= snd a)%Z).
Proof. unfold tuple_ltb. lia. Qed.

Lemma tuple_ltb_true (a b : Z * Z) :
  tuple_ltb a b = true <->
  (fst a < fst b)%Z \/ (fst a = fst b /\ (snd a < snd b)%Z).
Proof. unfold tuple_ltb. lia. Qed.

Lemma not_below_trans : Relation_Definitions.transitive A not_below.
Proof.
  intros a b c. unfold not_below. rewrite !tuple_ltb_false. lia.
Qed.

Lemma insert_descending_In x y sorted :
  In y (insert_descending key x sorted) <-> y = x \/ In y sorted.
Proof.
  induction sorted as [|z sorted IH]; cbn.
  - intuition.
  - destruct (tuple_ltb (key x) (key z)); cbn; rewrite ?IH; intuition.
Qed.

Lemma insert_descending_length x sorted :
  length (insert_descending key x sorted) = Datatypes.S (length sorted).
Proof.
  induction sorted as [|z sorted IH]; cbn; [reflexivity|].
  destruct (tuple_ltb (key x) (key z)); cbn; now rewrite ?IH.
Qed.

Lemma insert_descending_sorted x sorted :
  Sorted not_below sorted -> Sorted not_below (insert_descending key x sorted).
Proof.
  induction sorted as [|z sorted IH]; intros Hs; cbn.
  - repeat constructor.
  - destruct (tuple_ltb (key x) (key z)) eqn:Hxz.
    + inversion Hs as [|? ? Hs' Hhd]; subst.
      constructor; [now apply IH|].
      destruct sorted as [|w sorted]; cbn.
      * constructor. unfold not_below.
        apply tuple_ltb_true in Hxz. apply tuple_ltb_false. lia.
      * destruct (tuple_ltb (key x) (key w)).
        -- inversion Hhd; subst. now constructor.
        -- constructor. unfold not_below.
           apply tuple_ltb_true in Hxz. apply tuple_ltb_false. lia.
    + constructor; [assumption|]. now constructor.
Qed.

Lemma sort_reverse_sorted xs : StronglySorted not_below (sort_reverse key xs).
Proof.
  apply Sorted_StronglySorted; [exact not_below_trans|].
  induction xs as [|x xs IH]; cbn; [constructor|].
  now apply insert_descending_sorted.
Qed.

Lemma sort_reverse_In y xs : In y (sort_reverse key xs) <-> In y xs.
Proof.
  induction xs as [|x xs IH]; cbn; [reflexivity|].
  rewrite insert_descending_In, IH. intuition.
Qed.

Lemma sort_reverse_length xs : length (sort_reverse key xs) = length xs.
Proof.
  induction xs as [|x xs IH]; cbn; [reflexivity|].
  rewrite insert_descending_length. f_equal. exact IH.
Qed.

Lemma sort_reverse_Forall (P : A -> Prop) xs :
  Forall P xs -> Forall P (sort_reverse key xs).
Proof.
  rewrite !Forall_forall. intros HP y Hy. now apply HP, sort_reverse_In.
Qed.

Lemma insert_descending_Permutation x sorted :
  Permutation (x :: sorted) (insert_descending key x sorted).
Proof.
  induction sorted as [|z sorted IH]; cbn; [reflexivity|].
  destruct (tuple_ltb (key x) (key z)); [|reflexivity].
  rewrite perm_swap. now apply perm_skip.
Qed.

(** The sort rearranges, it neither drops nor invents. *)
Lemma sort_reverse_Permutation xs : Permutation xs (sort_reverse key xs).
Proof.
  induction xs as [|x xs IH]; cbn; [reflexivity|].
  rewrite <- insert_descending_Permutation. now apply perm_skip.
Qed.

(** The elements that carry the key [k], in the order of the list. *)
Definition with_key (k : Z * Z) (xs : list A) : list A :=
  filter (fun y => Z.eqb (fst (key y)) (fst k) && Z.eqb (snd (key y)) (snd k)) xs.

Lemma insert_descending_with_key k x sorted :
  with_key k (insert_descending key x sorted) = with_key k (x :: sorted).
Proof.
  induction sorted as [|z sorted IH]; [reflexivity|].
  cbn [insert_descending].
  destruct (tuple_ltb (key x) (key z)) eqn:Hxz; [|reflexivity].
  unfold with_key in *. cbn [filter] in *. rewrite IH.
  apply tuple_ltb_true in Hxz.
  destruct (Z.eqb_spec (fst (key x)) (fst k)), (Z.eqb_spec (snd (key x)) (snd k)),
    (Z.eqb_spec (fst (key z)) (fst k)), (Z.eqb_spec (snd (key z)) (snd k));
    cbn [andb]; try reflexivity; lia.
Qed.

(** The sort is stable: elements with equal keys keep their order. *)
Lemma sort_reverse_stable k xs :
  with_key k (sort_reverse key xs) = with_key k xs.
Proof.
  induction xs as [|x xs IH]; [reflexivity|].
  cbn [sort_reverse fold_right]. rewrite insert_descending_with_key.
  unfold with_key in *. cbn [filter]. unfold sort_reverse in IH. now rewrite IH.
Qed.

(** Sortedness carries over to any weaker relation. *)
Lemma sorted_weaken (R R' : A -> A -> Prop) xs :
  (forall a b, R a b -> R' a b) ->
  StronglySorted R xs -> StronglySorted R' xs.
Proof.
  intros HR. induction 1 as [|x xs _ IH Hall]; constructor; [assumption|].
  eapply Forall_impl; [|exact Hall]. apply HR.
Qed.

(** Cutting a sorted list after [n] elements leaves it sorted. *)
Lemma take_sorted (R : A -> A -> Prop) n xs :
  StronglySorted R xs -> StronglySorted R (take n xs).
Proof.
  revert n.
  induction xs as [|x xs IH]; intros [|n] Hs; cbn; try constructor.
  - inversion Hs; subst. now apply IH.
  - inversion Hs as [|? ? _ Hall]; subst. now apply Forall_take.
Qed.

End SortReverse.

(** ** Scoring and ranking *)

Section RecommenderFacts.
Import Py Recommender.

(** The four emission categories, and the keys of a footprint breakdown. *)
Definition categories : list string :=
  ["transportation"; "energy"; "food"; "waste"].
Definition breakdown_keys : list string := (categories ++ ["total"])%list.

(** [a] ranks at least as high as [b] in the order of the final sort:
    higher priority first, and at equal priority the larger absolute
    impact first. *)
Definition ranks_before (a b : Recommendation) : Prop :=
  (priority b < priority a)%Z
  \/ (priority a = priority b
      /\ (Z.abs (impact_estimate b) <= Z.abs (impact_estimate a))%Z).

Lemma not_below_rank a b : not_below rank a b <-> ranks_before a b.
Proof. unfold not_below, ranks_before, rank. now rewrite tuple_ltb_false. Qed.

(** Every category has a keyword table, and none of them is empty. *)
Lemma action_mapping_categories c :
  In c categories ->
  exists entry table, get c action_mapping = Some (entry :: table).
Proof.
  cbn. intros [<-|[<-|[<-|[<-|[]]]]]; cbn; eauto.
Qed.

Lemma impact_estimates_categories c :
  In c categories -> exists impacts, get c impact_estimates = Some impacts.
Proof.
  cbn. intros [<-|[<-|[<-|[<-|[]]]]]; cbn; eauto.
Qed.

(** On a known category the extraction always yields a key. *)
Lemma extract_action_key_succeeds text c :
  In c categories -> exists key, _extract_action_key text c = ret key.
Proof.
  intros Hc. destruct (action_mapping_categories c Hc) as ([kw act] & table & Hget).
  unfold _extract_action_key, getitem. rewrite Hget. cbn [bind ret].
  destruct (first_match _ _); [eauto|]. cbn. eauto.
Qed.

Lemma score_recommendation_appends c emissions acc text acc' :
  score_recommendation c emissions acc text = ret acc' ->
  exists new, acc' = (acc ++ new)%list
              /\ Forall (fun r => category r = title c) new.
Proof.
  unfold score_recommendation.
  destruct (_extract_action_key text c) as [e|key]; cbn; [discriminate|].
  destruct (getitem impact_estimates c) as [e|impacts]; cbn; [discriminate|].
  intros [= <-]. eexists. split; [reflexivity|]. now repeat constructor.
Qed.

Lemma score_recommendation_succeeds c emissions acc text :
  In c categories ->
  exists acc', score_recommendation c emissions acc text = ret acc'.
Proof.
  intros Hc. unfold score_recommendation.
  destruct (extract_action_key_succeeds text c Hc) as [key ->].
  destruct (impact_estimates_categories c Hc) as [impacts Himp].
  unfold getitem. rewrite Himp. cbn. eauto.
Qed.

(** One entry of the footprint: [total] adds nothing, a category adds
    recommendations filed under its own title. *)
Lemma recommend_category_appends acc c emissions acc' :
  recommend_category acc (c, emissions) = ret acc' ->
  exists new, acc' = (acc ++ new)%list
              /\ Forall (fun r => In (category r) (map title categories)) new.
Proof.
  unfold recommend_category.
  destruct (String.eqb c "total") eqn:Htotal.
  - intros [= <-]. exists []. split; [now rewrite app_nil_r | constructor].
  - destruct (get c thresholds) as [limits|] eqn:Hlimits;
      unfold getitem at 1; rewrite Hlimits; cbn [bind ret raise]; [|discriminate].
    assert (Hc : In c categories).
    { revert Hlimits. cbn.
      repeat match goal with
             | |- context [String.eqb c ?k] =>
                 destruct (String.eqb_spec c k); [subst; cbn; tauto|]
             end.
      discriminate. }
    destruct (getitem limits "high") as [e|high]; cbn [bind]; [discriminate|].
    match goal with
    | |- bind ?computed _ = _ -> _ => destruct computed as [e|level]
    end; cbn [bind]; [discriminate|].
    destruct (getitem recommendation_database c) as [e|levels]; cbn [bind]; [discriminate|].
    destruct (getitem levels level) as [e|category_recs]; cbn [bind]; [discriminate|].
    intros Hrun.
    apply (for_each_extends (fun r => category r = title c)) in Hrun.
    + destruct Hrun as (new & -> & Hnew). exists new. split; [reflexivity|].
      eapply Forall_impl; [|exact Hnew]. intros r ->. now apply in_map.
    + intros. eapply score_recommendation_appends; eassumption.
Qed.

Lemma recommend_category_succeeds acc c emissions :
  In c breakdown_keys ->
  exists acc', recommend_category acc (c, emissions) = ret acc'.
Proof.
  intros Hc. unfold breakdown_keys in Hc. apply in_app_or in Hc.
  destruct Hc as [Hc|[<-|[]]]; [|cbn; eauto].
  assert (Hscore : forall texts, exists acc',
             for_each texts (score_recommendation c emissions) acc = ret acc').
  { intros texts.
    apply (for_each_succeeds (fun _ => True)); [|now apply Forall_forall].
    intros. now apply score_recommendation_succeeds. }
  unfold recommend_category.
  cbn in Hc. destruct Hc as [<-|[<-|[<-|[<-|[]]]]];
    cbn -[Qlt_le_dec for_each score_recommendation];
    repeat (destruct (Qlt_le_dec _ _); cbn -[Qlt_le_dec for_each score_recommendation]);
    apply Hscore.
Qed.

(** The scenario of the specification: transportation above its high
    threshold, everything else low. *)
Definition commuter : dict Q :=
  [ ("transportation", 150); ("energy", 50); ("food", 50); ("waste", 10);
    ("total", 260) ].

Example commuter_first_recommendation :
  option_map (fun r => (category r, impact_estimate r, priority r, difficulty r))
    (match get_personalized_recommendations commuter tt (@None unit) with
     | inr (r :: _) => Some r
     | _ => None
     end)
  = Some ("Transportation", (-2000)%Z, 5%Z, "High").
Proof. vm_compute. reflexivity. Qed.

(** C2. On a footprint breakdown (keys among the four categories and
    [total]), [get_personalized_recommendations] returns a list of at most
    eight recommendations, none of them filed under the [total]
    pseudo-category, in descending order of [(priority, |impact_estimate|)]:
    every recommendation ranks at least as high as all that follow it. *)
Theorem recommendations_capped_and_ranked {Patterns Goals : Type}
  (user_footprint : dict Q) (user_patterns : Patterns)
  (user_goals : option Goals) :
  Forall (fun k => In k breakdown_keys) (keys user_footprint) ->
  exists recommendations,
    get_personalized_recommendations user_footprint user_patterns user_goals
    = ret recommendations
    /\ (length recommendations <= 8)%nat
    /\ Forall (fun r => category r <> title "total" /\ category r <> "total")
         recommendations
    /\ StronglySorted ranks_before recommendations.
Proof.
  intros Hkeys. unfold get_personalized_recommendations.
  destruct (for_each_succeeds (fun entry => In (fst entry) breakdown_keys)
              recommend_category) with (xs := items user_footprint) (acc := @nil Recommendation)
    as [found Hfound].
  - intros acc [c emissions] Hc. now apply recommend_category_succeeds.
  - unfold keys, items in *. now rewrite Forall_map in Hkeys.
  - rewrite Hfound. cbn [bind]. eexists. split; [reflexivity|].
    apply (for_each_extends (fun r => In (category r) (map title categories)))
      in Hfound.
    2:{ intros acc [c emissions] acc'. apply recommend_category_appends. }
    destruct Hfound as (new & -> & Hnew). cbn [app] in *.
    split; [apply firstn_le_length|]. split.
    + apply Forall_take, sort_reverse_Forall.
      eapply Forall_impl; [|exact Hnew].
      intros r Hr. cbn in Hr.
      split; intros Heq; rewrite Heq in Hr; cbn in Hr;
        repeat (destruct Hr as [Hr|Hr]; [discriminate Hr|]); exact Hr.
    + apply take_sorted.
      eapply sorted_weaken; [|apply sort_reverse_sorted].
      intros a b. apply not_below_rank.
Qed.

Lemma recommendations_capped_and_ranked_witness :
  Forall (fun k => In k breakdown_keys) (keys commuter)
  /\ exists recommendations,
      get_personalized_recommendations commuter tt (@None unit) = ret recommendations
      /\ (length recommendations <= 8)%nat
      /\ Forall (fun r => category r <> title "total" /\ category r <> "total")
           recommendations
      /\ StronglySorted ranks_before recommendations.
Proof.
  assert (H : Forall (fun k => In k breakdown_keys) (keys commuter)).
  { repeat constructor; cbn; tauto. }
  split; [exact H|].
  exact (recommendations_capped_and_ranked commuter tt None H).
Defined.

End RecommenderFacts.

(** ** The action plan *)

Section ActionPlanFacts.
Import Py Recommender.

(** The sum of [|impact_estimate|] over a selection, by recursion on it. *)
Fixpoint total_abs_impact (selected : list Recommendation) : Z :=
  match selected with
  | [] => 0
  | r :: selected' => Z.abs (impact_estimate r) + total_abs_impact selected'
  end.

Lemma sumZ_from (xs : list Z) (start : Z) :
  fold_left Z.add xs start = (start + fold_left Z.add xs 0)%Z.
Proof.
  revert start. induction xs as [|x xs IH]; intros start; cbn [fold_left]; [lia|].
  rewrite (IH (start + x)%Z), (IH (0 + x)%Z). lia.
Qed.

Lemma reduction_of_total selected :
  reduction_of selected = total_abs_impact selected.
Proof.
  unfold reduction_of, sumZ.
  induction selected as [|r selected IH]; cbn [map fold_left total_abs_impact];
    [reflexivity|].
  rewrite sumZ_from, IH. lia.
Qed.

Lemma with_difficulty_spec level recommendations :
  Forall (fun r => difficulty r = level /\ In r recommendations)
    (with_difficulty level recommendations).
Proof.
  apply Forall_forall. intros r Hr. apply filter_In in Hr.
  destruct Hr as [Hin Heq]. split; [|assumption]. now apply String.eqb_eq.
Qed.

(** A phase holds the first [n] recommendations of level [level], and its
    expected reduction is the sum of their absolute impacts. *)
Definition phase_selects (level : string) (n : nat)
  (recommendations : list Recommendation) (phase : Phase) : Prop :=
  actions phase = take n (with_difficulty level recommendations)
  /\ (length (actions phase) <= n)%nat
  /\ Forall (fun r => difficulty r = level /\ In r recommendations) (actions phase)
  /\ expected_reduction phase = total_abs_impact (actions phase).

Example plan_of_the_commuter :
  match get_personalized_recommendations commuter tt (@None unit) with
  | inr recommendations =>
      let plan := generate_action_plan recommendations 12 in
      (expected_reduction (weeks_1_2 plan), expected_reduction (weeks_3_6 plan),
       expected_reduction (weeks_7_12 plan), total_potential_reduction plan)
  | inl _ => (0, 0, 0, 0)%Z
  end = (4200, 0, 2000, 6200)%Z.
Proof. vm_compute. reflexivity. Qed.

(** C3. For every list of recommendations, [generate_action_plan] puts at
    most 3 Low-difficulty items in weeks 1-2, at most 3 Medium-difficulty
    items in weeks 3-6 and at most 2 High-difficulty items in weeks 7-12
    (in each case the first ones of that difficulty); the expected
    reduction of a phase is the sum of [|impact_estimate|] over exactly the
    actions of that phase; and the total potential reduction is the sum of
    the three phase reductions. *)
Theorem action_plan_phases (recommendations : list Recommendation)
  (timeframe_weeks : Z) :
  let plan := generate_action_plan recommendations timeframe_weeks in
  phase_selects "Low" 3 recommendations (weeks_1_2 plan)
  /\ phase_selects "Medium" 3 recommendations (weeks_3_6 plan)
  /\ phase_selects "High" 2 recommendations (weeks_7_12 plan)
  /\ total_potential_reduction plan
     = (expected_reduction (weeks_1_2 plan)
        + expected_reduction (weeks_3_6 plan)
        + expected_reduction (weeks_7_12 plan))%Z.
Proof.
  assert (Hphase : forall level n focus,
             phase_selects level n recommendations
               {| focus := focus;
                  actions := take n (with_difficulty level recommendations);
                  expected_reduction :=
                    reduction_of (take n (with_difficulty level recommendations)) |}).
  { intros level n focus. unfold phase_selects. cbn [actions expected_reduction].
    split; [reflexivity|]. split; [apply firstn_le_length|].
    split; [apply Forall_take, with_difficulty_spec | apply reduction_of_total]. }
  cbn zeta. unfold generate_action_plan.
  cbn [weeks_1_2 weeks_3_6 weeks_7_12 total_potential_reduction].
  split; [apply Hphase|]. split; [apply Hphase|]. split; [apply Hphase|].
  unfold sumZ. cbn [map fold_left expected_reduction]. lia.
Qed.

End ActionPlanFacts.

(** ** Action keys *)

Section ActionKeyFacts.
Import Py Recommender.

Lemma to_lower_is_not_upper (c : ascii) : is_upper (to_lower c) = false.
Proof.
  destruct c as [[] [] [] [] [] [] [] []]; vm_compute; reflexivity.
Qed.

(** The keyword [LED] is written in capitals, and the text it is looked up
    in has been lowered: it is never found. *)
Lemma lowered_text_has_no_LED (text : string) :
  contains "LED" (lower text) = false.
Proof.
  induction text as [|c text IH]; [reflexivity|].
  cbn [lower contains]. rewrite IH, orb_false_r.
  cbn [String.prefix].
  destruct (ascii_dec "L" (to_lower c)) as [Heq|]; [|reflexivity].
  pose proof (to_lower_is_not_upper c) as Hc. rewrite <- Heq in Hc.
  discriminate Hc.
Qed.

(** The result only depends on the lowered text. *)
Lemma extract_action_key_ignores_case text text' c :
  lower text = lower text' ->
  _extract_action_key text c = _extract_action_key text' c.
Proof. unfold _extract_action_key. now intros ->. Qed.

(** Without a matching keyword the first action key of the category is
    returned. *)
Lemma extract_action_key_fallback text c keyword action table :
  get c action_mapping = Some ((keyword, action) :: table) ->
  first_match (lower text) ((keyword, action) :: table) = None ->
  _extract_action_key text c = ret action.
Proof.
  intros Hget Hnone. unfold _extract_action_key, getitem, items.
  rewrite Hget. cbn [bind ret]. now rewrite Hnone.
Qed.

(** C9, at the failing input.  The energy recommendation about LED lighting
    contains the keyword [LED], which the table maps to [led_lighting];
    the extraction misses it and falls back to the first action key of the
    category, [renewable_energy], so the recommendation is scored with an
    impact of -1500 instead of -200. *)
Theorem led_keyword_is_missed :
  let text := "Replace incandescent bulbs with LED lighting" in
  contains "LED" text = true
  /\ (exists table, get "energy" action_mapping = Some table
                    /\ get "LED" table = Some "led_lighting")
  /\ _extract_action_key text "energy" = ret "renewable_energy"
  /\ (exists impacts, get "energy" impact_estimates = Some impacts
                      /\ get "renewable_energy" impacts = Some (-1500)%Z
                      /\ get "led_lighting" impacts = Some (-200)%Z).
Proof.
  cbn zeta. split; [vm_compute; reflexivity|].
  split; [eexists; split; vm_compute; reflexivity|].
  split; [vm_compute; reflexivity|].
  eexists; repeat split; vm_compute; reflexivity.
Qed.

End ActionKeyFacts.

(** * Properties of the predictor *)

(** ** The reference generator honours numpy's contracts *)

Section ReferenceFacts.
Import Py Predictor Reference.

Lemma draws_length {A} (sample : Z -> A) size g :
  length (fst (draws sample size g)) = size.
Proof.
  revert g. induction size as [|size IH]; intros g; cbn; [reflexivity|].
  specialize (IH (lcg_next g)).
  destruct (draws sample size (lcg_next g)). cbn in *. now rewrite IH.
Qed.

Lemma draws_Forall {A} (P : A -> Prop) (sample : Z -> A) size g :
  (forall g', P (sample g')) -> Forall P (fst (draws sample size g)).
Proof.
  intros HP. revert g. induction size as [|size IH]; intros g; cbn; [constructor|].
  specialize (IH (lcg_next g)).
  destruct (draws sample size (lcg_next g)). cbn in *. now constructor.
Qed.

#[export] Instance lcg_numpy_spec : NumpySpec lcg_numpy.
Proof.
  split; cbn; intros; try apply draws_length.
  - unfold lcg_choice. destruct a as [|first a]; [congruence|]. apply draws_length.
  - unfold lcg_choice. destruct a as [|first a]; [constructor|].
    apply draws_Forall. intros g'. apply nth_In.
    apply Nat2Z.inj_lt. rewrite Z2Nat.id; apply Z.mod_pos_bound; cbn [length]; lia.
  - reflexivity.
Qed.

End ReferenceFacts.

(** ** The trend forecast *)

Section ForecastFacts.
Import Py Predictor.
Context {np : Numpy}.

Lemma last_item_snoc {A} (xs : list A) (x : A) : last_item (xs ++ [x]) = ret x.
Proof. unfold last_item. now rewrite rev_unit. Qed.

Lemma last_item_nonempty {A} (xs : list A) :
  xs <> [] -> exists x, last_item xs = ret x.
Proof.
  intros Hne. destruct (exists_last Hne) as (front & x & ->).
  exists x. apply last_item_snoc.
Qed.

Lemma range_length lo hi : length (range lo hi) = Z.to_nat (hi - lo).
Proof. unfold range. now rewrite length_map, length_seq. Qed.

Lemma max_floor (v : Q) : 0 <= max 0 v.
Proof. unfold max. destruct (Qlt_le_dec 0 v); [now apply Qlt_le_weak | apply Qle_refl]. Qed.

(** The projection loop appends one value per step, none of them negative,
    whatever the generator returns. *)
Lemma project_values_appends last_value trend_slope steps :
  forall future_values g,
  exists new g',
    project_values last_value trend_slope steps future_values g
    = ((future_values ++ new)%list, g')
    /\ length new = length steps
    /\ Forall (fun v => 0 <= v) new.
Proof.
  induction steps as [|i steps IH]; intros future_values g; cbn.
  - exists [], g. unfold rand_ret. rewrite app_nil_r. repeat split. constructor.
  - unfold rand_bind at 1.
    destruct (normal_sample 0 _ g) as [variation g1].
    destruct (IH (future_values ++ [max 0 (last_value + trend_slope * inject_Z i + variation)])%list g1)
      as (new & g' & -> & Hlen & Hall).
    eexists (_ :: new), g'. rewrite <- app_assoc. cbn [app].
    split; [reflexivity|]. split; [cbn; now rewrite Hlen|].
    constructor; [apply max_floor | assumption].
Qed.

(** C10. On an empty history [predict_future_trend] takes the low-data
    branch and evaluates [historical_data[-1]], which raises an
    [IndexError], for every [days_ahead] and before any noise is drawn:
    the flat projection needs a non-empty history. *)
Theorem empty_history_raises (days_ahead : Z) (g : RandomState) :
  (length (@nil Q) <? 7)%nat = true
  /\ predict_future_trend [] days_ahead g
     = (raise (IndexError "list index out of range"), g).
Proof. split; reflexivity. Qed.

(** The low-data branch: a short, non-empty history is projected flat, and
    the generator is not touched. *)
Lemma short_history_run (historical_data : list Q) (days_ahead : Z)
  (g : RandomState) :
  historical_data <> [] ->
  (length historical_data < 7)%nat ->
  exists last_value,
    last_item historical_data = ret last_value
    /\ predict_future_trend historical_data days_ahead g
       = (ret (replicate last_value days_ahead), g).
Proof.
  intros Hne Hshort.
  destruct (last_item_nonempty historical_data Hne) as [last_value Hlast].
  exists last_value. split; [assumption|].
  unfold predict_future_trend.
  apply Nat.ltb_lt in Hshort. rewrite Hshort, Hlast. reflexivity.
Qed.

Lemma replicate_length {A} (x : A) (n : Z) :
  (0 <= n)%Z -> Z.of_nat (length (replicate x n)) = n.
Proof. intros Hn. unfold replicate. now rewrite repeat_length, Z2Nat.id. Qed.

Lemma replicate_Forall {A} (P : A -> Prop) (x : A) (n : Z) :
  P x -> Forall P (replicate x n).
Proof.
  intros Hx. apply Forall_forall. intros y Hy.
  apply repeat_spec in Hy. now subst.
Qed.

(** C4, amended.  For a non-empty history of fewer than 7 values and a
    [days_ahead >= 0], [predict_future_trend] raises nothing, draws no
    noise and returns exactly [days_ahead] values, each equal to
    [historical_data[-1]]. *)
Theorem short_history_flat_projection (historical_data : list Q)
  (days_ahead : Z) (g : RandomState) :
  historical_data <> [] ->
  (length historical_data < 7)%nat ->
  (0 <= days_ahead)%Z ->
  exists last_value forecast,
    last_item historical_data = ret last_value
    /\ predict_future_trend historical_data days_ahead g = (ret forecast, g)
    /\ Z.of_nat (length forecast) = days_ahead
    /\ Forall (fun v => v = last_value) forecast.
Proof.
  intros Hne Hshort Hdays.
  destruct (short_history_run historical_data days_ahead g Hne Hshort)
    as (last_value & Hlast & Hrun).
  exists last_value, (replicate last_value days_ahead).
  split; [assumption|]. split; [assumption|].
  split; [now apply replicate_length | now apply replicate_Forall].
Qed.

Context {laws : NumpySpec np}.

(** Both branches at once.  For a non-empty history and a
    [days_ahead >= 0] the forecast has exactly [days_ahead] values.  With at
    least 7 values of history every forecast value is [>= 0] whatever noise
    is drawn (the trend branch floors at 0); with fewer, the forecast
    repeats [historical_data[-1]], so its values are [>= 0] when that last
    value is. *)
Lemma forecast_shape (historical_data : list Q)
  (days_ahead : Z) (g : RandomState) :
  historical_data <> [] ->
  (0 <= days_ahead)%Z ->
  exists forecast g',
    predict_future_trend historical_data days_ahead g = (ret forecast, g')
    /\ Z.of_nat (length forecast) = days_ahead
    /\ ((7 <= length historical_data)%nat
        \/ (exists last_value,
               last_item historical_data = ret last_value /\ 0 <= last_value) ->
        Forall (fun v => 0 <= v) forecast).
Proof.
  intros Hne Hdays.
  destruct (Nat.ltb_spec (length historical_data) 7) as [Hshort|Hlong].
  - destruct (short_history_run historical_data days_ahead g Hne Hshort)
      as (last_value & Hlast & Hrun).
    exists (replicate last_value days_ahead), g. split; [assumption|].
    split; [now apply replicate_length|].
    intros [Hlong|(last_value' & Hlast' & Hpos)]; [lia|].
    rewrite Hlast in Hlast'. injection Hlast' as <-.
    now apply replicate_Forall.
  - unfold predict_future_trend.
    apply Nat.ltb_ge in Hlong as Hbranch. rewrite Hbranch.
    set (recent_data := take_last 30 historical_data).
    assert (Hrecent : recent_data <> []).
    { intros Hnil. apply (f_equal (@length Q)) in Hnil.
      unfold recent_data, take_last in Hnil. rewrite length_skipn in Hnil.
      cbn in Hnil. lia. }
    assert (Hcoeffs : length (polyfit (arange (length recent_data)) recent_data 1) = 2%nat).
    { apply polyfit_linear.
      - destruct recent_data; [congruence|]. cbn. discriminate.
      - unfold arange. now rewrite length_map, length_seq. }
    destruct (polyfit (arange (length recent_data)) recent_data 1)
      as [|trend_slope coeffs]; [discriminate|]. cbn [first_item].
    destruct (last_item_nonempty historical_data Hne) as [last_value ->].
    cbv beta iota delta [ret rand_bind rand_ret].
    destruct (project_values_appends last_value trend_slope
                (range 1 (days_ahead + 1)) [] g)
      as (new & g' & -> & Hlen & Hall).
    exists new, g'. cbn [app]. split; [reflexivity|].
    split; [|intros _; exact Hall].
    rewrite Hlen, range_length. lia.
Qed.

Lemma last_item_In {A} (xs : list A) (x : A) :
  last_item xs = ret x -> In x xs.
Proof.
  unfold last_item. intros Hlast. apply in_rev.
  destruct (rev xs) as [|y ys]; [discriminate|].
  injection Hlast as ->. now left.
Qed.

(** C5.  For every non-empty history of daily emissions (values [>= 0], as
    emissions are) and every [days_ahead >= 0], [predict_future_trend]
    returns exactly [days_ahead] values and none of them is negative,
    whatever the generator draws as noise. *)
Theorem forecast_length_and_floor (historical_data : list Q)
  (days_ahead : Z) (g : RandomState) :
  historical_data <> [] ->
  Forall (fun v => 0 <= v) historical_data ->
  (0 <= days_ahead)%Z ->
  exists forecast g',
    predict_future_trend historical_data days_ahead g = (ret forecast, g')
    /\ Z.of_nat (length forecast) = days_ahead
    /\ Forall (fun v => 0 <= v) forecast.
Proof.
  intros Hne Hpos Hdays.
  destruct (forecast_shape historical_data days_ahead g Hne Hdays)
    as (forecast & g' & Hrun & Hlen & Hfloor).
  exists forecast, g'. split; [assumption|]. split; [assumption|].
  apply Hfloor. right.
  destruct (last_item_nonempty historical_data Hne) as [last_value Hlast].
  exists last_value. split; [assumption|].
  apply last_item_In in Hlast.
  exact (proj1 (Forall_forall _ _) Hpos last_value Hlast).
Qed.

End ForecastFacts.

Section ForecastExamples.
Import Py Predictor Reference.

(** A week and a day of falling emissions. *)
Definition falling_week : list Q := [6; 5; 4; 3; 2; 1; 0.5; 0.2].

Example falling_week_forecast :
  fst (predict_future_trend falling_week 3 (seed 42)) = ret [0; 0; 0].
Proof. vm_compute. reflexivity. Qed.

(** C4, as stated, fails on the empty history, which is shorter than 7:
    no list is returned at all.  (And for a negative [days_ahead] the list
    returned is empty, so its length is not [days_ahead].) *)
Lemma empty_history_has_no_flat_projection :
  (length (@nil Q) < 7)%nat
  /\ (forall forecast g',
         @predict_future_trend lcg_numpy [] 30 (seed 42) <> (ret forecast, g'))
  /\ fst (@predict_future_trend lcg_numpy [5] (-1) (seed 42)) = ret [].
Proof.
  split; [cbn; lia|]. split; [|reflexivity].
  intros forecast g'. cbn. discriminate.
Qed.

Lemma short_history_flat_projection_witness :
  [3; 4; 5] <> @nil Q
  /\ (length [3; 4; 5] < 7)%nat
  /\ (0 <= 2)%Z
  /\ exists last_value forecast,
      last_item [3; 4; 5] = ret last_value
      /\ @predict_future_trend lcg_numpy [3; 4; 5] 2 (seed 42)
         = (ret forecast, seed 42)
      /\ Z.of_nat (length forecast) = 2%Z
      /\ Forall (fun v => v = last_value) forecast.
Proof.
  assert (H1 : [3; 4; 5] <> @nil Q) by discriminate.
  assert (H2 : (length [3; 4; 5] < 7)%nat) by (cbn; lia).
  assert (H3 : (0 <= 2)%Z) by lia.
  repeat (split; [assumption|]).
  exact (short_history_flat_projection [3; 4; 5] 2 (seed 42) H1 H2 H3).
Defined.

(** Why the values of the history matter: only the trend branch floors at
    0, so a short list ending below zero, which no record of emissions is,
    would be repeated as it stands. *)
Example flat_projection_is_not_floored :
  fst (@predict_future_trend lcg_numpy [-5] 1 (seed 42)) = ret [-5].
Proof. reflexivity. Qed.

Lemma forecast_length_and_floor_witness :
  falling_week <> []
  /\ Forall (fun v => 0 <= v) falling_week
  /\ (0 <= 3)%Z
  /\ exists forecast g',
      @predict_future_trend lcg_numpy falling_week 3 (seed 42) = (ret forecast, g')
      /\ Z.of_nat (length forecast) = 3%Z
      /\ Forall (fun v => 0 <= v) forecast.
Proof.
  assert (H1 : falling_week <> []) by discriminate.
  assert (H2 : Forall (fun v => 0 <= v) falling_week)
    by (repeat constructor; unfold Qle; cbn; lia).
  assert (H3 : (0 <= 3)%Z) by lia.
  repeat (split; [assumption|]).
  exact (forecast_length_and_floor falling_week 3 (seed 42) H1 H2 H3).
Defined.

End ForecastExamples.

(** ** Data frames and series *)

Section FrameFacts.
Import Py Predictor.

Lemma get_In {V} (k : string) (d : dict V) (v : V) :
  get k d = Some v -> In (k, v) d.
Proof.
  induction d as [|[k' v'] d IH]; cbn; [discriminate|].
  destruct (String.eqb_spec k k') as [->|_].
  - intros [= ->]. now left.
  - intros Hget. right. now apply IH.
Qed.

Lemma get_of_key {V} (k : string) (d : dict V) :
  In k (keys d) -> exists v, get k d = Some v.
Proof.
  induction d as [|[k' v'] d IH]; cbn; [tauto|].
  destruct (String.eqb_spec k k') as [->|Hne]; [eauto|].
  intros [Heq|Hin]; [congruence | now apply IH].
Qed.

Lemma setitem_Forall {V} (P : string * V -> Prop) k v (d : dict V) :
  P (k, v) -> Forall P d -> Forall P (setitem k v d).
Proof.
  intros Hkv. induction 1 as [|[k' v'] d Hhd Htl IH]; cbn.
  - now repeat constructor.
  - destruct (String.eqb k k'); constructor; assumption.
Qed.

Lemma make_frame_columns (data : dict column) (n : nat) :
  data <> [] ->
  Forall (fun '(_, c) => column_length c = n) data ->
  make_frame data = ret {| n_rows := n; columns := data |}.
Proof.
  intros Hne Hall. destruct data as [|[k first] data]; [congruence|].
  unfold make_frame.
  assert (Hfirst : column_length first = n) by now inversion Hall.
  rewrite Hfirst.
  replace (forallb _ _) with true; [reflexivity|].
  symmetry. apply forallb_forall. intros [k' c] Hin.
  rewrite Forall_forall in Hall. specialize (Hall _ Hin). cbn in Hall.
  rewrite Hall. apply Nat.eqb_refl.
Qed.

Lemma set_column_rows name c df :
  column_length c = n_rows df ->
  set_column name c df
  = ret {| n_rows := n_rows df; columns := setitem name c (columns df) |}.
Proof. intros Hlen. unfold set_column. now rewrite Hlen, Nat.eqb_refl. Qed.

Lemma set_column_well_formed name c df :
  column_length c = n_rows df -> well_formed df ->
  well_formed {| n_rows := n_rows df; columns := setitem name c (columns df) |}.
Proof. intros Hlen Hwf. unfold well_formed. cbn. now apply setitem_Forall. Qed.

Lemma select_keys (names : list string) (df : DataFrame) :
  Forall (fun name => In name (keys (columns df))) names ->
  exists cols, select names df = ret {| n_rows := n_rows df; columns := cols |}.
Proof.
  intros Hnames. unfold select.
  destruct (for_each_succeeds (fun name => In name (keys (columns df)))
              (fun acc name =>
                 try! c := get_column df name in ret (acc ++ [(name, c)])%list))
    with (xs := names) (acc := @nil (string * column)) as [cols ->];
    [|assumption|cbn; eauto].
  intros acc name Hin. destruct (get_of_key _ _ Hin) as [c Hc].
  unfold get_column, getitem. rewrite Hc. cbn. eauto.
Qed.

Lemma plus_array_lengths (s a : list Q) :
  length s = length a -> plus_array s a = ret (zip_with Qplus s a).
Proof. intros Hlen. unfold plus_array. now rewrite Hlen, Nat.eqb_refl. Qed.

Lemma maximum_length s k : length (maximum s k) = length s.
Proof. apply length_map. Qed.

(** [np.maximum(series, k)] is a floor at [k]. *)
Lemma maximum_floor s k : Forall (fun y => k <= y) (maximum s k).
Proof.
  unfold maximum. apply Forall_forall. intros y Hy.
  apply in_map_iff in Hy. destruct Hy as (x & <- & _).
  destruct (Qlt_le_dec x k); [apply Qle_refl | assumption].
Qed.

End FrameFacts.

(** Lengths of series built element by element. *)
Ltac series_lengths :=
  unfold Predictor.plus, Predictor.mult, Predictor.times, Predictor.over,
    Predictor.minus_from, Predictor.integers, Predictor.maximum;
  cbn [Predictor.column_length];
  repeat first [rewrite length_zip_with | rewrite length_map];
  lia.

(** ** Synthetic data *)

Section SyntheticDataFacts.
Import Py Predictor.
Context {np : Numpy} {laws : NumpySpec np}.

(** Name the outcome of the next draw and record its length. *)
Ltac next_draw n :=
  match goal with
  | |- context [match ?c with pair _ _ => _ end] =>
      let xs := fresh "xs" in
      let g := fresh "g" in
      let E := fresh "E" in
      let L := fresh "L" in
      destruct c as [xs g] eqn:E;
      assert (L : length xs = n)
        by (change xs with (fst (xs, g)); rewrite <- E;
            first [ apply randint_length | apply normal_length
                  | apply exponential_length | apply poisson_length
                  | apply uniform_length | apply choice_length; discriminate ]);
      try (assert (Forall (fun x => In x location_types) xs)
             by (change xs with (fst (xs, g)); rewrite <- E; apply choice_elements));
      try (assert (Forall (fun x => In x vehicle_types) xs)
             by (change xs with (fst (xs, g)); rewrite <- E; apply choice_elements));
      clear E
  end.

(** C8. [generate_synthetic_data n] returns a frame of exactly [n] rows
    (every column has [n] entries), for every [n] and so for every
    [n >= 1]; every [location_type] is one of urban, suburban, rural;
    every [vehicle_type] is one of gasoline, diesel, electric, hybrid; and
    every [carbon_footprint] is at least 1000. *)
Theorem synthetic_data_shape (n_samples : nat) (g : RandomState) :
  exists df g',
    generate_synthetic_data n_samples g = (ret df, g')
    /\ n_rows df = n_samples
    /\ well_formed df
    /\ (exists labels,
           get "location_type" (columns df) = Some (Text labels)
           /\ Forall (fun l => In l location_types) labels)
    /\ (exists labels,
           get "vehicle_type" (columns df) = Some (Text labels)
           /\ Forall (fun l => In l vehicle_types) labels)
    /\ (exists footprints,
           get "carbon_footprint" (columns df) = Some (Numeric footprints)
           /\ Forall (fun y => 1000 <= y) footprints).
Proof.
  unfold generate_synthetic_data, np_random_seed, rand_bind, rand_ret.
  do 19 next_draw n_samples.
  match goal with
  | |- context [make_frame ?data] =>
      rewrite (make_frame_columns data n_samples);
      [|discriminate|repeat constructor; series_lengths]
  end.
  cbn [bind ret].
  match goal with
  | |- context [set_column _ (Numeric ?c) _] =>
      set (carbon_footprint := c);
      assert (Hcarbon : length carbon_footprint = n_samples)
        by (subst carbon_footprint; series_lengths)
  end.
  rewrite set_column_rows by (cbn; assumption). cbn [bind ret].
  rewrite plus_array_lengths by congruence. cbn [bind ret].
  match goal with
  | |- context [zip_with Qplus carbon_footprint ?noise] =>
      set (noisy := zip_with Qplus carbon_footprint noise);
      assert (Hnoisy : length noisy = n_samples)
        by (subst noisy; rewrite length_zip_with; lia)
  end.
  rewrite set_column_rows by (cbn; assumption). cbn [bind ret].
  rewrite set_column_rows by (cbn; rewrite maximum_length; assumption).
  cbn [n_rows columns].
  eexists _, _. split; [reflexivity|]. cbn [n_rows columns].
  split; [reflexivity|]. split.
  - unfold well_formed. cbn [n_rows columns].
    repeat apply setitem_Forall; try (cbn; rewrite ?maximum_length; assumption).
    repeat constructor; series_lengths.
  - split; [eexists; split; [reflexivity | assumption]|].
    split; [eexists; split; [reflexivity | assumption]|].
    eexists; split; [reflexivity | apply maximum_floor].
Qed.

End SyntheticDataFacts.

(** ** Training and prediction *)

Section TrainingFacts.
Import Py Predictor.
Context {np : Numpy} {sk : Sklearn}.

(** Before training no model is registered under any name. *)
Lemma untrained_has_no_model (model_name : string) :
  models init !! model_name = None.
Proof. apply lookup_empty. Qed.

(** C6, amended.  [predict_footprint] has one guard and one error: when no
    model is registered under the requested name -- because nothing was
    trained yet, or because that variant was never trained -- it raises
    [ValueError("Model <name> not trained yet")] and leaves the predictor
    as it was. *)
Theorem predict_requires_registered_model (self : State)
  (user_data : dict cell) (model_name : string) :
  models self !! model_name = None ->
  predict_footprint user_data model_name self
  = (raise (ValueError
              (String.append "Model "
                 (String.append model_name " not trained yet"))),
     self).
Proof. intros Hmissing. unfold predict_footprint. now rewrite Hmissing. Qed.

Context {sk_laws : SklearnSpec sk}.

(** On a frame without rows the label encoders fit and leave a frame
    without rows; no model is touched. *)
Lemma encode_columns_without_rows (cols : list string) :
  forall df self,
    n_rows df = 0%nat -> well_formed df ->
    exists df' self',
      method_for_each cols (encode_column true) df self = (ret df', self')
      /\ n_rows df' = 0%nat /\ well_formed df'
      /\ models self' = models self.
Proof.
  induction cols as [|col cols IH]; intros df self Hrows Hwf; cbn.
  - now exists df, self.
  - unfold method_bind, encode_column at 1.
    destruct (get col (columns df)) as [labels|] eqn:Hcol.
    + assert (Hlabels : column_length labels = 0%nat).
      { apply get_In in Hcol. unfold well_formed in Hwf.
        rewrite Forall_forall in Hwf. specialize (Hwf _ Hcol).
        cbn in Hwf. congruence. }
      destruct (label_fit_empty new_LabelEncoder labels Hlabels) as [encoder ->].
      cbn [bind ret].
      rewrite set_column_rows by (cbn; congruence).
      destruct (IH {| n_rows := n_rows df;
                      columns := setitem col (Numeric []) (columns df) |}
                  (set_encoders (<[col := encoder]> (encoders self)) self))
        as (df' & self' & Hrun & Hrows' & Hwf' & Hmodels);
        [assumption | apply set_column_well_formed; [cbn; congruence | assumption] |].
      exists df', self'. unfold ret in *. rewrite Hrun. auto.
    + destruct (IH df self Hrows Hwf) as (df' & self' & Hrun & Hrest).
      exists df', self'. unfold ret in *. rewrite Hrun. auto.
Qed.

(** C7, amended.  [train_models] on a dataset without rows fails: the
    scaler's fit rejects the empty array and its [ValueError] reaches the
    caller; no model is registered. *)
Theorem train_on_empty_dataset (df : DataFrame) (self : State) :
  n_rows df = 0%nat ->
  well_formed df ->
  exists msg self',
    train_models df self = (raise (ValueError msg), self')
    /\ models self' = models self.
Proof.
  intros Hrows Hwf.
  unfold train_models, preprocess_data, method_bind.
  destruct (encode_columns_without_rows categorical_cols df self Hrows Hwf)
    as (df' & self' & -> & Hrows' & Hwf' & Hmodels).
  unfold ret. unfold scale_features.
  set (feature_cols := filter _ (keys (columns df'))).
  destruct (select_keys feature_cols df') as [cols ->].
  { apply Forall_forall. intros name Hin.
    apply filter_In in Hin. tauto. }
  cbv beta iota delta [ret].
  destruct (scaler_needs_samples new_StandardScaler
              {| n_rows := n_rows df'; columns := cols |} Hrows')
    as (msg & scaler & ->).
  cbn [bind raise]. eexists _, _. split; [reflexivity|]. exact Hmodels.
Qed.

End TrainingFacts.

(** ** The predictor run on the reference libraries *)

Section PredictorExamples.
Import Py Predictor Reference.

#[export] Instance simple_sklearn_spec : SklearnSpec simple_sklearn.
Proof.
  split; cbn.
  - intros _ [xs|xs] Hlen; destruct xs; try discriminate; cbn; eauto.
  - intros _ X Hrows. unfold fit_scaler. rewrite Hrows. cbn. eauto.
Qed.

Lemma synthetic_data_shape_witness :
  exists df g',
    @generate_synthetic_data lcg_numpy 5 (seed 7) = (ret df, g')
    /\ n_rows df = 5%nat
    /\ well_formed df
    /\ (exists labels,
           get "location_type" (columns df) = Some (Text labels)
           /\ Forall (fun l => In l location_types) labels)
    /\ (exists labels,
           get "vehicle_type" (columns df) = Some (Text labels)
           /\ Forall (fun l => In l vehicle_types) labels)
    /\ (exists footprints,
           get "carbon_footprint" (columns df) = Some (Numeric footprints)
           /\ Forall (fun y => 1000 <= y) footprints).
Proof. exact (synthetic_data_shape (laws := lcg_numpy_spec) 5%nat (seed 7)). Defined.

(** Five synthetic samples, and the sample input of the test suite. *)
Definition five_samples : DataFrame :=
  match fst (generate_synthetic_data 5 (seed 7)) with
  | inr df => df
  | inl _ => {| n_rows := 0; columns := [] |}
  end.

Definition sample_input : dict cell :=
  [ ("age", Num 30); ("income", Num 50000); ("household_size", Num 2);
    ("location_type", Str "urban"); ("car_miles_per_week", Num 100);
    ("public_transport_usage", Num 2); ("flights_per_year", Num 2);
    ("vehicle_type", Str "electric"); ("electricity_kwh_monthly", Num 900);
    ("natural_gas_therms_monthly", Num 50); ("home_size_sqft", Num 2000);
    ("renewable_energy", Num 0); ("meat_meals_per_week", Num 10);
    ("local_food_percentage", Num 30); ("organic_food_percentage", Num 20);
    ("waste_kg_per_week", Num 15); ("recycling_percentage", Num 50);
    ("composting", Num 0) ].

(** The predictor after [train_models] on the five samples. *)
Definition trained : State := snd (train_models five_samples init).

Example trained_predicts :
  map fst (match fst (train_models five_samples init) with
           | inr report => report
           | inl _ => []
           end)
  = ["random_forest"; "gradient_boosting"; "xgboost"; "lightgbm"]
  /\ exists estimate, fst (predict_footprint sample_input "xgboost" trained) = ret estimate.
Proof. split; [vm_compute; reflexivity|]. eexists. vm_compute. reflexivity. Qed.

(** C6, as stated, fails: prediction before any training and prediction
    with a variant that was never trained raise errors of one and the same
    class, [ValueError]. *)
Lemma prediction_errors_share_one_class :
  exists before_training unknown_variant,
    fst (predict_footprint sample_input "xgboost" init) = raise before_training
    /\ models trained !! "xgboost" <> None
    /\ fst (predict_footprint sample_input "ridge" trained) = raise unknown_variant
    /\ class_name before_training = "ValueError"
    /\ class_name unknown_variant = "ValueError"
    /\ class_name before_training = class_name unknown_variant.
Proof.
  exists (ValueError "Model xgboost not trained yet"),
         (ValueError "Model ridge not trained yet").
  split; [reflexivity|]. split; [vm_compute; discriminate|].
  split; [vm_compute; reflexivity|]. repeat split.
Qed.

Lemma predict_requires_registered_model_witness :
  models init !! "xgboost" = None
  /\ predict_footprint sample_input "xgboost" init
     = (raise (ValueError
                 (String.append "Model "
                    (String.append "xgboost" " not trained yet"))),
        init).
Proof.
  assert (H : models init !! "xgboost" = None) by reflexivity.
  split; [exact H|].
  exact (predict_requires_registered_model init sample_input "xgboost" H).
Defined.

(** A dataset with the columns of the synthetic data and no rows. *)
Definition no_samples : DataFrame :=
  match fst (generate_synthetic_data 0 (seed 7)) with
  | inr df => df
  | inl _ => {| n_rows := 0; columns := [] |}
  end.

(** C7, as stated, fails: training on the empty dataset raises the
    scaler's [ValueError]; the class of the error is not
    [EmptyDatasetError]. *)
Lemma empty_training_raises_value_error :
  n_rows no_samples = 0%nat
  /\ length (columns no_samples) = 19%nat
  /\ exists e,
      fst (train_models no_samples init) = raise e
      /\ class_name e = "ValueError"
      /\ class_name e <> "EmptyDatasetError".
Proof.
  split; [reflexivity|]. split; [reflexivity|].
  eexists. split; [vm_compute; reflexivity|]. split; [reflexivity | discriminate].
Qed.

Lemma train_on_empty_dataset_witness :
  n_rows no_samples = 0%nat
  /\ well_formed no_samples
  /\ exists msg self',
      train_models no_samples init = (raise (ValueError msg), self')
      /\ models self' = models init.
Proof.
  assert (H1 : n_rows no_samples = 0%nat) by reflexivity.
  assert (H2 : well_formed no_samples) by (repeat constructor).
  split; [exact H1|]. split; [exact H2|].
  exact (train_on_empty_dataset (sk_laws := simple_sklearn_spec) no_samples init H1 H2).
Defined.

End PredictorExamples.

(** * Further properties of the emission calculator *)

Section CalculatorSums.
Import Py Calculator.

(** The sum of [w x] over the elements of a list. *)
Fixpoint total_of {A} (w : A -> Q) (xs : list A) : Q :=
  match xs with
  | [] => 0
  | x :: xs' => w x + total_of w xs'
  end.

(** A loop that adds [w x] to its accumulator at every element computes the
    sum of [w]. *)
Lemma fold_accumulates {A} (step : Q -> A -> Q) (w : A -> Q) :
  (forall acc x, step acc x == acc + w x) ->
  forall xs acc, fold_left step xs acc == acc + total_of w xs.
Proof.
  intros Hstep. induction xs as [|x xs IH]; intros acc; cbn [fold_left total_of].
  - ring.
  - rewrite IH, Hstep. ring.
Qed.

Lemma total_of_zero {A} (w : A -> Q) (xs : list A) :
  Forall (fun x => w x == 0) xs -> total_of w xs == 0.
Proof.
  induction 1 as [|x xs Hx _ IH]; cbn [total_of]; [reflexivity|].
  rewrite Hx, IH. ring.
Qed.


(** What one entry of a category adds: its amount times the factor of its
    key, nothing when the table does not have the key. *)
Definition entry_emissions (factors : dict Q) (entry : string * Q) : Q :=
  match get (fst entry) factors with
  | Some factor => snd entry * factor
  | None => 0
  end.

(** The same for a transportation mode: a missing distance is 0, a missing
    frequency is 1. *)
Definition trip_emissions (entry : string * TransportDetails) : Q :=
  match get (fst entry) emission_factors.transportation with
  | Some factor =>
      match distance (snd entry) with Some d => d | None => 0 end
      * match frequency (snd entry) with Some f => f | None => 1 end
      * factor
  | None => 0
  end.

Lemma weighted_footprint_total factors data :
  weighted_footprint factors data == total_of (entry_emissions factors) data.
Proof.
  unfold weighted_footprint, items.
  rewrite (fold_accumulates _ (entry_emissions factors)); [ring|].
  intros acc [key amount]. unfold entry_emissions. cbn [fst snd].
  destruct (get key factors); ring.
Qed.

Lemma transportation_footprint_total data :
  calculate_transportation_footprint data == total_of trip_emissions data.
Proof.
  unfold calculate_transportation_footprint, items.
  rewrite (fold_accumulates _ trip_emissions); [ring|].
  intros acc [mode details]. unfold trip_emissions. cbn [fst snd].
  destruct (get mode emission_factors.transportation); ring.
Qed.









End CalculatorSums.

(** ** The calculator's own recommendations ([get_recommendations]) *)

Module Advice.
Import Py.

Definition transportation_advice : list string :=
  [ "Consider using public transportation or carpooling";
    "Switch to an electric or hybrid vehicle";
    "Work from home when possible to reduce commuting";
    "Combine multiple errands into one trip" ].

Definition energy_advice : list string :=
  [ "Switch to renewable energy sources";
    "Improve home insulation to reduce heating/cooling needs";
    "Use energy-efficient appliances";
    "Install LED lighting throughout your home" ].

Definition food_advice : list string :=
  [ "Reduce meat consumption, especially beef and lamb";
    "Buy local and seasonal produce";
    "Minimize food waste through meal planning";
    "Consider plant-based alternatives" ].

Definition waste_advice : list string :=
  [ "Increase recycling and composting";
    "Reduce single-use items";
    "Buy products with minimal packaging";
    "Donate or sell items instead of throwing them away" ].

(** [if footprint_data.get(key, 0) > limit: recommendations.extend(advice)] *)
Definition extend_if_above (footprint_data : dict Q) (key : string) (limit : Q)
  (advice recommendations : list string) : list string :=
  if Qlt_le_dec limit (get_default key footprint_data 0)
  then (recommendations ++ advice)%list
  else recommendations.

Definition get_recommendations (footprint_data : dict Q) : list string :=
  let recommendations : list string := [] in
  let recommendations :=
    extend_if_above footprint_data "transportation" 100 transportation_advice
      recommendations in
  let recommendations :=
    extend_if_above footprint_data "energy" 200 energy_advice recommendations in
  let recommendations :=
    extend_if_above footprint_data "food" 150 food_advice recommendations in
  let recommendations :=
    extend_if_above footprint_data "waste" 50 waste_advice recommendations in
  take 5 recommendations.

End Advice.

Section CalculatorMore.
Import Py Calculator Advice.

(** The entries of a category whose key has an emission factor. *)
Definition known_entries {V} (factors : dict Q) (data : dict V) : dict V :=
  filter (fun entry => match get (fst entry) factors with
                       | Some _ => true
                       | None => false
                       end) data.

Lemma total_of_known {V} (factors : dict Q) (w : string * V -> Q) (data : dict V) :
  (forall entry, get (fst entry) factors = None -> w entry == 0) ->
  total_of w (known_entries factors data) == total_of w data.
Proof.
  intros Hzero. induction data as [|entry data IH]; cbn [known_entries filter total_of];
    [reflexivity|].
  fold (known_entries factors data).
  destruct (get (fst entry) factors) eqn:Hget; cbn [total_of]; rewrite IH;
    [reflexivity|].
  rewrite (Hzero entry Hget). ring.
Qed.

(** X2. Activities without an emission factor are skipped silently: a
    category footprint is unchanged when every entry whose key is not in
    the category's factor table is removed from the input. *)
Theorem unknown_activities_are_skipped
  (trips : dict TransportDetails) (amounts : dict Q) :
  calculate_transportation_footprint trips
  == calculate_transportation_footprint
       (known_entries emission_factors.transportation trips)
  /\ calculate_energy_footprint amounts
     == calculate_energy_footprint (known_entries emission_factors.energy amounts)
  /\ calculate_food_footprint amounts
     == calculate_food_footprint (known_entries emission_factors.food amounts)
  /\ calculate_waste_footprint amounts
     == calculate_waste_footprint (known_entries emission_factors.waste amounts).
Proof.
  unfold calculate_energy_footprint, calculate_food_footprint,
    calculate_waste_footprint.
  rewrite !transportation_footprint_total, !weighted_footprint_total.
  repeat split; symmetry; apply total_of_known; intros entry Hget;
    unfold trip_emissions, entry_emissions; now rewrite Hget.
Qed.




(** Whether a category of the daily footprint is above its limit; a missing
    category counts as zero. *)
Definition above (footprint_data : dict Q) (key : string) (limit : Q) : Prop :=
  limit < get_default key footprint_data 0.

Lemma extend_if_above_yes fd key limit advice recommendations :
  above fd key limit ->
  extend_if_above fd key limit advice recommendations = (recommendations ++ advice)%list.
Proof.
  unfold above, extend_if_above. intros H.
  destruct (Qlt_le_dec _ _) as [_|Hle]; [reflexivity|].
  exfalso. apply (Qlt_not_le _ _ H Hle).
Qed.

Lemma extend_if_above_no fd key limit advice recommendations :
  ~ above fd key limit ->
  extend_if_above fd key limit advice recommendations = recommendations.
Proof.
  unfold above, extend_if_above. intros H.
  destruct (Qlt_le_dec _ _) as [Hlt|_]; [contradiction|reflexivity].
Qed.

Lemma above_dec fd key limit : {above fd key limit} + {~ above fd key limit}.
Proof.
  unfold above. destruct (Qlt_le_dec limit (get_default key fd 0)) as [H|H];
    [now left|right]. now apply Qle_not_lt.
Qed.

(** X4. [get_recommendations] returns no advice exactly when no category is
    above its limit (transportation 100, energy 200, food 150, waste 50). *)
Theorem no_advice_iff_within_limits (footprint_data : dict Q) :
  get_recommendations footprint_data = []
  <-> ~ above footprint_data "transportation" 100
      /\ ~ above footprint_data "energy" 200
      /\ ~ above footprint_data "food" 150
      /\ ~ above footprint_data "waste" 50.
Proof.
  unfold get_recommendations.
  destruct (above_dec footprint_data "transportation" 100) as [Ht|Ht],
           (above_dec footprint_data "energy" 200) as [He|He],
           (above_dec footprint_data "food" 150) as [Hf|Hf],
           (above_dec footprint_data "waste" 50) as [Hw|Hw];
    rewrite ?(extend_if_above_yes _ "transportation") by assumption;
    rewrite ?(extend_if_above_no _ "transportation") by assumption;
    rewrite ?(extend_if_above_yes _ "energy") by assumption;
    rewrite ?(extend_if_above_no _ "energy") by assumption;
    rewrite ?(extend_if_above_yes _ "food") by assumption;
    rewrite ?(extend_if_above_no _ "food") by assumption;
    rewrite ?(extend_if_above_yes _ "waste") by assumption;
    rewrite ?(extend_if_above_no _ "waste") by assumption;
    cbn; split; try discriminate; tauto.
Qed.

(** X5. The cut at five hides the later categories: when transportation and
    energy are both above their limits, the advice is the four
    transportation items and the first energy item, whatever the food and
    waste emissions are. *)
Theorem advice_is_cut_at_five (footprint_data : dict Q) :
  above footprint_data "transportation" 100 ->
  above footprint_data "energy" 200 ->
  get_recommendations footprint_data
  = (transportation_advice ++ take 1 energy_advice)%list.
Proof.
  intros Ht He. unfold get_recommendations.
  rewrite (extend_if_above_yes _ "transportation") by assumption.
  rewrite (extend_if_above_yes _ "energy") by assumption.
  unfold extend_if_above.
  destruct (Qlt_le_dec 150 _), (Qlt_le_dec 50 _); reflexivity.
Qed.

Lemma advice_is_cut_at_five_witness :
  let heavy_day : dict Q :=
    [("transportation", 150); ("energy", 250); ("food", 400); ("waste", 90)] in
  above heavy_day "transportation" 100
  /\ above heavy_day "energy" 200
  /\ get_recommendations heavy_day
     = (transportation_advice ++ take 1 energy_advice)%list.
Proof.
  cbn zeta.
  assert (H1 : above [("transportation", 150); ("energy", 250); ("food", 400);
                      ("waste", 90)] "transportation" 100) by reflexivity.
  assert (H2 : above [("transportation", 150); ("energy", 250); ("food", 400);
                      ("waste", 90)] "energy" 200) by reflexivity.
  split; [exact H1|]. split; [exact H2|].
  exact (advice_is_cut_at_five _ H1 H2).
Defined.

End CalculatorMore.

(** * Further properties of the recommendation engine *)

Section ScoringMore.
Import Py Recommender.

Lemma min_upper (a b : Q) : min a b <= b.
Proof.
  unfold min. destruct (Qlt_le_dec b a); [apply Qle_refl | assumption].
Qed.

Lemma min_nonneg (a b : Q) : 0 <= a -> 0 <= b -> 0 <= min a b.
Proof. unfold min. now destruct (Qlt_le_dec b a). Qed.

(** Truncation keeps a non-negative number between 0 and any integer above
    it. *)
Lemma int_bounds (x : Q) (n : Z) :
  0 <= x -> x <= inject_Z n -> (0 <= int x <= n)%Z.
Proof.
  destruct x as [num den]. unfold Qle, int. cbn. intros Hlow Hhigh.
  rewrite Z.mul_1_r in Hlow.
  rewrite Z.quot_div_nonneg by lia. split.
  - apply Z.div_pos; lia.
  - apply Z.div_le_upper_bound; lia.
Qed.

(** X6. For non-negative emissions the priority is an integer between 0 and
    10, whatever the impact estimate. *)
Theorem priority_between_0_and_10 (current_emissions : Q) (impact : Z) :
  0 <= current_emissions ->
  (0 <= _calculate_priority current_emissions impact <= 10)%Z.
Proof.
  intros Hpos. unfold _calculate_priority. apply int_bounds.
  - assert (Hscore : 0 <= current_emissions / 100).
    { apply Qle_shift_div_l; [reflexivity|]. now rewrite Qmult_0_l. }
    assert (Himpact : 0 <= inject_Z (Z.abs impact) / 500).
    { apply Qle_shift_div_l; [reflexivity|]. rewrite Qmult_0_l.
      unfold Qle. cbn. lia. }
    pose proof (min_nonneg _ 5 Hscore ltac:(unfold Qle; cbn; lia)).
    pose proof (min_nonneg _ 5 Himpact ltac:(unfold Qle; cbn; lia)).
    lra.
  - pose proof (min_upper (current_emissions / 100) 5).
    pose proof (min_upper (inject_Z (Z.abs impact) / 500) 5).
    change (inject_Z 10) with 10. lra.
Qed.

Lemma priority_between_0_and_10_witness :
  0 <= 150 /\ (0 <= _calculate_priority 150 (-2000) <= 10)%Z.
Proof.
  assert (H : 0 <= 150) by (unfold Qle; cbn; lia).
  split; [exact H|]. exact (priority_between_0_and_10 150 (-2000) H).
Defined.

Lemma first_match_In rec_lower table action :
  first_match rec_lower table = Some action -> In action (values table).
Proof.
  induction table as [|[keyword act] table IH]; cbn; [discriminate|].
  destruct (contains keyword rec_lower).
  - intros [= ->]. now left.
  - intros H. right. now apply IH.
Qed.

(** The key that the extraction returns is an action of the category. *)
Lemma extract_action_key_In text c key :
  _extract_action_key text c = ret key ->
  exists table, get c action_mapping = Some table /\ In key (values table).
Proof.
  unfold _extract_action_key, getitem.
  destruct (get c action_mapping) as [table|]; cbn [bind]; [|discriminate].
  unfold ret, raise. cbn [bind]. intros Hkey. exists table. split; [reflexivity|].
  destruct (first_match (lower text) (items table)) as [action|] eqn:Hmatch.
  - injection Hkey as <-. now apply first_match_In in Hmatch.
  - destruct (values table) as [|action rest]; [discriminate|].
    injection Hkey as <-. now left.
Qed.

(** Every action of a category has a strictly negative impact estimate. *)
Lemma actions_have_impacts c table key :
  get c action_mapping = Some table -> In key (values table) ->
  exists impacts impact,
    get c impact_estimates = Some impacts
    /\ get key impacts = Some impact /\ (impact < 0)%Z.
Proof.
  intros Htable Hkey.
  assert (Hc : In c categories).
  { revert Htable. cbn.
    repeat match goal with
           | |- context [String.eqb c ?k] =>
               destruct (String.eqb_spec c k); [subst; cbn; tauto|]
           end.
    discriminate. }
  cbn in Hc. destruct Hc as [<-|[<-|[<-|[<-|[]]]]];
    cbn in Htable; injection Htable as <-; cbn in Hkey;
    repeat (destruct Hkey as [<-|Hkey];
            [eexists _, _; split; [reflexivity | split; reflexivity]|]);
    contradiction.
Qed.

(** X7. On each of the four categories the action key extracted from any
    text has an impact estimate, and that estimate is strictly negative: the
    default impact of 0 is never used. *)
Theorem extracted_key_has_negative_impact (text c : string) :
  In c categories ->
  exists key impacts impact,
    _extract_action_key text c = ret key
    /\ get c impact_estimates = Some impacts
    /\ get key impacts = Some impact
    /\ (impact < 0)%Z.
Proof.
  intros Hc. destruct (extract_action_key_succeeds text c Hc) as [key Hkey].
  destruct (extract_action_key_In _ _ _ Hkey) as (table & Htable & Hin).
  destruct (actions_have_impacts _ _ _ Htable Hin) as (impacts & impact & H1 & H2 & H3).
  exists key, impacts, impact. auto.
Qed.

Lemma extracted_key_has_negative_impact_witness :
  In "waste" categories
  /\ exists key impacts impact,
      _extract_action_key "Use both sides of paper" "waste" = ret key
      /\ get "waste" impact_estimates = Some impacts
      /\ get key impacts = Some impact
      /\ (impact < 0)%Z.
Proof.
  assert (H : In "waste" categories) by (cbn; tauto).
  split; [exact H|].
  exact (extracted_key_has_negative_impact "Use both sides of paper" "waste" H).
Defined.

End ScoringMore.

Section RankingMore.
Import Py Calculator Recommender.

Lemma for_each_app {A S} (xs ys : list A) (body : S -> A -> result S) (acc : S) :
  for_each (xs ++ ys) body acc = bind (for_each xs body acc) (for_each ys body).
Proof.
  revert acc. induction xs as [|x xs IH]; intros acc; cbn; [reflexivity|].
  destruct (body acc x); cbn; [reflexivity | apply IH].
Qed.

(** What one scored text adds to the list. *)
Lemma score_recommendation_result c emissions acc text acc' :
  score_recommendation c emissions acc text = ret acc' ->
  exists key impacts,
    _extract_action_key text c = ret key
    /\ get c impact_estimates = Some impacts
    /\ acc' = (acc ++ [ {| category := title c;
                           recommendation := text;
                           impact_estimate := get_default key impacts 0%Z;
                           priority :=
                             _calculate_priority emissions
                               (get_default key impacts 0%Z);
                           difficulty := _estimate_difficulty text |} ])%list.
Proof.
  unfold score_recommendation, getitem.
  destruct (_extract_action_key text c) as [e|key]; cbn [bind]; [discriminate|].
  destruct (get c impact_estimates) as [impacts|]; cbn [bind ret raise];
    [|discriminate].
  intros [= <-]. eauto.
Qed.

Lemma score_all_length c emissions texts :
  forall acc acc',
    for_each texts (score_recommendation c emissions) acc = ret acc' ->
    length acc' = (length acc + length texts)%nat.
Proof.
  induction texts as [|text texts IH]; intros acc acc'; cbn.
  - intros [= <-]. lia.
  - destruct (score_recommendation c emissions acc text) as [e|mid] eqn:Hstep;
      cbn [bind]; [discriminate|].
    intros Hrest. apply IH in Hrest.
    apply score_recommendation_result in Hstep.
    destruct Hstep as (key & impacts & _ & _ & ->).
    rewrite length_app in Hrest. cbn in Hrest. lia.
Qed.

(** A key of the thresholds table is one of the four categories. *)
Lemma thresholds_categories c limits :
  get c thresholds = Some limits -> In c categories.
Proof.
  cbn.
  repeat match goal with
         | |- context [String.eqb c ?k] =>
             destruct (String.eqb_spec c k); [subst; cbn; tauto|]
         end.
  discriminate.
Qed.

(** An entry other than [total] adds exactly two recommendations. *)
Lemma recommend_category_count acc c emissions acc' :
  recommend_category acc (c, emissions) = ret acc' ->
  length acc' = (length acc + if String.eqb c "total" then 0 else 2)%nat.
Proof.
  unfold recommend_category.
  destruct (String.eqb c "total") eqn:Htotal; [intros [= <-]; lia|].
  destruct (get c thresholds) as [limits|] eqn:Hlimits;
    unfold getitem at 1; rewrite Hlimits; cbn [bind ret raise]; [|discriminate].
  apply thresholds_categories in Hlimits as Hc. revert Hlimits.
  cbn in Hc. destruct Hc as [<-|[<-|[<-|[<-|[]]]]]; intros [= <-];
    cbn -[Qlt_le_dec for_each score_recommendation];
    repeat (destruct (Qlt_le_dec _ _); cbn -[Qlt_le_dec for_each score_recommendation]);
    intros Hrun; apply score_all_length in Hrun; exact Hrun.
Qed.

(** The entries of a footprint other than [total]. *)
Definition category_entries (user_footprint : dict Q) : dict Q :=
  filter (fun entry => negb (String.eqb (fst entry) "total")) user_footprint.

Lemma recommend_all_count user_footprint :
  forall acc acc',
    for_each (items user_footprint) recommend_category acc = ret acc' ->
    length acc' = (length acc + 2 * length (category_entries user_footprint))%nat.
Proof.
  unfold items. induction user_footprint as [|[c emissions] fp IH];
    intros acc acc'; cbn [for_each].
  - intros [= <-]. cbn. lia.
  - destruct (recommend_category acc (c, emissions)) as [e|mid] eqn:Hstep;
      cbn [bind]; [discriminate|].
    intros Hrest. apply IH in Hrest. apply recommend_category_count in Hstep.
    unfold category_entries in *. cbn [filter fst].
    destruct (String.eqb c "total"); cbn [negb length]; lia.
Qed.

(** X8. When [get_personalized_recommendations] returns, it returns two
    recommendations for every entry of the footprint other than [total],
    cut at eight. *)
Theorem recommendation_count {Patterns Goals : Type}
  (user_footprint : dict Q) (user_patterns : Patterns)
  (user_goals : option Goals) (recommendations : list Recommendation) :
  get_personalized_recommendations user_footprint user_patterns user_goals
  = ret recommendations ->
  length recommendations
  = Nat.min 8 (2 * length (category_entries user_footprint)).
Proof.
  unfold get_personalized_recommendations.
  destruct (for_each (items user_footprint) recommend_category [])
    as [e|found] eqn:Hfound; cbn [bind]; [discriminate|].
  intros [= <-]. apply recommend_all_count in Hfound. cbn [length] in Hfound.
  rewrite length_take, sort_reverse_length, Hfound. reflexivity.
Qed.

(** The recommendations of the commuter. *)
Definition commuter_recommendations : list Recommendation :=
  match get_personalized_recommendations commuter tt (@None unit) with
  | inr recommendations => recommendations
  | inl _ => []
  end.

Lemma recommendation_count_witness :
  get_personalized_recommendations commuter tt (@None unit)
  = ret commuter_recommendations
  /\ length commuter_recommendations
     = Nat.min 8 (2 * length (category_entries commuter)).
Proof.
  assert (H : get_personalized_recommendations commuter tt (@None unit)
              = ret commuter_recommendations) by (vm_compute; reflexivity).
  split; [exact H|].
  exact (recommendation_count commuter tt None commuter_recommendations H).
Defined.

Lemma unknown_category c :
  ~ In c breakdown_keys ->
  String.eqb c "total" = false /\ get c thresholds = None.
Proof.
  intros Hc. split.
  - destruct (String.eqb_spec c "total"); [subst; exfalso; apply Hc; cbn; tauto|reflexivity].
  - destruct (get c thresholds) as [limits|] eqn:Hget; [|reflexivity].
    exfalso. apply Hc. apply thresholds_categories in Hget.
    unfold breakdown_keys. apply in_or_app. now left.
Qed.

(** X9. A footprint with a key that is neither a category nor [total] makes
    [get_personalized_recommendations] raise [KeyError] on the first such
    key. *)
Theorem unknown_category_raises_KeyError {Patterns Goals : Type}
  (before after : dict Q) (c : string) (emissions : Q)
  (user_patterns : Patterns) (user_goals : option Goals) :
  Forall (fun entry => In (fst entry) breakdown_keys) before ->
  ~ In c breakdown_keys ->
  get_personalized_recommendations (before ++ (c, emissions) :: after)%list
    user_patterns user_goals
  = raise (KeyError c).
Proof.
  intros Hbefore Hc. unfold get_personalized_recommendations, items.
  rewrite for_each_app.
  destruct (for_each_succeeds (fun entry => In (fst entry) breakdown_keys)
              recommend_category) with (xs := before) (acc := @nil Recommendation)
    as [found ->]; [|assumption|].
  { intros acc [k e] Hk. now apply recommend_category_succeeds. }
  cbn [bind ret for_each]. unfold recommend_category at 1.
  destruct (unknown_category c Hc) as [-> Hnone].
  unfold getitem at 1. rewrite Hnone. reflexivity.
Qed.

Lemma unknown_category_raises_KeyError_witness :
  Forall (fun entry => In (fst entry) breakdown_keys) [("energy", 30)]
  /\ ~ In "transportation_emissions" breakdown_keys
  /\ get_personalized_recommendations
       ([("energy", 30)] ++ ("transportation_emissions", 12) :: [("total", 42)])%list
       tt (@None unit)
     = raise (KeyError "transportation_emissions").
Proof.
  assert (H1 : Forall (fun entry => In (fst entry) breakdown_keys) [("energy", 30)]).
  { constructor; [cbn; tauto | constructor]. }
  assert (H2 : ~ In "transportation_emissions" breakdown_keys).
  { cbn. intros H. repeat (destruct H as [H|H]; [discriminate H|]). exact H. }
  split; [exact H1|]. split; [exact H2|].
  exact (unknown_category_raises_KeyError [("energy", 30)] [("total", 42)]
           "transportation_emissions" 12 tt None H1 H2).
Defined.

End RankingMore.

Section EngineOutput.
Import Py Calculator Recommender.

(** A loop whose body extends a list with elements that depend on the item
    at hand extends the list with elements of some item. *)
Lemma for_each_extends_from {A B} (P : A -> B -> Prop)
  (body : list B -> A -> result (list B))
  (step : forall acc x acc', body acc x = ret acc' ->
            exists new, acc' = (acc ++ new)%list /\ Forall (P x) new) :
  forall xs acc acc', for_each xs body acc = ret acc' ->
    exists new, acc' = (acc ++ new)%list
                /\ Forall (fun b => exists x, In x xs /\ P x b) new.
Proof.
  induction xs as [|x xs IH]; intros acc acc' Hrun; cbn in Hrun.
  - injection Hrun as <-. exists []. split; [now rewrite app_nil_r | constructor].
  - destruct (body acc x) as [e|mid] eqn:Hbody; cbn in Hrun; [discriminate|].
    destruct (step _ _ _ Hbody) as (new1 & -> & Hnew1).
    destruct (IH _ _ Hrun) as (new2 & -> & Hnew2).
    exists (new1 ++ new2)%list. split; [now rewrite app_assoc|].
    apply Forall_app. split.
    + eapply Forall_impl; [|exact Hnew1]. intros b Hb. exists x. split; [now left|assumption].
    + eapply Forall_impl; [|exact Hnew2]. intros b (y & Hy & Hb).
      exists y. split; [now right|assumption].
Qed.

Lemma estimate_difficulty_levels text :
  In (_estimate_difficulty text) ["High"; "Medium"; "Low"].
Proof.
  unfold _estimate_difficulty.
  destruct (any _ high_difficulty_keywords); [cbn; tauto|].
  destruct (any _ medium_difficulty_keywords); cbn; tauto.
Qed.

(** What the engine produces for category [c]: one of the first two texts
    of a level of the category's database, filed under the category's title,
    with the impact estimate of the action key extracted from the text,
    which is strictly negative, and the difficulty estimated from the
    text. *)
Definition produced_for (c : string) (r : Recommendation) : Prop :=
  In c categories
  /\ category r = title c
  /\ (exists level levels texts,
         get c recommendation_database = Some levels
         /\ get level levels = Some texts
         /\ In (recommendation r) (take 2 texts))
  /\ (exists key impacts,
         _extract_action_key (recommendation r) c = ret key
         /\ get c impact_estimates = Some impacts
         /\ get key impacts = Some (impact_estimate r))
  /\ (impact_estimate r < 0)%Z
  /\ difficulty r = _estimate_difficulty (recommendation r)
  /\ In (difficulty r) ["High"; "Medium"; "Low"].

Lemma recommend_category_produces acc c emissions acc' :
  recommend_category acc (c, emissions) = ret acc' ->
  exists new, acc' = (acc ++ new)%list /\ Forall (produced_for c) new.
Proof.
  unfold recommend_category.
  destruct (String.eqb c "total") eqn:Htotal.
  { intros [= <-]. exists []. split; [now rewrite app_nil_r | constructor]. }
  destruct (get c thresholds) as [limits|] eqn:Hlimits;
    unfold getitem at 1; rewrite Hlimits; cbn [bind ret raise]; [|discriminate].
  apply thresholds_categories in Hlimits as Hc.
  destruct (getitem limits "high") as [e|high]; cbn [bind]; [discriminate|].
  match goal with
  | |- bind ?computed _ = _ -> _ => destruct computed as [e|level]
  end; cbn [bind]; [discriminate|].
  unfold getitem at 1.
  destruct (get c recommendation_database) as [levels|] eqn:Hlevels;
    cbn [bind ret raise]; [|discriminate].
  unfold getitem at 1.
  destruct (get level levels) as [texts|] eqn:Htexts;
    cbn [bind ret raise]; [|discriminate].
  intros Hrun.
  apply (for_each_extends_from
           (fun text r =>
              recommendation r = text /\ category r = title c
              /\ (exists key impacts,
                     _extract_action_key text c = ret key
                     /\ get c impact_estimates = Some impacts
                     /\ get key impacts = Some (impact_estimate r))
              /\ (impact_estimate r < 0)%Z
              /\ difficulty r = _estimate_difficulty text)) in Hrun.
  - destruct Hrun as (new & -> & Hnew). exists new. split; [reflexivity|].
    eapply Forall_impl; [|exact Hnew].
    intros r (text & Hin & Htext & Hcat & Hkey & Himpact & Hdiff).
    unfold produced_for. subst text.
    split; [assumption|]. split; [assumption|].
    split; [now exists level, levels, texts|].
    split; [assumption|]. split; [assumption|]. split; [assumption|].
    rewrite Hdiff. apply estimate_difficulty_levels.
  - intros acc0 text acc1 Hstep.
    apply score_recommendation_result in Hstep.
    destruct Hstep as (key & impacts & Hkey & Himpacts & ->).
    eexists. split; [reflexivity|]. constructor; [|constructor].
    cbn [recommendation category impact_estimate difficulty].
    destruct (extract_action_key_In _ _ _ Hkey) as (table & Htable & Hin).
    destruct (actions_have_impacts _ _ _ Htable Hin)
      as (impacts' & impact & Himpacts' & Himpact & Hneg).
    rewrite Himpacts in Himpacts'. injection Himpacts' as <-.
    unfold get_default. rewrite Himpact.
    split; [reflexivity|]. split; [reflexivity|].
    split; [now exists key, impacts|]. split; [assumption | reflexivity].
Qed.

Lemma engine_output_produced {Patterns Goals : Type}
  (user_footprint : dict Q) (user_patterns : Patterns)
  (user_goals : option Goals) (recommendations : list Recommendation) :
  get_personalized_recommendations user_footprint user_patterns user_goals
  = ret recommendations ->
  Forall (fun r => exists c, produced_for c r) recommendations.
Proof.
  unfold get_personalized_recommendations.
  destruct (for_each (items user_footprint) recommend_category [])
    as [e|found] eqn:Hfound; cbn [bind]; [discriminate|].
  intros [= <-]. apply Forall_take, sort_reverse_Forall.
  apply (for_each_extends (fun r => exists c, produced_for c r)) in Hfound.
  - destruct Hfound as (new & -> & Hnew). exact Hnew.
  - intros acc [c emissions] acc' Hstep.
    destruct (recommend_category_produces _ _ _ _ Hstep) as (new & -> & Hnew).
    exists new. split; [reflexivity|].
    eapply Forall_impl; [|exact Hnew]. intros r Hr. now exists c.
Qed.

(** X10. Every recommendation that [get_personalized_recommendations]
    returns is filed under the title of one of the four categories, carries
    one of the first two texts of a level of that category's database, has
    the impact estimate of the action key extracted from its text, which is
    strictly negative, and has the difficulty estimated from its text, one
    of High, Medium and Low. *)
Theorem recommendations_come_from_the_database {Patterns Goals : Type}
  (user_footprint : dict Q) (user_patterns : Patterns)
  (user_goals : option Goals) (recommendations : list Recommendation) :
  get_personalized_recommendations user_footprint user_patterns user_goals
  = ret recommendations ->
  Forall (fun r => exists c, produced_for c r) recommendations.
Proof. apply engine_output_produced. Qed.

Lemma recommendations_come_from_the_database_witness :
  get_personalized_recommendations commuter tt (@None unit)
  = ret commuter_recommendations
  /\ Forall (fun r => exists c, produced_for c r) commuter_recommendations.
Proof.
  assert (H : get_personalized_recommendations commuter tt (@None unit)
              = ret commuter_recommendations) by (vm_compute; reflexivity).
  split; [exact H|].
  exact (recommendations_come_from_the_database commuter tt None
           commuter_recommendations H).
Defined.





End EngineOutput.

(** * The rest of the recommendation engine

    Seasonal and weekly tips, peer benchmarks and the return on investment
    of recommendations. *)

Module Tips.
Import Py Recommender.

(** [xs[i]]: a negative index counts from the end. *)
Definition list_item {A} (xs : list A) (i : Z) : result A :=
  let n := Z.of_nat (length xs) in
  let position := if (i <? 0)%Z then (i + n)%Z else i in
  if ((position <? 0) || (n <=? position))%Z
  then raise (IndexError "list index out of range")
  else match nth_error xs (Z.to_nat position) with
       | Some x => ret x
       | None => raise (IndexError "list index out of range")
       end.

(** [max(xs, key=key)]: the first of the largest; no largest of nothing. *)
Fixpoint max_from {A} (key : A -> Q) (best : A) (xs : list A) : A :=
  match xs with
  | [] => best
  | x :: xs' => max_from key (if Qlt_le_dec (key best) (key x) then x else best) xs'
  end.

Definition max_by {A} (key : A -> Q) (xs : list A) : result A :=
  match xs with
  | [] => raise (ValueError "max() arg is an empty sequence")
  | x :: xs' => ret (max_from key x xs')
  end.

Definition seasonal_recs : dict (list string) :=
  [ ("winter",
      [ "Optimize heating efficiency - lower thermostat by 2°F";
        "Use draft stoppers and weatherstripping";
        "Take advantage of natural sunlight for heating";
        "Wear layers instead of increasing heat" ]);
    ("spring",
      [ "Start a garden to grow your own vegetables";
        "Begin cycling or walking as weather improves";
        "Clean and maintain HVAC systems";
        "Plan energy-efficient home improvements" ]);
    ("summer",
      [ "Use fans instead of air conditioning when possible";
        "Plan local vacations to reduce travel emissions";
        "Harvest rainwater for garden irrigation";
        "Use natural ventilation during cooler hours" ]);
    ("fall",
      [ "Prepare home for winter efficiency";
        "Preserve seasonal foods to reduce winter transport emissions";
        "Switch to renewable energy before peak heating season";
        "Insulate pipes and water heater" ]) ].

(** [current_month in months] *)
Definition month_in (current_month : Z) (months : list Z) : bool :=
  existsb (Z.eqb current_month) months.

Definition get_seasonal_recommendations (current_month : Z) : result (list string) :=
  if month_in current_month [12; 1; 2]%Z then getitem seasonal_recs "winter"
  else if month_in current_month [3; 4; 5]%Z then getitem seasonal_recs "spring"
  else if month_in current_month [6; 7; 8]%Z then getitem seasonal_recs "summer"
  else getitem seasonal_recs "fall".

Definition weekly_tips_db : dict (list string) :=
  [ ("transportation",
      [ "Try walking or biking for trips under 2 miles";
        "Plan your errands to minimize driving";
        "Check your tire pressure - properly inflated tires improve fuel efficiency";
        "Consider carpooling with colleagues or neighbors" ]);
    ("energy",
      [ "Unplug chargers and electronics when not in use";
        "Use cold water for washing clothes";
        "Open curtains during sunny days for natural heating";
        "Set your water heater to 120°F (49°C)" ]);
    ("food",
      [ "Try one new plant-based recipe this week";
        "Buy only what you need to reduce food waste";
        "Choose seasonal fruits and vegetables";
        "Start a small herb garden on your windowsill" ]);
    ("waste",
      [ "Bring reusable bags when shopping";
        "Use both sides of paper for notes";
        "Donate clothes instead of throwing them away";
        "Start separating compostable materials" ]) ].

(** [generate_weekly_tips]; the month that [datetime.now()] reads from the
    clock is the argument [current_month].  Every list of the two tip
    tables has four entries, so the modulus is never zero. *)
Definition generate_weekly_tips (user_footprint : dict Q) (week_number : Z)
  (current_month : Z) : result (list string) :=
  let tips : list string := [] in
  try! highest :=
    max_by snd
      (filter (fun entry => negb (String.eqb (fst entry) "total"))
         (items user_footprint)) in
  let highest_category := fst highest in
  try! category_tips := getitem weekly_tips_db highest_category in
  let tip_index := (week_number mod Z.of_nat (length category_tips))%Z in
  try! tip := list_item category_tips tip_index in
  let tips := (tips ++ [tip])%list in
  try! seasonal_tips := get_seasonal_recommendations current_month in
  try! seasonal_tip :=
    list_item seasonal_tips (week_number mod Z.of_nat (length seasonal_tips))%Z in
  ret (tips ++ [seasonal_tip])%list.

(** Benchmarks, kg CO2 per year. *)
Definition benchmarks : dict Z :=
  [ ("global_average", 4800); ("us_average", 16000); ("eu_average", 8500);
    ("target_2030", 2300) ]%Z.

Record Comparison : Type :=
  { value : Z;
    difference : Q;
    percentage : Q;
    status : string }.

(** [user_demographics] is accepted and never read. *)
Definition benchmark_against_peers {Demographics : Type}
  (user_footprint : dict Q) (user_demographics : option Demographics)
  : dict Comparison :=
  let user_annual := get_default "total" user_footprint 0 * 365 in
  fold_left
    (fun comparisons '(benchmark_name, benchmark_value) =>
       let difference := user_annual - inject_Z benchmark_value in
       let percentage :=
         if (0 <? benchmark_value)%Z
         then (difference / inject_Z benchmark_value) * 100
         else 0 in
       setitem benchmark_name
         {| value := benchmark_value;
            difference := difference;
            percentage := percentage;
            status := if Qlt_le_dec 0 difference then "above" else "below" |}
         comparisons)
    (items benchmarks) [].

(** Up-front costs of the actions that need an investment. *)
Definition cost_estimates : dict Z :=
  [ ("switch_to_electric", 25000); ("renewable_energy", 15000);
    ("efficient_appliances", 2000); ("better_insulation", 5000);
    ("programmable_thermostat", 200); ("led_lighting", 300) ]%Z.

(** Carbon price estimate, dollars per ton of CO2. *)
Definition carbon_price : Q := 50.

(** The keys that [calculate_roi_recommendations] adds to a
    recommendation. *)
Record Roi : Type :=
  { upfront_cost : Z;
    annual_savings : Q;
    payback_years : Q;
    roi_5year : Q }.

(** The body of the loop: the recommendation, with its added keys if any. *)
Definition add_roi (done : list (Recommendation * option Roi)) (rec : Recommendation)
  : result (list (Recommendation * option Roi)) :=
  try! action_key :=
    _extract_action_key (recommendation rec) (lower (category rec)) in
  let added :=
    match get action_key cost_estimates with
    | Some upfront_cost =>
        let annual_savings :=
          inject_Z (Z.abs (impact_estimate rec)) * (carbon_price / 1000) in
        if Qlt_le_dec 0 annual_savings then
          let payback_years := inject_Z upfront_cost / annual_savings in
          Some {| upfront_cost := upfront_cost;
                  annual_savings := annual_savings;
                  payback_years := payback_years;
                  roi_5year :=
                    (annual_savings * 5 - inject_Z upfront_cost)
                    / inject_Z upfront_cost * 100 |}
        else None
    | None => None
    end in
  ret (done ++ [(rec, added)])%list.

(** [annual_income] is accepted and never read. *)
Definition calculate_roi_recommendations (recommendations : list Recommendation)
  (annual_income : Q) : result (list (Recommendation * option Roi)) :=
  for_each recommendations add_roi [].

End Tips.

Section TipsFacts.
Import Py Recommender Tips.

(** An index reduced modulo the length is always in range. *)
Lemma list_item_mod {A} (xs : list A) (i : Z) :
  xs <> [] ->
  exists x, list_item xs (i mod Z.of_nat (length xs)) = ret x /\ In x xs.
Proof.
  intros Hne.
  assert (Hlen : (0 < Z.of_nat (length xs))%Z) by (destruct xs; [congruence | cbn; lia]).
  pose proof (Z.mod_pos_bound i _ Hlen) as Hrange.
  unfold list_item.
  destruct (Z.ltb_spec (i mod Z.of_nat (length xs)) 0) as [Hneg|_]; [lia|].
  destruct (Z.ltb_spec (i mod Z.of_nat (length xs)) 0) as [Hneg|_]; [lia|].
  destruct (Z.leb_spec (Z.of_nat (length xs)) (i mod Z.of_nat (length xs)))
    as [Hhigh|_]; [lia|].
  cbn [orb].
  destruct (nth_error xs (Z.to_nat (i mod Z.of_nat (length xs)))) as [x|] eqn:Hnth.
  - exists x. split; [reflexivity|]. eapply nth_error_In. exact Hnth.
  - apply nth_error_None in Hnth. lia.
Qed.

Lemma max_from_In {A} (key : A -> Q) (xs : list A) :
  forall best, In (max_from key best xs) (best :: xs).
Proof.
  induction xs as [|x xs IH]; intros best; cbn [max_from]; [now left|].
  destruct (IH (if Qlt_le_dec (key best) (key x) then x else best)) as [<-|Hin].
  - destruct (Qlt_le_dec (key best) (key x)); cbn; tauto.
  - right. now right.
Qed.

Lemma max_from_upper {A} (key : A -> Q) (xs : list A) :
  forall best, Forall (fun x => key x <= key (max_from key best xs)) (best :: xs).
Proof.
  induction xs as [|x xs IH]; intros best; cbn [max_from].
  - constructor; [apply Qle_refl | constructor].
  - specialize (IH (if Qlt_le_dec (key best) (key x) then x else best)).
    inversion IH as [|? ? Hhead Htail]; subst.
    destruct (Qlt_le_dec (key best) (key x)) as [Hlt|Hle].
    + constructor; [|constructor; assumption].
      eapply Qle_trans; [apply Qlt_le_weak, Hlt | exact Hhead].
    + constructor; [assumption|]. constructor; [|assumption].
      eapply Qle_trans; [exact Hle | exact Hhead].
Qed.

Lemma month_in_spec (current_month : Z) (months : list Z) :
  month_in current_month months = true -> In current_month months.
Proof.
  unfold month_in. intros H. apply existsb_exists in H.
  destruct H as (m & Hin & Heq). apply Z.eqb_eq in Heq. now subst.
Qed.

(** X12. [get_seasonal_recommendations] returns four tips for every integer;
    a number that is no month (below 1 or above 12) gets the tips of the
    fall, like September to November. *)
Theorem seasonal_tips_for_any_month (current_month : Z) :
  exists tips,
    get_seasonal_recommendations current_month = ret tips
    /\ length tips = 4%nat
    /\ (~ (1 <= current_month <= 8)%Z -> current_month <> 12%Z ->
        get "fall" seasonal_recs = Some tips).
Proof.
  unfold get_seasonal_recommendations.
  destruct (month_in current_month [12; 1; 2]%Z) eqn:Hwinter;
    [|destruct (month_in current_month [3; 4; 5]%Z) eqn:Hspring;
      [|destruct (month_in current_month [6; 7; 8]%Z) eqn:Hsummer]];
    eexists; (split; [reflexivity|]); (split; [reflexivity|]);
    intros Hout Hnot; try reflexivity; exfalso;
    match goal with
    | H : month_in _ _ = true |- _ => apply month_in_spec in H; cbn in H; lia
    end.
Qed.

Lemma seasonal_tips_of (current_month : Z) :
  exists tips, get_seasonal_recommendations current_month = ret tips /\ tips <> [].
Proof.
  unfold get_seasonal_recommendations.
  destruct (month_in current_month [12; 1; 2]%Z);
    [|destruct (month_in current_month [3; 4; 5]%Z);
      [|destruct (month_in current_month [6; 7; 8]%Z)]];
    cbn; eexists; split; try reflexivity; discriminate.
Qed.

Lemma weekly_tips_categories c :
  In c categories ->
  exists tips, get c weekly_tips_db = Some tips /\ tips <> [].
Proof.
  cbn. intros [<-|[<-|[<-|[<-|[]]]]]; cbn; eexists; split; try reflexivity;
    discriminate.
Qed.

(** X13. On a footprint whose keys are categories or [total], with at least
    one category, [generate_weekly_tips] raises nothing for any week number,
    negative ones included, and any month: it returns two tips, the first
    from the weekly tips of a category with the highest emissions, the
    second from the tips of the season. *)
Theorem weekly_tips_for_any_week (user_footprint : dict Q)
  (week_number current_month : Z) :
  Forall (fun k => In k breakdown_keys) (keys user_footprint) ->
  category_entries user_footprint <> [] ->
  exists tip seasonal_tip,
    generate_weekly_tips user_footprint week_number current_month
    = ret [tip; seasonal_tip]
    /\ (exists c emissions tips,
           In (c, emissions) (category_entries user_footprint)
           /\ Forall (fun entry => snd entry <= emissions)
                (category_entries user_footprint)
           /\ get c weekly_tips_db = Some tips
           /\ In tip tips)
    /\ (exists seasonal_tips,
           get_seasonal_recommendations current_month = ret seasonal_tips
           /\ In seasonal_tip seasonal_tips).
Proof.
  intros Hkeys Hsome. unfold generate_weekly_tips, items.
  change (filter _ user_footprint) with (category_entries user_footprint).
  destruct (category_entries user_footprint) as [|first others] eqn:Hentries;
    [congruence|].
  cbn [max_by bind ret].
  pose proof (max_from_In snd others first) as Hin.
  pose proof (max_from_upper snd others first) as Hupper.
  destruct (max_from snd first others) as [c emissions] eqn:Hmax.
  cbn [fst snd] in *.
  assert (Hc : In c categories).
  { assert (Hmember : In (c, emissions) (category_entries user_footprint))
      by (rewrite Hentries; exact Hin).
    unfold category_entries in Hmember. apply filter_In in Hmember.
    destruct Hmember as [Hmember Hnot]. cbn [fst] in Hnot.
    rewrite Forall_forall in Hkeys.
    specialize (Hkeys c (in_map fst _ _ Hmember)).
    unfold breakdown_keys in Hkeys. apply in_app_or in Hkeys.
    destruct Hkeys as [Hk|[<-|[]]]; [assumption|discriminate]. }
  destruct (weekly_tips_categories c Hc) as (tips & Htips & Hne).
  unfold getitem at 1. rewrite Htips. cbn [bind ret].
  destruct (list_item_mod tips week_number Hne) as (tip & -> & Htip).
  cbn [bind ret].
  destruct (seasonal_tips_of current_month) as (seasonal & Hseason & Hsne).
  rewrite Hseason. cbn [bind ret].
  destruct (list_item_mod seasonal week_number Hsne) as (seasonal_tip & -> & Hstip).
  cbn [bind ret app].
  exists tip, seasonal_tip. split; [reflexivity|]. split.
  - exists c, emissions, tips. auto.
  - exists seasonal. auto.
Qed.

End TipsFacts.

Section TipsMore.
Import Py Recommender Tips.

Lemma weekly_tips_for_any_week_witness :
  Forall (fun k => In k breakdown_keys) (keys commuter)
  /\ category_entries commuter <> []
  /\ exists tip seasonal_tip,
      generate_weekly_tips commuter (-3) 11 = ret [tip; seasonal_tip]
      /\ (exists c emissions tips,
             In (c, emissions) (category_entries commuter)
             /\ Forall (fun entry => snd entry <= emissions)
                  (category_entries commuter)
             /\ get c weekly_tips_db = Some tips
             /\ In tip tips)
      /\ (exists seasonal_tips,
             get_seasonal_recommendations 11 = ret seasonal_tips
             /\ In seasonal_tip seasonal_tips).
Proof.
  assert (H1 : Forall (fun k => In k breakdown_keys) (keys commuter)).
  { repeat (constructor; [cbn; tauto|]). constructor. }
  assert (H2 : category_entries commuter <> []) by discriminate.
  split; [exact H1|]. split; [exact H2|].
  exact (weekly_tips_for_any_week commuter (-3) 11 H1 H2).
Defined.

(** X14. A footprint without any category entry -- an empty one, or one
    that only has a [total] -- makes [generate_weekly_tips] raise
    [ValueError]: there is no highest category to take the maximum of. *)
Theorem weekly_tips_need_a_category (user_footprint : dict Q)
  (week_number current_month : Z) :
  category_entries user_footprint = [] ->
  generate_weekly_tips user_footprint week_number current_month
  = raise (ValueError "max() arg is an empty sequence").
Proof.
  intros Hnone. unfold generate_weekly_tips, items.
  change (filter _ user_footprint) with (category_entries user_footprint).
  now rewrite Hnone.
Qed.

Lemma weekly_tips_need_a_category_witness :
  category_entries [("total", 20)] = []
  /\ generate_weekly_tips [("total", 20)] 45 11
     = raise (ValueError "max() arg is an empty sequence").
Proof.
  assert (H : category_entries [("total", 20)] = []) by reflexivity.
  split; [exact H|].
  exact (weekly_tips_need_a_category [("total", 20)] 45 11 H).
Defined.

(** X15. [benchmark_against_peers] compares the annual footprint, [total]
    times 365 with a missing [total] counted as zero, with each of the four
    benchmarks in turn: the difference is the annual footprint minus the
    benchmark, the percentage is that difference relative to the benchmark,
    and the status is [above] exactly when the annual footprint is strictly
    greater, [below] otherwise. *)
Theorem benchmarks_compare_annual_footprint {Demographics : Type}
  (user_footprint : dict Q) (user_demographics : option Demographics) :
  let user_annual := get_default "total" user_footprint 0 * 365 in
  Forall2
    (fun benchmark comparison =>
       fst comparison = fst benchmark
       /\ value (snd comparison) = snd benchmark
       /\ difference (snd comparison) == user_annual - inject_Z (snd benchmark)
       /\ percentage (snd comparison) * inject_Z (snd benchmark)
          == difference (snd comparison) * 100
       /\ (status (snd comparison) = "above"
           <-> inject_Z (snd benchmark) < user_annual)
       /\ (status (snd comparison) = "below"
           <-> user_annual <= inject_Z (snd benchmark)))
    benchmarks (benchmark_against_peers user_footprint user_demographics).
Proof.
  cbn zeta. unfold benchmark_against_peers.
  set (user_annual := get_default "total" user_footprint 0 * 365).
  cbn -[Qlt_le_dec Qdiv Qmult Qminus inject_Z].
  repeat (constructor;
          [cbn [fst snd value difference percentage status];
           split; [reflexivity|]; split; [reflexivity|];
           split; [reflexivity|];
           split; [field; discriminate|];
           destruct (Qlt_le_dec 0 _) as [Habove|Hbelow];
           split; split; intros H; try reflexivity; try discriminate H; lra|]).
  constructor.
Qed.

End TipsMore.

Section RoiFacts.
Import Py Recommender Tips.

Lemma lower_title c : In c categories -> lower (title c) = c.
Proof. cbn. intros [<-|[<-|[<-|[<-|[]]]]]; reflexivity. Qed.

(** What the added keys of a recommendation satisfy: positive savings at
    the carbon price, a payback time that recovers the cost, and a five-year
    return below zero. *)
Definition roi_sound (r : Recommendation) (added : option Roi) : Prop :=
  match added with
  | Some roi =>
      0 < annual_savings roi
      /\ annual_savings roi
         == inject_Z (Z.abs (impact_estimate r)) * (carbon_price / 1000)
      /\ payback_years roi * annual_savings roi == inject_Z (upfront_cost roi)
      /\ roi_5year roi < 0
  | None => True
  end.

Lemma add_roi_produced c r done :
  produced_for c r ->
  exists added, add_roi done r = ret (done ++ [(r, added)])%list /\ roi_sound r added.
Proof.
  intros (Hc & Hcat & _ & (key & impacts & Hkey & Himpacts & Himpact) & _).
  unfold add_roi. rewrite Hcat, (lower_title c Hc), Hkey. cbn [bind ret].
  eexists. split; [reflexivity|].
  destruct (extract_action_key_In _ _ _ Hkey) as (table & Htable & Hin).
  destruct r as [r_category r_text r_impact r_priority r_difficulty].
  cbn [impact_estimate] in *. clear Hkey Hcat.
  cbn in Hc. destruct Hc as [<-|[<-|[<-|[<-|[]]]]];
    cbn in Htable, Himpacts; injection Htable as <-; injection Himpacts as <-;
    cbn in Hin;
    repeat (destruct Hin as [<-|Hin];
            [cbn in Himpact; injection Himpact as <-;
             vm_compute; first [exact I | repeat split]|]);
    contradiction.
Qed.

Lemma add_roi_all recommendations :
  Forall (fun r => exists c, produced_for c r) recommendations ->
  forall done,
  exists added,
    for_each recommendations add_roi done = ret (done ++ added)%list
    /\ map fst added = recommendations
    /\ Forall (fun entry => roi_sound (fst entry) (snd entry)) added.
Proof.
  induction 1 as [|r recommendations [c Hr] _ IH]; intros done; cbn [for_each].
  - exists []. rewrite app_nil_r. repeat split. constructor.
  - destruct (add_roi_produced c r done Hr) as (added & -> & Hsound).
    cbn [bind ret].
    destruct (IH (done ++ [(r, added)])%list) as (rest & -> & Hmap & Hall).
    exists ((r, added) :: rest). rewrite <- app_assoc. cbn [app map fst].
    split; [reflexivity|]. split; [now rewrite Hmap|].
    constructor; assumption.
Qed.

(** X16. [calculate_roi_recommendations] accepts whatever
    [get_personalized_recommendations] returns: it raises nothing and gives
    the same recommendations back in the same order.  Where it adds the
    return-on-investment keys, the annual savings are the absolute impact at
    50 dollars per ton and are positive, the payback time times the savings
    is the up-front cost, and the five-year return is negative. *)
Theorem roi_of_engine_recommendations {Patterns Goals : Type}
  (user_footprint : dict Q) (user_patterns : Patterns)
  (user_goals : option Goals) (recommendations : list Recommendation)
  (annual_income : Q) :
  get_personalized_recommendations user_footprint user_patterns user_goals
  = ret recommendations ->
  exists with_roi,
    calculate_roi_recommendations recommendations annual_income = ret with_roi
    /\ map fst with_roi = recommendations
    /\ Forall (fun entry => roi_sound (fst entry) (snd entry)) with_roi.
Proof.
  intros Hrun. apply engine_output_produced in Hrun.
  destruct (add_roi_all recommendations Hrun []) as (added & Hadded & Hrest).
  exists added. split; [exact Hadded | exact Hrest].
Qed.

Lemma roi_of_engine_recommendations_witness :
  get_personalized_recommendations commuter tt (@None unit)
  = ret commuter_recommendations
  /\ exists with_roi,
      calculate_roi_recommendations commuter_recommendations 50000 = ret with_roi
      /\ map fst with_roi = commuter_recommendations
      /\ Forall (fun entry => roi_sound (fst entry) (snd entry)) with_roi.
Proof.
  assert (H : get_personalized_recommendations commuter tt (@None unit)
              = ret commuter_recommendations) by (vm_compute; reflexivity).
  split; [exact H|].
  exact (roi_of_engine_recommendations commuter tt None
           commuter_recommendations 50000 H).
Defined.



End RoiFacts.

Section ActionPlanMore.
Import Py Recommender.

Lemma total_abs_impact_nonneg selected : (0 <= total_abs_impact selected)%Z.
Proof. induction selected as [|r selected IH]; cbn [total_abs_impact]; lia. Qed.

Lemma total_abs_impact_take n selected :
  (total_abs_impact (take n selected) <= total_abs_impact selected)%Z.
Proof.
  revert n. induction selected as [|r selected IH]; intros [|n];
    cbn [take firstn total_abs_impact]; try lia.
  - pose proof (total_abs_impact_nonneg selected). lia.
  - specialize (IH n). lia.
Qed.

(** The three difficulty levels select disjoint parts of a list. *)
Lemma total_abs_impact_levels recommendations :
  (total_abs_impact (with_difficulty "Low" recommendations)
   + total_abs_impact (with_difficulty "Medium" recommendations)
   + total_abs_impact (with_difficulty "High" recommendations)
   <= total_abs_impact recommendations)%Z.
Proof.
  unfold with_difficulty.
  induction recommendations as [|r recommendations IH];
    cbn [filter total_abs_impact]; [lia|].
  destruct (String.eqb_spec (difficulty r) "Low") as [Hlow|_];
    destruct (String.eqb_spec (difficulty r) "Medium") as [Hmedium|_];
    destruct (String.eqb_spec (difficulty r) "High") as [Hhigh|_];
    try congruence; cbn [total_abs_impact]; lia.
Qed.

(** X18. The total potential reduction of an action plan is never negative
    and never more than the sum of the absolute impacts of all the
    recommendations the plan was built from. *)
Theorem plan_reduction_is_bounded (recommendations : list Recommendation)
  (timeframe_weeks : Z) :
  (0 <= total_potential_reduction
          (generate_action_plan recommendations timeframe_weeks)
     <= total_abs_impact recommendations)%Z.
Proof.
  unfold generate_action_plan. cbn [total_potential_reduction].
  unfold sumZ. cbn [map fold_left expected_reduction].
  rewrite !reduction_of_total.
  pose proof (total_abs_impact_levels recommendations).
  pose proof (total_abs_impact_take 3 (with_difficulty "Low" recommendations)).
  pose proof (total_abs_impact_take 3 (with_difficulty "Medium" recommendations)).
  pose proof (total_abs_impact_take 2 (with_difficulty "High" recommendations)).
  pose proof (total_abs_impact_nonneg (take 3 (with_difficulty "Low" recommendations))).
  pose proof (total_abs_impact_nonneg (take 3 (with_difficulty "Medium" recommendations))).
  pose proof (total_abs_impact_nonneg (take 2 (with_difficulty "High" recommendations))).
  lia.
Qed.

End ActionPlanMore.

(** * Further properties of the predictor *)

Section ForecastMore.
Import Py Predictor.
Context {np : Numpy}.

Lemma take_last_app {A} (n : nat) (older recent : list A) :
  (n <= length recent)%nat ->
  take_last n (older ++ recent) = take_last n recent.
Proof.
  intros Hn. unfold take_last. rewrite length_app, skipn_app.
  rewrite skipn_all2 by lia. cbn [app]. f_equal. lia.
Qed.

Lemma last_item_app {A} (older recent : list A) :
  recent <> [] -> last_item (older ++ recent) = last_item recent.
Proof.
  intros Hne. destruct (exists_last Hne) as (front & x & ->).
  rewrite app_assoc. now rewrite !last_item_snoc.
Qed.

(** X19. Only the last 30 values of the history count: with at least 30
    values, whatever older values are put in front of them, the forecast and
    the noise drawn for it are the same. *)
Theorem forecast_uses_last_30_values (older recent : list Q)
  (days_ahead : Z) (g : RandomState) :
  (30 <= length recent)%nat ->
  predict_future_trend (older ++ recent) days_ahead g
  = predict_future_trend recent days_ahead g.
Proof.
  intros Hlen. unfold predict_future_trend.
  assert (Hne : recent <> []) by (destruct recent; [cbn in Hlen; lia | discriminate]).
  rewrite length_app.
  destruct (Nat.ltb_spec (length older + length recent) 7) as [Hshort|_]; [lia|].
  destruct (Nat.ltb_spec (length recent) 7) as [Hshort|_]; [lia|].
  rewrite take_last_app by assumption.
  now rewrite last_item_app.
Qed.

Context {laws : NumpySpec np}.

(** X20. For a non-empty history and a [days_ahead] of zero or less the
    forecast is the empty list and no noise is drawn. *)
Theorem no_days_no_forecast (historical_data : list Q) (days_ahead : Z)
  (g : RandomState) :
  historical_data <> [] ->
  (days_ahead <= 0)%Z ->
  predict_future_trend historical_data days_ahead g = (ret [], g).
Proof.
  intros Hne Hdays.
  destruct (Nat.ltb_spec (length historical_data) 7) as [Hshort|Hlong].
  - destruct (short_history_run historical_data days_ahead g Hne Hshort)
      as (last_value & _ & ->).
    unfold replicate. now rewrite Z2Nat.nonpos.
  - unfold predict_future_trend.
    apply Nat.ltb_ge in Hlong as Hbranch. rewrite Hbranch.
    set (recent_data := take_last 30 historical_data).
    assert (Hrecent : (0 < length recent_data)%nat).
    { unfold recent_data, take_last. rewrite length_skipn. lia. }
    assert (Hcoeffs : length (polyfit (arange (length recent_data)) recent_data 1) = 2%nat).
    { apply polyfit_linear.
      - destruct recent_data; [cbn in Hrecent; lia|]. cbn. discriminate.
      - unfold arange. now rewrite length_map, length_seq. }
    destruct (polyfit (arange (length recent_data)) recent_data 1)
      as [|trend_slope coeffs]; [discriminate|]. cbn [first_item].
    destruct (last_item_nonempty historical_data Hne) as [last_value ->].
    unfold range. rewrite Z2Nat.nonpos by lia. reflexivity.
Qed.

End ForecastMore.

Section ForecastMoreExamples.
Import Py Predictor Reference.

Lemma forecast_uses_last_30_values_witness :
  let recent := map (fun i => inject_Z (Z.of_nat i)) (seq 0 30) in
  (30 <= length recent)%nat
  /\ @predict_future_trend lcg_numpy ([100; 200] ++ recent) 5 (seed 42)
     = @predict_future_trend lcg_numpy recent 5 (seed 42).
Proof.
  cbn zeta.
  assert (H : (30 <= length (map (fun i => inject_Z (Z.of_nat i)) (seq 0 30)))%nat)
    by (cbn; lia).
  split; [exact H|].
  exact (@forecast_uses_last_30_values lcg_numpy [100; 200] _ 5 (seed 42) H).
Defined.

Lemma no_days_no_forecast_witness :
  falling_week <> []
  /\ (-2 <= 0)%Z
  /\ @predict_future_trend lcg_numpy falling_week (-2) (seed 42) = (ret [], seed 42).
Proof.
  assert (H1 : falling_week <> []) by discriminate.
  assert (H2 : (-2 <= 0)%Z) by lia.
  split; [exact H1|]. split; [exact H2|].
  exact (no_days_no_forecast falling_week (-2) (seed 42) H1 H2).
Defined.

End ForecastMoreExamples.

Section PreprocessFacts.
Import Py Predictor.
Context {np : Numpy} {sk : Sklearn}.

Lemma keys_setitem {V} (k : string) (v : V) (d : dict V) :
  In k (keys d) -> keys (setitem k v d) = keys d.
Proof.
  unfold keys. induction d as [|[k' v'] d IH]; cbn; [tauto|].
  destruct (String.eqb_spec k k') as [->|Hne]; [reflexivity|].
  intros [Heq|Hin]; [congruence|]. cbn. now rewrite IH.
Qed.

Lemma get_Some_key {V} (k : string) (d : dict V) (v : V) :
  get k d = Some v -> In k (keys d).
Proof. intros Hget. apply get_In in Hget. now apply (in_map fst) in Hget. Qed.

(** The shape of a frame: its number of rows and its column names. *)
Definition same_shape (df df' : DataFrame) : Prop :=
  n_rows df' = n_rows df /\ keys (columns df') = keys (columns df).

Lemma same_shape_refl df : same_shape df df.
Proof. now split. Qed.

Lemma same_shape_trans df1 df2 df3 :
  same_shape df1 df2 -> same_shape df2 df3 -> same_shape df1 df3.
Proof. unfold same_shape. intros [-> ->] [-> ->]. now split. Qed.

Lemma set_column_shape name c df df' :
  In name (keys (columns df)) ->
  set_column name c df = ret df' -> same_shape df df'.
Proof.
  intros Hin. unfold set_column.
  destruct (Nat.eqb _ _); [|discriminate].
  intros [= <-]. split; cbn; [reflexivity | now apply keys_setitem].
Qed.

Lemma set_columns_shape names :
  forall scaled df df',
    Forall (fun name => In name (keys (columns df))) names ->
    set_columns names scaled df = ret df' -> same_shape df df'.
Proof.
  induction names as [|name names IH]; intros [|xs scaled] df df' Hnames;
    cbn [set_columns]; try discriminate.
  - intros [= <-]. apply same_shape_refl.
  - inversion Hnames as [|? ? Hname Hrest]; subst.
    destruct (set_column name (Numeric xs) df) as [e|mid] eqn:Hset; cbn [bind];
      [discriminate|].
    intros Hrun. apply set_column_shape in Hset; [|assumption].
    eapply same_shape_trans; [exact Hset|].
    apply (IH scaled mid df'); [|assumption].
    destruct Hset as [_ ->]. assumption.
Qed.

Lemma collect_columns_names df names :
  forall acc cols,
    for_each names
      (fun acc name =>
         try! c := get_column df name in ret (acc ++ [(name, c)])%list)
      acc = ret cols ->
    Forall (fun name => In name (keys (columns df))) names.
Proof.
  induction names as [|name names IH]; intros acc cols; cbn [for_each];
    [constructor|].
  unfold get_column at 1, getitem at 1.
  destruct (get name (columns df)) as [c|] eqn:Hget; cbn [bind ret raise];
    [|discriminate].
  intros Hrest. constructor; [now apply get_Some_key in Hget|].
  exact (IH _ _ Hrest).
Qed.

Lemma select_names names df X :
  select names df = ret X ->
  Forall (fun name => In name (keys (columns df))) names.
Proof.
  unfold select.
  destruct (for_each names _ []) as [e|cols] eqn:Hrun; cbn [bind]; [discriminate|].
  intros _. eapply collect_columns_names. exact Hrun.
Qed.

Lemma encode_column_shape is_training df col self df' self' :
  encode_column is_training df col self = (ret df', self') -> same_shape df df'.
Proof.
  unfold encode_column.
  destruct (get col (columns df)) as [labels|] eqn:Hcol.
  - apply get_Some_key in Hcol. destruct is_training.
    + destruct (label_fit_transform new_LabelEncoder labels) as [[e|codes] encoder];
        cbn [bind]; intros [= Hset _].
      now apply set_column_shape in Hset.
    + destruct (encoders self !! col) as [encoder|].
      * destruct (label_transform encoder labels) as [e|codes]; cbn [bind];
          intros [= Hset _].
        now apply set_column_shape in Hset.
      * intros [= <- _]. apply same_shape_refl.
  - intros [= <- _]. apply same_shape_refl.
Qed.

Lemma encode_columns_shape is_training cols :
  forall df self df' self',
    method_for_each cols (encode_column is_training) df self = (ret df', self') ->
    same_shape df df'.
Proof.
  induction cols as [|col cols IH]; intros df self df' self'; cbn [method_for_each].
  - intros [= <- _]. apply same_shape_refl.
  - unfold method_bind.
    destruct (encode_column is_training df col self) as [[e|mid] s] eqn:Hstep;
      [discriminate|].
    intros Hrest. apply encode_column_shape in Hstep. apply IH in Hrest.
    eapply same_shape_trans; eassumption.
Qed.

Lemma scale_features_shape is_training df self df' self' :
  scale_features is_training df self = (ret df', self') -> same_shape df df'.
Proof.
  unfold scale_features. destruct is_training.
  - set (feature_cols := filter _ (keys (columns df))).
    destruct (select feature_cols df) as [e|X] eqn:Hselect; [discriminate|].
    destruct (scaler_fit_transform new_StandardScaler X) as [[e|scaled] scaler];
      cbn [bind]; intros [= Hset _].
    eapply set_columns_shape; [|exact Hset].
    eapply select_names; exact Hselect.
  - destruct (scalers self !! "features") as [scaler|].
    + destruct (select (feature_names self) df) as [e|X] eqn:Hselect; cbn [bind];
        [discriminate|].
      destruct (scaler_transform scaler X) as [e|scaled]; cbn [bind];
        intros [= Hset _].
      eapply set_columns_shape; [|exact Hset].
      eapply select_names; exact Hselect.
    + intros [= <- _]. apply same_shape_refl.
Qed.

Lemma preprocessing_keeps_the_shape_aux (df : DataFrame) (is_training : bool)
  (self : State) (df_processed : DataFrame) (self' : State) :
  preprocess_data df is_training self = (ret df_processed, self') ->
  same_shape df df_processed.
Proof.
  unfold preprocess_data, method_bind.
  destruct (method_for_each categorical_cols (encode_column is_training) df self)
    as [[e|encoded] s] eqn:Hencode; [discriminate|].
  intros Hscale. apply encode_columns_shape in Hencode.
  apply scale_features_shape in Hscale.
  exact (same_shape_trans _ _ _ Hencode Hscale).
Qed.

(** X21. When [preprocess_data] returns, in training or in prediction, the
    frame it returns has the rows and the column names of the frame it was
    given: encoding and scaling replace values, never rows or columns. *)
Theorem preprocessing_keeps_the_shape (df : DataFrame) (is_training : bool)
  (self : State) (df_processed : DataFrame) (self' : State) :
  preprocess_data df is_training self = (ret df_processed, self') ->
  n_rows df_processed = n_rows df
  /\ keys (columns df_processed) = keys (columns df).
Proof. apply preprocessing_keeps_the_shape_aux. Qed.

Lemma encode_column_inference_self df col self :
  snd (encode_column false df col self) = self.
Proof.
  unfold encode_column. destruct (get col (columns df)); [|reflexivity].
  destruct (encoders self !! col); reflexivity.
Qed.

Lemma preprocess_inference_self df self :
  snd (preprocess_data df false self) = self.
Proof.
  unfold preprocess_data, method_bind.
  assert (Hloop : forall cols df0,
             snd (method_for_each cols (encode_column false) df0 self) = self).
  { induction cols as [|col cols IH]; intros df0; cbn [method_for_each]; [reflexivity|].
    unfold method_bind.
    pose proof (encode_column_inference_self df0 col self) as Hstep.
    destruct (encode_column false df0 col self) as [[e|mid] s]; cbn in Hstep; subst s;
      [reflexivity | apply IH]. }
  specialize (Hloop categorical_cols df).
  destruct (method_for_each categorical_cols (encode_column false) df self)
    as [[e|encoded] s]; cbn in Hloop; subst s; [reflexivity|].
  unfold scale_features. destruct (scalers self !! "features"); reflexivity.
Qed.

(** X22. [predict_footprint] never changes the predictor, whether it
    returns an estimate or raises. *)
Theorem prediction_leaves_the_predictor (user_data : dict cell)
  (model_name : string) (self : State) :
  snd (predict_footprint user_data model_name self) = self.
Proof.
  unfold predict_footprint.
  destruct (models self !! model_name) as [model|]; [|reflexivity].
  unfold method_bind.
  pose proof (preprocess_inference_self (single_row user_data) self) as Hself.
  destruct (preprocess_data (single_row user_data) false self) as [[e|df] s];
    cbn in Hself; subst s; reflexivity.
Qed.

End PreprocessFacts.

Section PreprocessExamples.
Import Py Predictor Reference.

(** The five samples after preprocessing for training. *)
Definition five_samples_processed : DataFrame :=
  Eval vm_compute in
    match fst (preprocess_data five_samples true init) with
    | inr df => df
    | inl _ => five_samples
    end.

Lemma preprocessing_keeps_the_shape_witness :
  preprocess_data five_samples true init
  = (ret five_samples_processed, snd (preprocess_data five_samples true init))
  /\ n_rows five_samples_processed = n_rows five_samples
  /\ keys (columns five_samples_processed) = keys (columns five_samples).
Proof.
  assert (H : preprocess_data five_samples true init
              = (ret five_samples_processed,
                 snd (preprocess_data five_samples true init))).
  { rewrite (surjective_pairing (preprocess_data five_samples true init)) at 1.
    f_equal; vm_compute; reflexivity. }
  split; [exact H|].
  exact (preprocessing_keeps_the_shape five_samples true init
           five_samples_processed
           (snd (preprocess_data five_samples true init)) H).
Defined.

End PreprocessExamples.

Section TrainingMore.
Import Py Predictor.
Context {np : Numpy} {sk : Sklearn}.

(** The encoding loop only adds to the encoders. *)
Definition adds_encoders (self self' : State) : Prop :=
  models self' = models self
  /\ scalers self' = scalers self
  /\ feature_names self' = feature_names self
  /\ forall col, is_Some (encoders self !! col) -> is_Some (encoders self' !! col).

Lemma adds_encoders_refl self : adds_encoders self self.
Proof. repeat split; auto. Qed.

Lemma adds_encoders_trans s1 s2 s3 :
  adds_encoders s1 s2 -> adds_encoders s2 s3 -> adds_encoders s1 s3.
Proof.
  intros (Hm & Hs & Hf & He) (Hm' & Hs' & Hf' & He').
  repeat split; try congruence. auto.
Qed.

Lemma encode_column_adds is_training df col self :
  adds_encoders self (snd (encode_column is_training df col self)).
Proof.
  unfold encode_column.
  destruct (get col (columns df)) as [labels|]; [|apply adds_encoders_refl].
  destruct is_training.
  - destruct (label_fit_transform new_LabelEncoder labels) as [codes encoder].
    cbn [snd]. repeat split; try reflexivity.
    intros k Hk. cbn [encoders set_encoders].
    apply lookup_insert_is_Some. destruct (decide (col = k)); auto.
  - destruct (encoders self !! col); apply adds_encoders_refl.
Qed.

(** In training the encoder of a column that the frame has is registered,
    whether its fit succeeds or not. *)
Lemma encode_column_registers df col self :
  In col (keys (columns df)) ->
  is_Some (encoders (snd (encode_column true df col self)) !! col).
Proof.
  intros Hin. unfold encode_column.
  destruct (get_of_key _ _ Hin) as [labels ->].
  destruct (label_fit_transform new_LabelEncoder labels) as [codes encoder].
  cbn [snd encoders set_encoders]. rewrite lookup_insert_eq. eauto.
Qed.

Lemma encode_columns_add is_training cols :
  forall df self,
    adds_encoders self
      (snd (method_for_each cols (encode_column is_training) df self)).
Proof.
  induction cols as [|col cols IH]; intros df self; cbn [method_for_each].
  - apply adds_encoders_refl.
  - unfold method_bind.
    pose proof (encode_column_adds is_training df col self) as Hstep.
    destruct (encode_column is_training df col self) as [[e|mid] s];
      cbn [snd] in *; [assumption|].
    eapply adds_encoders_trans; [exact Hstep | apply IH].
Qed.

Lemma encode_columns_register cols :
  forall df self df' self',
    method_for_each cols (encode_column true) df self = (ret df', self') ->
    forall col, In col cols -> In col (keys (columns df)) ->
                is_Some (encoders self' !! col).
Proof.
  induction cols as [|first cols IH]; intros df self df' self';
    cbn [method_for_each]; [intros _ col []|].
  unfold method_bind.
  destruct (encode_column true df first self) as [[e|mid] s] eqn:Hstep;
    [discriminate|].
  intros Hrest col [<-|Hin] Hcol.
  - pose proof (encode_column_registers df first self Hcol) as Hreg.
    rewrite Hstep in Hreg. cbn [snd] in Hreg.
    pose proof (encode_columns_add true cols mid s) as Hadds.
    rewrite Hrest in Hadds. cbn [snd] in Hadds.
    destruct Hadds as (_ & _ & _ & Hkeep). now apply Hkeep.
  - apply (IH mid s df' self' Hrest col Hin).
    apply encode_column_shape in Hstep. destruct Hstep as [_ ->]. exact Hcol.
Qed.

(** The feature names of a frame: its columns other than the target. *)
Definition feature_columns (df : DataFrame) : list string :=
  filter (fun col => negb (String.eqb col "carbon_footprint")) (keys (columns df)).

(** In training the scaling step sets the feature names and registers a
    scaler, whether the fit succeeds or not. *)
Lemma scale_features_training df self :
  let self' := snd (scale_features true df self) in
  feature_names self' = feature_columns df
  /\ is_Some (scalers self' !! "features")
  /\ models self' = models self
  /\ encoders self' = encoders self.
Proof.
  cbn zeta. unfold scale_features.
  fold (feature_columns df).
  destruct (select (feature_columns df) df) as [e|X].
  - cbn. rewrite lookup_insert_eq. repeat split. eauto.
  - destruct (scaler_fit_transform new_StandardScaler X) as [scaled scaler].
    cbn. rewrite lookup_insert_eq. repeat split. eauto.
Qed.

Lemma train_one_result X_train X_test y_train y_test results name model self
  results' self' :
  train_one X_train X_test y_train y_test results (name, model) self
  = (ret results', self') ->
  exists fitted report,
    results' = setitem name report results
    /\ self' = set_models (<[name := fitted]> (models self)) self.
Proof.
  unfold train_one.
  match goal with
  | |- (match ?outcome with _ => _ end) = _ -> _ =>
      destruct outcome as [e|[fitted report]]
  end; intros [= <- <-]. eauto.
Qed.

Lemma train_one_keeps X_train X_test y_train y_test results entry self :
  let self' := snd (train_one X_train X_test y_train y_test results entry self) in
  scalers self' = scalers self
  /\ encoders self' = encoders self
  /\ feature_names self' = feature_names self
  /\ forall name, is_Some (models self !! name) -> is_Some (models self' !! name).
Proof.
  cbn zeta. unfold train_one. destruct entry as [name model].
  match goal with
  | |- context [match ?outcome with _ => _ end] =>
      destruct outcome as [e|[fitted report]]
  end; cbn; repeat split; auto.
  intros k Hk. apply lookup_insert_is_Some. destruct (decide (name = k)); auto.
Qed.

Lemma train_all_keep X_train X_test y_train y_test entries :
  forall results self,
    let self' :=
      snd (method_for_each entries
             (train_one X_train X_test y_train y_test) results self) in
    scalers self' = scalers self
    /\ encoders self' = encoders self
    /\ feature_names self' = feature_names self
    /\ forall name, is_Some (models self !! name) -> is_Some (models self' !! name).
Proof.
  induction entries as [|entry entries IH]; intros results self;
    cbn [method_for_each]; [cbn; auto|].
  cbn zeta. unfold method_bind.
  pose proof (train_one_keeps X_train X_test y_train y_test results entry self)
    as Hstep. cbn zeta in Hstep.
  destruct (train_one X_train X_test y_train y_test results entry self)
    as [[e|mid] s]; cbn [snd] in *; [assumption|].
  destruct Hstep as (Hs & He & Hf & Hm).
  destruct (IH mid s) as (Hs' & He' & Hf' & Hm').
  repeat split; try congruence. auto.
Qed.

(** X23. [train_models] never unregisters a model: whatever was registered
    before the call is registered after it, whether training succeeded or
    raised. *)
Theorem training_keeps_registered_models (df : DataFrame) (self : State)
  (model_name : string) :
  is_Some (models self !! model_name) ->
  is_Some (models (snd (train_models df self)) !! model_name).
Proof.
  intros Hreg. unfold train_models, method_bind.
  assert (Hpre : models (snd (preprocess_data df true self)) = models self).
  { unfold preprocess_data, method_bind.
    pose proof (encode_columns_add true categorical_cols df self) as Hadds.
    destruct (method_for_each categorical_cols (encode_column true) df self)
      as [[e|encoded] s]; cbn [snd] in *; [apply Hadds|].
    destruct (scale_features_training encoded s) as (_ & _ & -> & _).
    apply Hadds. }
  destruct (preprocess_data df true self) as [[e|df_processed] s];
    cbn [snd] in *; [now rewrite Hpre|].
  match goal with
  | |- context [match ?prepared with _ => _ end] =>
      destruct prepared as [e|[[[X_train X_test] y_train] y_test]]
  end; cbn [snd]; [now rewrite Hpre|].
  apply (train_all_keep X_train X_test y_train y_test). now rewrite Hpre.
Qed.

(** The names of the four model variants. *)
Definition variant_names : list string :=
  ["random_forest"; "gradient_boosting"; "xgboost"; "lightgbm"].

(** X24. When [train_models] returns its report, the report has one entry
    for each of the four variants, in order, all four models are registered,
    the feature names are the columns of the dataset other than
    [carbon_footprint], the scaler is registered under [features], and the
    dataset had a [carbon_footprint] column. *)
Theorem training_registers_all_variants (df : DataFrame) (self : State)
  (report : dict Metrics) (self' : State) :
  train_models df self = (ret report, self') ->
  keys report = variant_names
  /\ Forall (fun name => is_Some (models self' !! name)) variant_names
  /\ feature_names self' = feature_columns df
  /\ is_Some (scalers self' !! "features")
  /\ In "carbon_footprint" (keys (columns df)).
Proof.
  unfold train_models, method_bind.
  destruct (preprocess_data df true self) as [[e|df_processed] s1] eqn:Hpre;
    [discriminate|].
  assert (Hshape := preprocessing_keeps_the_shape_aux _ _ _ _ _ Hpre).
  assert (Hstate : feature_names s1 = feature_columns df
                   /\ is_Some (scalers s1 !! "features")).
  { revert Hpre. unfold preprocess_data, method_bind.
    destruct (method_for_each categorical_cols (encode_column true) df self)
      as [[e|encoded] s0] eqn:Hencode; [discriminate|].
    intros Hscale. apply encode_columns_shape in Hencode.
    destruct (scale_features_training encoded s0) as (Hf & Hs & _).
    rewrite Hscale in Hf, Hs. cbn [snd] in Hf, Hs.
    split; [|assumption]. rewrite Hf. unfold feature_columns.
    destruct Hencode as [_ ->]. reflexivity. }
  destruct (drop_column "carbon_footprint" df_processed) as [e|X] eqn:Hdrop;
    cbn [bind]; [discriminate|].
  assert (Htarget : In "carbon_footprint" (keys (columns df))).
  { revert Hdrop. unfold drop_column.
    destruct (get "carbon_footprint" (columns df_processed)) as [c|] eqn:Hget;
      [|discriminate].
    intros _. apply get_Some_key in Hget. destruct Hshape as [_ <-]. exact Hget. }
  destruct (get_column df_processed "carbon_footprint") as [e|y]; cbn [bind];
    [discriminate|].
  destruct (train_test_split X y) as [e|[[[X_train X_test] y_train] y_test]];
    [discriminate|].
  cbn [items models_to_train method_for_each]. unfold method_bind.
  destruct (train_one _ _ _ _ [] _ s1) as [[e|r1] s2] eqn:H1; [discriminate|].
  destruct (train_one _ _ _ _ r1 _ s2) as [[e|r2] s3] eqn:H2; [discriminate|].
  destruct (train_one _ _ _ _ r2 _ s3) as [[e|r3] s4] eqn:H3; [discriminate|].
  destruct (train_one _ _ _ _ r3 _ s4) as [[e|r4] s5] eqn:H4; [discriminate|].
  intros [= <- <-].
  apply train_one_result in H1, H2, H3, H4.
  destruct H1 as (m1 & p1 & -> & ->), H2 as (m2 & p2 & -> & ->),
           H3 as (m3 & p3 & -> & ->), H4 as (m4 & p4 & -> & ->).
  destruct Hstate as [Hnames Hscaler].
  split; [reflexivity|]. split; [|cbn; auto].
  cbn [models set_models].
  repeat constructor;
    repeat first [ rewrite lookup_insert_eq; eauto
                 | rewrite lookup_insert_ne by discriminate ].
Qed.

End TrainingMore.

Section FailedTraining.
Import Py Predictor.
Context {np : Numpy} {sk : Sklearn} {sk_laws : SklearnSpec sk}.

(** X25. Training is not all or nothing.  On a dataset without rows
    [train_models] raises, and yet it has replaced the feature names by the
    columns of that dataset, registered a scaler under [features] and an
    encoder for each categorical column that the dataset has. *)
Theorem failed_training_leaves_its_preparation (df : DataFrame) (self : State) :
  n_rows df = 0%nat ->
  well_formed df ->
  let self' := snd (train_models df self) in
  (exists e, fst (train_models df self) = raise e)
  /\ feature_names self' = feature_columns df
  /\ is_Some (scalers self' !! "features")
  /\ Forall (fun col => In col (keys (columns df)) ->
                        is_Some (encoders self' !! col)) categorical_cols.
Proof.
  intros Hrows Hwf. cbn zeta.
  unfold train_models, preprocess_data, method_bind.
  destruct (encode_columns_without_rows categorical_cols df self Hrows Hwf)
    as (encoded & s0 & Hencode & Hrows' & Hwf' & _).
  rewrite Hencode. unfold ret at 1 2 3 4.
  pose proof (encode_columns_register _ _ _ _ _ Hencode) as Hregistered.
  apply encode_columns_shape in Hencode. destruct Hencode as [_ Hkeys].
  destruct (scale_features_training encoded s0) as (Hnames & Hscaler & _ & Hencoders).
  assert (Hfails : exists e, fst (scale_features true encoded s0) = raise e).
  { unfold scale_features. fold (feature_columns encoded).
    destruct (select_keys (feature_columns encoded) encoded) as [cols ->].
    { apply Forall_forall. intros name Hin. apply filter_In in Hin. tauto. }
    cbv beta iota delta [ret].
    destruct (scaler_needs_samples new_StandardScaler
                {| n_rows := n_rows encoded; columns := cols |} Hrows')
      as (msg & scaler & ->).
    cbn. eauto. }
  destruct Hfails as [e He].
  destruct (scale_features true encoded s0) as [[e'|scaled] s1]; cbn [fst snd] in *;
    [|discriminate He].
  split; [eauto|]. split; [rewrite Hnames; unfold feature_columns; now rewrite Hkeys|].
  split; [assumption|].
  apply Forall_forall. intros col Hcol Hin. rewrite Hencoders. now apply Hregistered.
Qed.

End FailedTraining.

Section TrainingExamples.
Import Py Predictor Reference.

Lemma training_keeps_registered_models_witness :
  is_Some (models trained !! "xgboost")
  /\ is_Some (models (snd (train_models no_samples trained)) !! "xgboost").
Proof.
  assert (H : is_Some (models trained !! "xgboost")) by (vm_compute; eauto).
  split; [exact H|].
  exact (training_keeps_registered_models no_samples trained "xgboost" H).
Defined.

(** The report of training on the five samples. *)
Definition five_samples_report : dict Metrics :=
  Eval vm_compute in
    match fst (train_models five_samples init) with
    | inr report => report
    | inl _ => []
    end.

Lemma training_registers_all_variants_witness :
  train_models five_samples init
  = (ret five_samples_report, snd (train_models five_samples init))
  /\ keys five_samples_report = variant_names
  /\ Forall (fun name =>
               is_Some (models (snd (train_models five_samples init)) !! name))
       variant_names
  /\ feature_names (snd (train_models five_samples init))
     = feature_columns five_samples
  /\ is_Some (scalers (snd (train_models five_samples init)) !! "features")
  /\ In "carbon_footprint" (keys (columns five_samples)).
Proof.
  assert (H : train_models five_samples init
              = (ret five_samples_report, snd (train_models five_samples init))).
  { rewrite (surjective_pairing (train_models five_samples init)) at 1.
    f_equal; vm_compute; reflexivity. }
  split; [exact H|].
  exact (training_registers_all_variants five_samples init five_samples_report
           (snd (train_models five_samples init)) H).
Defined.

Lemma failed_training_leaves_its_preparation_witness :
  n_rows no_samples = 0%nat
  /\ well_formed no_samples
  /\ (exists e, fst (train_models no_samples init) = raise e)
  /\ feature_names (snd (train_models no_samples init)) = feature_columns no_samples
  /\ is_Some (scalers (snd (train_models no_samples init)) !! "features")
  /\ Forall (fun col => In col (keys (columns no_samples)) ->
                        is_Some (encoders (snd (train_models no_samples init)) !! col))
       categorical_cols.
Proof.
  assert (H1 : n_rows no_samples = 0%nat) by reflexivity.
  assert (H2 : well_formed no_samples) by (repeat constructor).
  split; [exact H1|]. split; [exact H2|].
  exact (failed_training_leaves_its_preparation
           (sk_laws := simple_sklearn_spec) no_samples init H1 H2).
Defined.

End TrainingExamples.

(** * Feature importance ([get_feature_importance]) *)

Module Importance.
Import Py Predictor.

(** [dict(pairs)]: a later pair replaces an earlier one with the same key. *)
Definition make_dict {V} (pairs : list (string * V)) : dict V :=
  fold_left (fun d '(k, v) => setitem k v d) pairs [].

(** [sorted(pairs, key=lambda x: x[1], reverse=True)]: descending by value
    and stable. *)
Fixpoint insert_by_value (x : string * Q) (sorted : list (string * Q))
  : list (string * Q) :=
  match sorted with
  | [] => [x]
  | y :: sorted' =>
      if Qlt_le_dec (snd x) (snd y) then y :: insert_by_value x sorted'
      else x :: sorted
  end.

Definition sorted_by_value (pairs : list (string * Q)) : list (string * Q) :=
  fold_right insert_by_value [] pairs.

Section WithImportances.
Context `{Numpy} `{Sklearn}.

(** [model.feature_importances_], when the model has the attribute. *)
Variable feature_importances_ : Regressor -> option (list Q).

Definition get_feature_importance (model_name : string) : Method (dict Q) :=
  fun self =>
    match models self !! model_name with
    | None =>
        (raise (ValueError
                  (String.append "Model "
                     (String.append model_name " not trained yet"))),
         self)
    | Some model =>
        match feature_importances_ model with
        | Some importances =>
            let importance_dict :=
              make_dict (combine (feature_names self) importances) in
            (ret (make_dict (sorted_by_value (items importance_dict))), self)
        | None => (ret [], self)
        end
    end.

End WithImportances.

End Importance.

Section ImportanceFacts.
Import Py Predictor Importance.

Lemma setitem_new {V} (k : string) (v : V) (d : dict V) :
  ~ In k (keys d) -> setitem k v d = (d ++ [(k, v)])%list.
Proof.
  unfold keys. induction d as [|[k' v'] d IH]; cbn; [reflexivity|].
  intros Hnot. destruct (String.eqb_spec k k') as [->|_]; [tauto|].
  rewrite IH; tauto.
Qed.

Lemma keys_setitem_any {V} (k : string) (v : V) (d : dict V) :
  forall k', In k' (keys (setitem k v d)) <-> k' = k \/ In k' (keys d).
Proof.
  unfold keys. induction d as [|[k0 v0] d IH]; intros k'; cbn; [intuition|].
  destruct (String.eqb_spec k k0) as [->|_]; cbn; [intuition|].
  rewrite IH. intuition.
Qed.

Lemma setitem_NoDup {V} (k : string) (v : V) (d : dict V) :
  NoDup (keys d) -> NoDup (keys (setitem k v d)).
Proof.
  intros Hd. destruct (in_dec string_dec k (keys d)) as [Hin|Hnot].
  - now rewrite keys_setitem.
  - rewrite setitem_new by assumption. unfold keys in *.
    rewrite map_app. cbn. apply NoDup_app; [assumption | repeat constructor; auto |].
    intros x Hx [<-|[]]. contradiction.
Qed.

Lemma setitem_In {V} (k : string) (v : V) (d : dict V) (entry : string * V) :
  In entry (setitem k v d) -> entry = (k, v) \/ In entry d.
Proof.
  induction d as [|[k0 v0] d IH]; cbn; [intuition|].
  destruct (String.eqb k k0); cbn; intuition.
Qed.

(** Building a dict from pairs: its keys are distinct and each of its
    entries is one of the pairs. *)
Lemma make_dict_from {V} (pairs : list (string * V)) :
  forall d, NoDup (keys d) ->
    let result := fold_left (fun d '(k, v) => setitem k v d) pairs d in
    NoDup (keys result)
    /\ forall entry, In entry result -> In entry d \/ In entry pairs.
Proof.
  induction pairs as [|[k v] pairs IH]; intros d Hd; cbn [fold_left].
  - split; [assumption | auto].
  - destruct (IH (setitem k v d) (setitem_NoDup k v d Hd)) as [Hnodup Hfrom].
    split; [assumption|]. intros entry Hentry.
    destruct (Hfrom entry Hentry) as [Hset|Hrest]; [|right; now right].
    apply setitem_In in Hset. destruct Hset as [->|Hold]; [right; now left | now left].
Qed.

(** A list of pairs with distinct keys is its own dict. *)
Lemma make_dict_distinct {V} (pairs : list (string * V)) :
  NoDup (keys pairs) -> make_dict pairs = pairs.
Proof.
  unfold make_dict.
  assert (Hgen : forall d, NoDup (keys (d ++ pairs)%list) ->
                 fold_left (fun d '(k, v) => setitem k v d) pairs d
                 = (d ++ pairs)%list).
  { induction pairs as [|[k v] pairs IH]; intros d Hd; cbn [fold_left].
    - now rewrite app_nil_r.
    - rewrite setitem_new.
      + rewrite IH; rewrite <- app_assoc; [reflexivity | exact Hd].
      + unfold keys in *. rewrite map_app in Hd. cbn in Hd.
        apply NoDup_remove_2 in Hd. intros Hin. apply Hd.
        apply in_or_app. now left. }
  intros Hd. apply (Hgen []). exact Hd.
Qed.

Lemma insert_by_value_Permutation x sorted :
  Permutation (x :: sorted) (insert_by_value x sorted).
Proof.
  induction sorted as [|y sorted IH]; cbn; [reflexivity|].
  destruct (Qlt_le_dec (snd x) (snd y)); [|reflexivity].
  rewrite perm_swap. now apply perm_skip.
Qed.

Lemma sorted_by_value_Permutation pairs :
  Permutation pairs (sorted_by_value pairs).
Proof.
  induction pairs as [|x pairs IH]; cbn; [reflexivity|].
  rewrite <- insert_by_value_Permutation. now apply perm_skip.
Qed.

(** [a] may stand before [b]: its value is not smaller. *)
Definition value_not_below (a b : string * Q) : Prop := snd b <= snd a.

Lemma insert_by_value_sorted x sorted :
  Sorted value_not_below sorted -> Sorted value_not_below (insert_by_value x sorted).
Proof.
  induction sorted as [|y sorted IH]; intros Hs; cbn.
  - repeat constructor.
  - destruct (Qlt_le_dec (snd x) (snd y)) as [Hlt|Hle].
    + inversion Hs as [|? ? Hs' Hhd]; subst.
      constructor; [now apply IH|].
      destruct sorted as [|z sorted]; cbn.
      * constructor. unfold value_not_below. now apply Qlt_le_weak.
      * destruct (Qlt_le_dec (snd x) (snd z)).
        -- inversion Hhd; subst. now constructor.
        -- constructor. unfold value_not_below. now apply Qlt_le_weak.
    + constructor; [assumption|]. now constructor.
Qed.

Lemma sorted_by_value_sorted pairs :
  StronglySorted value_not_below (sorted_by_value pairs).
Proof.
  apply Sorted_StronglySorted.
  - intros a b c. unfold value_not_below. intros Hab Hbc.
    eapply Qle_trans; eassumption.
  - induction pairs as [|x pairs IH]; cbn; [constructor|].
    now apply insert_by_value_sorted.
Qed.

(** Lookup after an assignment, and in a dict built from pairs: the last
    pair of a key is the one that counts. *)
Lemma get_setitem {V} (k k' : string) (v : V) (d : dict V) :
  get k (setitem k' v d) = if String.eqb k k' then Some v else get k d.
Proof.
  induction d as [|[k0 v0] d IH]; cbn; [reflexivity|].
  destruct (String.eqb_spec k' k0) as [->|Hne]; cbn.
  - destruct (String.eqb_spec k k0); reflexivity.
  - rewrite IH. destruct (String.eqb_spec k k0) as [->|_]; [|reflexivity].
    destruct (String.eqb_spec k0 k') as [<-|_]; [congruence | reflexivity].
Qed.

Lemma get_app {V} (k : string) (d d' : dict V) :
  get k (d ++ d')%list
  = match get k d with Some v => Some v | None => get k d' end.
Proof.
  induction d as [|[k0 v0] d IH]; cbn; [reflexivity|].
  destruct (String.eqb k k0); [reflexivity | exact IH].
Qed.

Lemma get_None {V} (k : string) (d : dict V) :
  get k d = None <-> ~ In k (keys d).
Proof.
  unfold keys. induction d as [|[k0 v0] d IH]; cbn; [tauto|].
  destruct (String.eqb_spec k k0) as [->|Hne].
  - split; [discriminate | intros Hnot; exfalso; apply Hnot; now left].
  - rewrite IH. split; [intros Hnot [Heq|Hin]; [congruence | tauto] | tauto].
Qed.

Lemma get_In_distinct {V} (k : string) (v : V) (d : dict V) :
  NoDup (keys d) -> (In (k, v) d <-> get k d = Some v).
Proof.
  unfold keys. induction d as [|[k0 v0] d IH]; cbn; intros Hd.
  - split; [tauto | discriminate].
  - inversion Hd as [|? ? Hnot Hd']; subst.
    destruct (String.eqb_spec k k0) as [->|Hne].
    + split.
      * intros [Heq|Hin]; [congruence|].
        exfalso. apply Hnot. change k0 with (fst (k0, v)). now apply in_map.
      * intros [= ->]. now left.
    + rewrite <- (IH Hd'). split; [intros [Heq|Hin]; [congruence | assumption] | tauto].
Qed.

Lemma make_dict_get {V} (k : string) (pairs : list (string * V)) :
  forall d,
    get k (fold_left (fun d '(k, v) => setitem k v d) pairs d)
    = match get k (rev pairs) with Some v => Some v | None => get k d end.
Proof.
  induction pairs as [|[k0 v0] pairs IH]; intros d; cbn [fold_left rev];
    [reflexivity|].
  rewrite IH, get_app, get_setitem. cbn [get].
  destruct (get k (rev pairs)); [reflexivity|].
  destruct (String.eqb k k0); reflexivity.
Qed.

(** The pair that counts for a key is the one no later pair replaces. *)
Lemma get_rev_last {V} (k : string) (v : V) (pairs : list (string * V)) :
  get k (rev pairs) = Some v
  <-> exists before after,
        pairs = (before ++ (k, v) :: after)%list /\ ~ In k (keys after).
Proof.
  induction pairs as [|[k0 v0] pairs IH] using rev_ind.
  - cbn. split; [discriminate|].
    intros (before & after & Heq & _). now destruct before.
  - rewrite rev_unit. cbn [get].
    destruct (String.eqb_spec k k0) as [->|Hne].
    + split.
      * intros [= ->]. exists pairs, []. split; [reflexivity | tauto].
      * intros (before & after & Heq & Hnot).
        destruct after as [|entry after _] using rev_ind.
        -- apply app_inj_tail in Heq. destruct Heq as [_ [= ->]]. reflexivity.
        -- exfalso. apply Hnot. change ((k0, v) :: (after ++ [entry]))%list
             with ([(k0, v)] ++ (after ++ [entry]))%list in Heq.
           rewrite !app_assoc in Heq. apply app_inj_tail in Heq.
           destruct Heq as [_ <-]. unfold keys. rewrite map_app.
           apply in_or_app. right. now left.
    + rewrite IH. split.
      * intros (before & after & -> & Hnot).
        exists before, (after ++ [(k0, v0)])%list.
        split; [now rewrite <- app_assoc|].
        unfold keys in *. rewrite map_app. intros Hin.
        apply in_app_or in Hin. destruct Hin as [Hin|[Heq|[]]]; [tauto|].
        cbn in Heq. congruence.
      * intros (before & after & Heq & Hnot).
        destruct after as [|entry after _] using rev_ind.
        -- apply app_inj_tail in Heq. destruct Heq as [_ [= Heq _]]. congruence.
        -- change ((k, v) :: (after ++ [entry]))%list
             with ([(k, v)] ++ (after ++ [entry]))%list in Heq.
           rewrite !app_assoc in Heq. apply app_inj_tail in Heq.
           destruct Heq as [-> <-]. exists before, after.
           split; [now rewrite <- app_assoc|].
           intros Hin. apply Hnot. unfold keys in *. rewrite map_app.
           apply in_or_app. now left.
Qed.

(** [zip] stops at the shorter list: its names are the first names. *)
Lemma keys_combine {V} (names : list string) (vs : list V) :
  keys (combine names vs) = take (length vs) names.
Proof.
  unfold keys. revert vs.
  induction names as [|name names IH]; intros [|v vs]; cbn; try reflexivity.
  now rewrite IH.
Qed.

Context {np : Numpy} {sk : Sklearn}.
Variable feature_importances_ : Regressor -> option (list Q).

(** X26. [get_feature_importance] raises the [ValueError] of
    [predict_footprint] for a name without a registered model.  When it
    returns, the predictor is unchanged and the mapping is in descending
    order of importance and has no feature twice.  For a model with
    importances its features are exactly the feature names that have an
    importance (the first [len(importances)] names), each reported with the
    importance paired to it by [zip], the last such pair when a name
    occurs twice; for a model without importances it is empty. *)
Theorem feature_importance_is_ranked (model_name : string) (self : State) :
  match models self !! model_name with
  | None =>
      get_feature_importance feature_importances_ model_name self
      = (raise (ValueError
                  (String.append "Model "
                     (String.append model_name " not trained yet"))),
         self)
  | Some model =>
      exists importance,
        get_feature_importance feature_importances_ model_name self
        = (ret importance, self)
        /\ StronglySorted value_not_below importance
        /\ NoDup (keys importance)
        /\ match feature_importances_ model with
           | Some importances =>
               (forall name,
                   In name (keys importance)
                   <-> In name (take (length importances) (feature_names self)))
               /\ (forall name value,
                      In (name, value) importance
                      <-> exists before after,
                            combine (feature_names self) importances
                            = (before ++ (name, value) :: after)%list
                            /\ ~ In name (keys after))
           | None => importance = []
           end
  end.
Proof.
  unfold get_feature_importance.
  destruct (models self !! model_name) as [model|]; [|reflexivity].
  destruct (feature_importances_ model) as [importances|].
  - set (pairs := combine (feature_names self) importances).
    destruct (make_dict_from pairs [] (NoDup_nil _)) as [Hnodup _].
    fold (make_dict pairs) in Hnodup. unfold items.
    assert (Hperm := sorted_by_value_Permutation (make_dict pairs)).
    assert (Hsorted_keys : NoDup (keys (sorted_by_value (make_dict pairs)))).
    { unfold keys in *. eapply Permutation_NoDup; [|exact Hnodup].
      now apply Permutation_map. }
    rewrite (make_dict_distinct _ Hsorted_keys).
    assert (Hentries : forall name value,
               In (name, value) (sorted_by_value (make_dict pairs))
               <-> get name (rev pairs) = Some value).
    { intros name value. split.
      - intros Hin. apply (Permutation_in _ (Permutation_sym Hperm)) in Hin.
        apply (get_In_distinct _ _ _ Hnodup) in Hin.
        unfold make_dict in Hin. rewrite make_dict_get in Hin. cbn [get] in Hin.
        destruct (get name (rev pairs)); [assumption | discriminate].
      - intros Hget. apply (Permutation_in _ Hperm).
        apply (get_In_distinct _ _ _ Hnodup).
        unfold make_dict. rewrite make_dict_get, Hget. reflexivity. }
    eexists. split; [reflexivity|].
    split; [apply sorted_by_value_sorted|]. split; [assumption|]. split.
    + intros name. rewrite <- keys_combine. fold pairs. split.
      * intros Hin. unfold keys in Hin. apply in_map_iff in Hin.
        destruct Hin as ([name' value] & <- & Hin). cbn [fst].
        apply Hentries, get_rev_last in Hin.
        destruct Hin as (before & after & -> & _).
        unfold keys. rewrite map_app. apply in_or_app. right. now left.
      * intros Hin. destruct (get name (rev pairs)) as [value|] eqn:Hget.
        -- apply Hentries in Hget. unfold keys.
           change name with (fst (name, value)). now apply in_map.
        -- exfalso. apply get_None in Hget. apply Hget.
           unfold keys in *. rewrite map_rev. now apply -> in_rev.
    + intros name value. rewrite Hentries. apply get_rev_last.
  - exists []. repeat split; constructor.
Qed.

End ImportanceFacts.

(** * Pattern analysis ([analyze_user_pattern]) *)

Module Patterns.
Import Py Tips.

Section WithDates.

(** The dates of the history frame, and pandas' [dt.day_name()] on them. *)
Variable Date : Type.
Variable day_name : Date -> string.

(** One row of the history frame. *)
Record DailyFootprint : Type :=
  { date : Date;
    transportation_emissions : Q;
    energy_emissions : Q;
    food_emissions : Q;
    waste_emissions : Q;
    total_emissions : Q }.

(** [series.mean()] *)
Definition mean (xs : list Q) : Q := sum xs / inject_Z (Z.of_nat (length xs)).

(** [min(xs, key=key)]: the first of the smallest. *)
Fixpoint min_from {A} (key : A -> Q) (best : A) (xs : list A) : A :=
  match xs with
  | [] => best
  | x :: xs' => min_from key (if Qlt_le_dec (key x) (key best) then x else best) xs'
  end.

(** [groupby(key)[value]]: the values of each key, the keys in ascending
    order. *)
Fixpoint add_to_group (k : string) (v : Q) (groups : list (string * list Q))
  : list (string * list Q) :=
  match groups with
  | [] => [(k, [v])]
  | (k', vs) :: groups' =>
      if String.eqb k k' then (k', (vs ++ [v])%list) :: groups'
      else if String.ltb k k' then (k, [v]) :: groups
      else (k', vs) :: add_to_group k v groups'
  end.

Definition groupby_mean (rows : list (string * Q)) : list (string * Q) :=
  map (fun '(k, vs) => (k, mean vs))
    (fold_left (fun groups '(k, v) => add_to_group k v groups) rows []).

(** [series.idxmax()] and [series.idxmin()]: the first label of the largest
    and of the smallest value; an empty series has none. *)
Definition idxmax (series : list (string * Q)) : result (string * Q) :=
  match series with
  | [] => raise (ValueError "attempt to get argmax of an empty sequence")
  | x :: xs => ret (max_from snd x xs)
  end.

Definition idxmin (series : list (string * Q)) : result (string * Q) :=
  match series with
  | [] => raise (ValueError "attempt to get argmin of an empty sequence")
  | x :: xs => ret (min_from snd x xs)
  end.

Record PatternAnalysis : Type :=
  { patterns : list string;
    opportunities : list string }.

(** The trend step, for a history of at least 7 days. *)
Definition trend_step (footprint_history : list DailyFootprint)
  (analysis : PatternAnalysis) : PatternAnalysis :=
  let totals := map total_emissions footprint_history in
  let recent_avg := mean (take_last 7 totals) in
  let older_avg := mean (take 7 totals) in
  if Qlt_le_dec (older_avg * 1.1) recent_avg then
    {| patterns :=
         (patterns analysis ++ ["Your emissions have been increasing recently"])%list;
       opportunities :=
         (opportunities analysis
          ++ ["Focus on reducing daily activities that contribute most to emissions"])%list |}
  else if Qlt_le_dec recent_avg (older_avg * 0.9) then
    {| patterns :=
         (patterns analysis ++ ["Great! Your emissions have been decreasing"])%list;
       opportunities := opportunities analysis |}
  else
    {| patterns :=
         (patterns analysis ++ ["Your emissions have been relatively stable"])%list;
       opportunities := opportunities analysis |}.

(** The weekday step, for a history of at least 14 days. *)
Definition weekday_step (footprint_history : list DailyFootprint)
  (analysis : PatternAnalysis) : result PatternAnalysis :=
  let daily_avg :=
    groupby_mean
      (map (fun row => (day_name (date row), total_emissions row))
         footprint_history) in
  try! highest := idxmax daily_avg in
  try! lowest := idxmin daily_avg in
  let highest_day := fst highest in
  let lowest_day := fst lowest in
  let patterns :=
    (patterns analysis
     ++ [String.append "Your highest emission day is typically " highest_day]
     ++ [String.append "Your lowest emission day is typically " lowest_day])%list in
  ret {| patterns := patterns;
         opportunities :=
           if Qlt_le_dec (snd lowest * 1.5) (snd highest)
           then (opportunities analysis
                 ++ [String.append "Try to replicate your "
                       (String.append lowest_day
                          (String.append " habits on " highest_day))])%list
           else opportunities analysis |}.

(** The averages per category, in the order of the dict. *)
Definition category_avgs (footprint_history : list DailyFootprint)
  : list (string * Q) :=
  [ ("transportation", mean (map transportation_emissions footprint_history));
    ("energy", mean (map energy_emissions footprint_history));
    ("food", mean (map food_emissions footprint_history));
    ("waste", mean (map waste_emissions footprint_history)) ].

(** [analyze_user_pattern].  The [day_of_week] column that the code adds to
    the caller's frame is not part of the result. *)
Definition analyze_user_pattern (footprint_history : list DailyFootprint)
  : result PatternAnalysis :=
  if Nat.eqb (length footprint_history) 0 then
    ret {| patterns := []; opportunities := [] |}
  else
    try! highest := max_by snd (category_avgs footprint_history) in
    let highest_category := fst highest in
    let analysis :=
      {| patterns :=
           [String.append "Your highest emissions come from " highest_category];
         opportunities := [] |} in
    let analysis :=
      if (7 <=? length footprint_history)%nat
      then trend_step footprint_history analysis
      else analysis in
    if (14 <=? length footprint_history)%nat
    then weekday_step footprint_history analysis
    else ret analysis.

End WithDates.

End Patterns.


Section PatternsFacts.
Import Py Tips Patterns.
Context {Date : Type} (day_name : Date -> string).

Lemma add_to_group_nonempty k v groups : add_to_group k v groups <> [].
Proof.
  destruct groups as [|[k' vs] groups]; cbn; [discriminate|].
  destruct (String.eqb k k'); [discriminate|].
  destruct (String.ltb k k'); discriminate.
Qed.

Lemma groupby_mean_nonempty (rows : list (string * Q)) :
  rows <> [] -> groupby_mean rows <> [].
Proof.
  intros Hne. unfold groupby_mean.
  assert (Hgroups : forall groups, groups <> [] \/ rows <> [] ->
             fold_left (fun groups '(k, v) => add_to_group k v groups) rows groups
             <> []).
  { clear Hne. induction rows as [|[k v] rows IH]; intros groups Hor; cbn [fold_left].
    - destruct Hor; congruence.
    - apply IH. left. apply add_to_group_nonempty. }
  specialize (Hgroups [] (or_intror Hne)).
  destruct (fold_left _ rows []); [congruence | discriminate].
Qed.

Lemma trend_step_counts (footprint_history : list (DailyFootprint Date)) analysis :
  let analysis' := trend_step Date footprint_history analysis in
  length (patterns analysis') = S (length (patterns analysis))
  /\ (length (opportunities analysis)
      <= length (opportunities analysis')
      <= S (length (opportunities analysis)))%nat.
Proof.
  cbn zeta. unfold trend_step.
  destruct (Qlt_le_dec _ _); [|destruct (Qlt_le_dec _ _)];
    cbn [patterns opportunities]; rewrite ?length_app; cbn [length]; lia.
Qed.

Lemma weekday_step_counts (footprint_history : list (DailyFootprint Date)) analysis :
  footprint_history <> [] ->
  exists analysis',
    weekday_step Date day_name footprint_history analysis = ret analysis'
    /\ length (patterns analysis') = S (S (length (patterns analysis)))
    /\ (length (opportunities analysis)
        <= length (opportunities analysis')
        <= S (length (opportunities analysis)))%nat.
Proof.
  intros Hne. unfold weekday_step.
  set (rows := map _ footprint_history).
  assert (Hrows : rows <> []) by (subst rows; destruct footprint_history; [congruence | discriminate]).
  apply groupby_mean_nonempty in Hrows.
  destruct (groupby_mean rows) as [|first others]; [congruence|].
  cbn [idxmax idxmin bind ret]. eexists. split; [reflexivity|].
  cbn [patterns opportunities]. rewrite !length_app. cbn [length].
  split; [lia|]. destruct (Qlt_le_dec _ _); rewrite ?length_app; cbn [length]; lia.
Qed.

Lemma analysis_counts
  (footprint_history : list (DailyFootprint Date)) :
  let n := length footprint_history in
  exists analysis,
    analyze_user_pattern Date day_name footprint_history = ret analysis
    /\ length (patterns analysis)
       = (if n =? 0 then 0
          else 1 + (if 7 <=? n then 1 else 0) + (if 14 <=? n then 2 else 0))%nat
    /\ (length (opportunities analysis)
        <= (if 7 <=? n then 1 else 0) + (if 14 <=? n then 1 else 0))%nat.
Proof.
  cbn zeta. unfold analyze_user_pattern.
  destruct (Nat.eqb_spec (length footprint_history) 0) as [Hzero|Hsome].
  { eexists. split; [reflexivity|]. cbn. split; lia. }
  assert (Hne : footprint_history <> [])
    by (destruct footprint_history; [cbn in Hsome; lia | discriminate]).
  cbn [category_avgs max_by bind ret].
  set (first_pattern := String.append _ _).
  set (start := {| patterns := [first_pattern]; opportunities := [] |}).
  assert (Hstart : length (patterns start) = 1%nat
                   /\ length (opportunities start) = 0%nat) by (split; reflexivity).
  destruct Hstart as [Hstart_p Hstart_o].
  destruct (Nat.leb_spec 7 (length footprint_history)) as [Hweek|Hweek].
  - destruct (trend_step_counts footprint_history start) as [Hp Ho].
    destruct (Nat.leb_spec 14 (length footprint_history)) as [Hweeks|Hweeks].
    + destruct (weekday_step_counts footprint_history
                  (trend_step Date footprint_history start) Hne)
        as (analysis & -> & Hp' & Ho').
      exists analysis. split; [reflexivity|]. split; lia.
    + eexists. split; [reflexivity|]. split; lia.
  - destruct (Nat.leb_spec 14 (length footprint_history)) as [Hweeks|_]; [lia|].
    eexists. split; [reflexivity|]. split; lia.
Qed.


(** X27. [analyze_user_pattern] raises nothing, and the length of the
    history decides how much it reports: nothing for an empty history; one
    pattern (the highest category) for fewer than 7 days; a second one (the
    trend) from 7 days on; two more (the highest and the lowest weekday)
    from 14 days on; and at most one opportunity with the trend and one with
    the weekdays. *)
Theorem pattern_analysis_grows_with_history
  (footprint_history : list (DailyFootprint Date)) :
  let n := length footprint_history in
  exists analysis,
    analyze_user_pattern Date day_name footprint_history = ret analysis
    /\ length (patterns analysis)
       = (if n =? 0 then 0
          else 1 + (if 7 <=? n then 1 else 0) + (if 14 <=? n then 2 else 0))%nat
    /\ (length (opportunities analysis)
        <= (if 7 <=? n then 1 else 0) + (if 14 <=? n then 1 else 0))%nat.
Proof. apply analysis_counts. Qed.

(** X28. With a history of exactly 7 days the first 7 and the last 7 days
    are the same days, so for totals that do not sum below zero the trend is
    always reported as stable, with no opportunity. *)
Theorem one_week_is_always_stable
  (footprint_history : list (DailyFootprint Date)) :
  length footprint_history = 7%nat ->
  0 <= sum (map (total_emissions Date) footprint_history) ->
  exists highest,
    analyze_user_pattern Date day_name footprint_history
    = ret {| patterns :=
               [highest; "Your emissions have been relatively stable"];
             opportunities := [] |}.
Proof.
  intros Hlen Hsum. unfold analyze_user_pattern. rewrite Hlen.
  cbn [Nat.eqb Nat.leb category_avgs max_by bind ret].
  eexists. unfold trend_step.
  set (totals := map (total_emissions Date) footprint_history) in *.
  assert (Htotals : length totals = 7%nat) by (subst totals; now rewrite length_map).
  replace (take_last 7 totals) with totals
    by (unfold take_last; rewrite Htotals; reflexivity).
  replace (take 7 totals) with totals
    by (rewrite <- Htotals; symmetry; apply firstn_all).
  assert (Hmean : 0 <= mean totals).
  { unfold mean. rewrite Htotals. apply Qle_shift_div_l; [reflexivity|].
    now rewrite Qmult_0_l. }
  cbn [patterns opportunities app].
  destruct (Qlt_le_dec (mean totals * 1.1) (mean totals)) as [Hup|_]; [lra|].
  destruct (Qlt_le_dec (mean totals) (mean totals * 0.9)) as [Hdown|_]; [lra|].
  reflexivity.
Qed.

Lemma trend_step_extends (footprint_history : list (DailyFootprint Date)) analysis :
  exists more,
    patterns (trend_step Date footprint_history analysis)
    = (patterns analysis ++ more)%list.
Proof.
  unfold trend_step.
  destruct (Qlt_le_dec _ _); [|destruct (Qlt_le_dec _ _)];
    cbn [patterns]; eexists; reflexivity.
Qed.

Lemma weekday_step_extends (footprint_history : list (DailyFootprint Date))
  analysis analysis' :
  weekday_step Date day_name footprint_history analysis = ret analysis' ->
  exists more, patterns analysis' = (patterns analysis ++ more)%list.
Proof.
  unfold weekday_step.
  destruct (idxmax _) as [e|highest]; cbn [bind]; [discriminate|].
  destruct (idxmin _) as [e|lowest]; cbn [bind]; [discriminate|].
  intros [= <-]. cbn [patterns]. eexists. reflexivity.
Qed.

(** X29. For a history that is not empty the first pattern names a category
    whose average emissions are the highest of the four. *)
Theorem first_pattern_names_the_highest_category
  (footprint_history : list (DailyFootprint Date)) :
  footprint_history <> [] ->
  exists analysis c average more,
    analyze_user_pattern Date day_name footprint_history = ret analysis
    /\ patterns analysis
       = String.append "Your highest emissions come from " c :: more
    /\ In (c, average) (category_avgs Date footprint_history)
    /\ Forall (fun entry => snd entry <= average)
         (category_avgs Date footprint_history).
Proof.
  intros Hne.
  destruct (analysis_counts footprint_history) as (analysis & Hrun & _).
  exists analysis.
  assert (Hshape : exists c average more,
             patterns analysis
             = String.append "Your highest emissions come from " c :: more
             /\ In (c, average) (category_avgs Date footprint_history)
             /\ Forall (fun entry => snd entry <= average)
                  (category_avgs Date footprint_history)).
  { revert Hrun. unfold analyze_user_pattern.
    destruct (Nat.eqb_spec (length footprint_history) 0) as [Hzero|_].
    { destruct footprint_history; [congruence | discriminate Hzero]. }
    unfold category_avgs. cbn [max_by bind ret].
    match goal with
    | |- context [max_from snd ?first ?others] =>
        pose proof (max_from_In snd others first) as Hin;
        pose proof (max_from_upper snd others first) as Hupper;
        destruct (max_from snd first others) as [c average]
    end.
    cbn [fst snd] in *.
    set (start := {| patterns := [String.append "Your highest emissions come from " c];
                     opportunities := [] |}).
    intros Hrun. exists c, average.
    assert (Hmore : exists more, patterns analysis = (patterns start ++ more)%list).
    { revert Hrun. destruct (7 <=? length footprint_history)%nat.
      - destruct (trend_step_extends footprint_history start) as [more1 Hmore1].
        destruct (14 <=? length footprint_history)%nat; intros Hrun.
        + apply weekday_step_extends in Hrun. destruct Hrun as [more2 ->].
          rewrite Hmore1, <- app_assoc. eauto.
        + injection Hrun as <-. eauto.
      - destruct (14 <=? length footprint_history)%nat; intros Hrun.
        + apply weekday_step_extends in Hrun. exact Hrun.
        + injection Hrun as <-. exists []. now rewrite app_nil_r. }
    destruct Hmore as [more ->]. exists more. cbn [patterns app start].
    split; [reflexivity|]. split; assumption. }
  destruct Hshape as (c & average & more & Hshape).
  exists c, average, more. split; [exact Hrun | exact Hshape].
Qed.

End PatternsFacts.

Section PatternsExamples.
Import Py Patterns.

(** Days are numbered; day 0 is a Monday. *)
Definition weekday (day : Z) : string :=
  nth (Z.to_nat (day mod 7))
    ["Monday"; "Tuesday"; "Wednesday"; "Thursday"; "Friday"; "Saturday"; "Sunday"]
    "Monday".

Definition day_record (day : Z) (driving : Q) : DailyFootprint Z :=
  {| date := day;
     transportation_emissions := driving;
     energy_emissions := 8;
     food_emissions := 6;
     waste_emissions := 1;
     total_emissions := driving + 15 |}.

(** A week with a heavy Friday. *)
Definition one_week : list (DailyFootprint Z) :=
  [ day_record 0 4; day_record 1 4; day_record 2 5; day_record 3 4;
    day_record 4 30; day_record 5 0; day_record 6 0 ].

Lemma one_week_is_always_stable_witness :
  length one_week = 7%nat
  /\ 0 <= sum (map (total_emissions Z) one_week)
  /\ exists highest,
      analyze_user_pattern Z weekday one_week
      = ret {| patterns :=
                 [highest; "Your emissions have been relatively stable"];
               opportunities := [] |}.
Proof.
  assert (H1 : length one_week = 7%nat) by reflexivity.
  assert (H2 : 0 <= sum (map (total_emissions Z) one_week))
    by (vm_compute; discriminate).
  split; [exact H1|]. split; [exact H2|].
  exact (one_week_is_always_stable weekday one_week H1 H2).
Defined.

Lemma first_pattern_names_the_highest_category_witness :
  one_week <> []
  /\ exists analysis c average more,
      analyze_user_pattern Z weekday one_week = ret analysis
      /\ patterns analysis
         = String.append "Your highest emissions come from " c :: more
      /\ In (c, average) (category_avgs Z one_week)
      /\ Forall (fun entry => snd entry <= average) (category_avgs Z one_week).
Proof.
  assert (H : one_week <> []) by discriminate.
  split; [exact H|].
  exact (first_pattern_names_the_highest_category weekday one_week H).
Defined.

End PatternsExamples.
